(** * polkuweb: shift-time and performance-normalisation engine

    A shallow embedding of the TypeScript sources

      - [src/utils.ts]            (effectiveHours, computePerformancePercentage,
                                   calculateAverage, calculatePercentage)
      - [src/PerformanceModal.tsx] (computeHoursFromTimes, addHours,
                                   getDefaultStartTime, the two effects,
                                   handleStartTime, handleEndTime,
                                   handleSubmit)
      - [App.tsx]                  (getOngoingShift, getPeriodForDate,
                                   onChange, handleFormSubmit,
                                   handleDeleteData, formatDate,
                                   filterDates, the date keys and the
                                   period averages)

    together with the part of the JavaScript run-time these functions rely
    on (numbers, [Math], [Number], [parseInt], [parseFloat], strings,
    objects, [Date]).

    The run-time is given twice.

    [JS] is the exact one.  A number is an exact rational or [NaN], every
    operation is the exact operation that the binary64 one approximates,
    and local time is at one constant offset from UTC.  The sources over it
    are [Utils], [PerformanceModal] and [App]; the statements made there are
    about texts, calendar dates, the store, and arithmetic on values that
    binary64 represents exactly.

    [F64] and [Host] are the run-time of an engine.  A number is a binary64
    value, an infinity or [NaN], and every operation rounds to nearest, ties
    to even, overflowing to an infinity; [Number] and [parseFloat] read every
    literal of their grammars, [Infinity] and the exponent and radix forms
    included; a [Date] is read in a time zone whose offset may change.  The
    sources over it are [Hosted], the same functions line by line; the
    statements about quotients and means, about what the forms accept, and
    about hours between clock times are made there.

    In both, texts are ASCII, the sign of zero is not represented (no source
    function divides by a zero or prints one that could be negative), and
    [toFixed] and [toString] write positional notation, which is what the
    engine does below [10^21]. *)

From Stdlib Require Import ZArith QArith Qround Qabs Qminmax Qpower Lqa Lia Bool List String Ascii.
From Stdlib Require Import DecimalString DecimalN.
Import ListNotations.

Open Scope Q_scope.

(* ================================================================= *)
(** ** The JavaScript run-time used by the sources *)

Module JS.

(** *** Numbers *)

(** An exact number: a rational or [NaN].  The binary64 numbers of an
    engine, with their rounding and infinities, are [F64.t] below. *)
Inductive number : Type :=
| NaN : number
| Fin (q : Q) : number.

(** Equality of numbers as values: the rational payloads are compared up to
    [Qeq], so that [Fin (29 # 4)] and [Fin (725 # 100)] are the same number. *)
Definition num_eq (a b : number) : Prop :=
  match a, b with
  | NaN, NaN => True
  | Fin x, Fin y => x == y
  | _, _ => False
  end.

Definition isNaN (a : number) : bool :=
  match a with NaN => true | Fin _ => false end.

Definition lift2 (f : Q -> Q -> Q) (a b : number) : number :=
  match a, b with
  | Fin x, Fin y => Fin (f x y)
  | _, _ => NaN
  end.

Definition add : number -> number -> number := lift2 Qplus.
Definition sub : number -> number -> number := lift2 Qminus.
Definition mul : number -> number -> number := lift2 Qmult.

(** [a / b].  Every division in the sources is by a non-zero constant or is
    guarded by a test on the divisor; a zero divisor, whose quotient would
    be an infinity, is mapped to [NaN]. *)
Definition div (a b : number) : number :=
  match a, b with
  | Fin x, Fin y => if Qeq_bool y 0 then NaN else Fin (x / y)
  | _, _ => NaN
  end.

(** Relational operators: any comparison with [NaN] is [false]. *)
Definition le (a b : number) : bool :=
  match a, b with
  | Fin x, Fin y => Qle_bool x y
  | _, _ => false
  end.

Definition lt (a b : number) : bool :=
  match a, b with
  | Fin x, Fin y => negb (Qle_bool y x)
  | _, _ => false
  end.

Definition ge (a b : number) : bool := le b a.
Definition gt (a b : number) : bool := lt b a.

(** *** Math *)

Definition Math_max : number -> number -> number := lift2 Qmax.
Definition Math_min : number -> number -> number := lift2 Qmin.

(** [Math.round]: the integer closest to the argument, the larger one on a
    tie, that is [floor (x + 1/2)]. *)
Definition round_half_up (x : Q) : Z := Qfloor (x + (1 # 2)).

Definition Math_round (a : number) : number :=
  match a with
  | NaN => NaN
  | Fin x => Fin (inject_Z (round_half_up x))
  end.

(** [ToIntegerOrInfinity] on a finite value: truncation towards zero. *)
Definition trunc (x : Q) : Z :=
  if Qle_bool 0 x then Qfloor x else Qceiling x.

Definition of_Z (z : Z) : number := Fin (inject_Z z).

(** *** Completions

    A call either returns a value or raises.  The only raising operation
    the sources can reach is a property read on [undefined] or [null]. *)

Inductive error : Type :=
| TypeError : error.

Inductive completion (A : Type) : Type :=
| Returned (a : A) : completion A
| Raised (e : error) : completion A.

Arguments Returned {A} a.
Arguments Raised {A} e.

Definition bind {A B : Type} (c : completion A) (k : A -> completion B)
  : completion B :=
  match c with
  | Returned a => k a
  | Raised e => Raised e
  end.

Notation "x <- c ;; k" := (bind c (fun x => k))
  (at level 61, c at next level, right associativity).

(** *** Values *)

#[warnings="-register-all"]
Inductive value : Type :=
| VUndefined : value
| VNull : value
| VBool (b : bool) : value
| VNumber (n : number) : value
| VString (s : string) : value
| VObject (props : list (string * value)) : value.

(** *** Strings *)

Definition is_digit (c : ascii) : bool :=
  let n := N_of_ascii c in ((48 <=? n) && (n <=? 57))%N.

Definition digit_val (c : ascii) : Z := Z.of_N (N_of_ascii c) - 48.

(** White space recognised by [trim]: TAB, LF, VT, FF, CR and SPACE. *)
Definition is_white (c : ascii) : bool :=
  let n := N_of_ascii c in (((9 <=? n) && (n <=? 13)) || (n =? 32))%N.

Fixpoint drop_white (l : list ascii) : list ascii :=
  match l with
  | c :: r => if is_white c then drop_white r else l
  | [] => []
  end.

Definition trim (l : list ascii) : list ascii :=
  rev (drop_white (rev (drop_white l))).

(** Value of a run of decimal digits, most significant first; [None] when a
    character is not a digit. *)
Fixpoint digits_val (acc : Z) (l : list ascii) : option Z :=
  match l with
  | [] => Some acc
  | c :: r => if is_digit c then digits_val (10 * acc + digit_val c) r else None
  end.

Fixpoint span_digits (l : list ascii) : list ascii * list ascii :=
  match l with
  | c :: r =>
      if is_digit c then let (d, rest) := span_digits r in (c :: d, rest)
      else ([], l)
  | [] => ([], [])
  end.

Definition is_nil {A : Type} (l : list A) : bool :=
  match l with [] => true | _ :: _ => false end.

(** [digits], [digits.], [digits.digits] and [.digits]. *)
Definition unsigned_decimal (l : list ascii) : option Q :=
  let (ip, rest) := span_digits l in
  match rest with
  | [] => if is_nil ip then None
          else option_map inject_Z (digits_val 0 ip)
  | c :: fp =>
      if Ascii.eqb c "."%char && negb (is_nil ip && is_nil fp) then
        match digits_val 0 ip, digits_val 0 fp with
        | Some i, Some f =>
            let scale := (10 ^ Z.of_nat (List.length fp))%Z in
            Some (inject_Z (i * scale + f) / inject_Z scale)
        | _, _ => None
        end
      else None
  end.

(** [StringToNumber], the conversion behind [Number(s)]: white space is
    trimmed, the empty string is [0], a signed decimal literal is its value
    and anything else is [NaN].  This is the conversion of plain decimal
    texts, which is what the clock times of the forms are; exponent parts,
    the [0x]/[0o]/[0b] integer literals and [Infinity] are converted by
    [Host.StringToNumber] below. *)
Definition StringToNumber (s : string) : number :=
  match trim (list_ascii_of_string s) with
  | [] => Fin 0
  | c :: r =>
      let (sign, body) :=
        if Ascii.eqb c "+"%char then (1, r)
        else if Ascii.eqb c "-"%char then (-1, r)
        else (1, c :: r) in
      match unsigned_decimal body with
      | Some q => Fin (sign * q)
      | None => NaN
      end
  end.

(** [s.split(sep)] for a one-character separator. *)
Fixpoint split (sep : ascii) (s : string) : list string :=
  match s with
  | EmptyString => [EmptyString]
  | String c r =>
      if Ascii.eqb c sep then EmptyString :: split sep r
      else match split sep r with
           | h :: t => String c h :: t
           | [] => [String c EmptyString]
           end
  end.

(** *** Conversions and property reads *)

(** [ToNumber]; an object converts through its string form, which for the
    plain objects used here is never numeric. *)
Definition ToNumber (v : value) : number :=
  match v with
  | VUndefined => NaN
  | VNull => Fin 0
  | VBool b => if b then Fin 1 else Fin 0
  | VNumber n => n
  | VString s => StringToNumber s
  | VObject _ => NaN
  end.

(** [Number(v)] called as a function. *)
Definition Number (v : value) : number := ToNumber v.

(** Truthiness of a string, as tested by [!s]. *)
Definition truthy_string (s : string) : bool :=
  match s with EmptyString => false | String _ _ => true end.

Fixpoint lookup (key : string) (props : list (string * value)) : value :=
  match props with
  | [] => VUndefined
  | (k, v) :: r => if String.eqb k key then v else lookup key r
  end.

(** [o.key] and [o[key]] for the data properties the sources read: a read
    on [undefined] or [null] raises; a property the object does not have
    reads as [undefined]. *)
Definition get (o : value) (key : string) : completion value :=
  match o with
  | VUndefined | VNull => Raised TypeError
  | VObject props => Returned (lookup key props)
  | _ => Returned VUndefined
  end.

(** [Object.keys(o)] for string keys, in insertion order. *)
Definition Object_keys (props : list (string * value)) : list string :=
  map fst props.

(** Element [i] of an array, [undefined] past its end. *)
Definition index (l : list number) (i : nat) : value :=
  match nth_error l i with
  | Some n => VNumber n
  | None => VUndefined
  end.

(** [a < b] on values that are numbers or [undefined]. *)
Definition lt_value (a b : value) : bool := lt (ToNumber a) (ToNumber b).

(** *** Number.prototype.toFixed *)

Definition decimal_of_Z (z : Z) : string :=
  NilZero.string_of_uint (N.to_uint (Z.to_N z)).

Fixpoint zeros (n : nat) : string :=
  match n with O => EmptyString | S k => String "0"%char (zeros k) end.

Definition pad_left (width : nat) (s : string) : string :=
  (zeros (width - String.length s) ++ s)%string.

(** [x.toFixed(f)] for [|x| < 10^21]: [n] is the integer for which
    [n / 10^f] is closest to [|x|] (the larger on a tie), written with [f]
    digits after the point. *)
Definition toFixed (f : nat) (x : number) : string :=
  match x with
  | NaN => "NaN"%string
  | Fin q =>
      let neg := negb (Qle_bool 0 q) in
      let a := if neg then - q else q in
      let scale := (10 ^ Z.of_nat f)%Z in
      let n := round_half_up (a * inject_Z scale) in
      let ip := decimal_of_Z (n / scale) in
      let fp := pad_left f (decimal_of_Z (n mod scale)) in
      ((if neg then "-" else "") ++ ip ++
       (match f with O => "" | S _ => "." ++ fp end))%string
  end.

(** *** Date

    A [Date] holds a time value: milliseconds since the epoch, or [NaN] for
    an invalid date.  Local time is UTC shifted by a fixed offset [tza]
    (milliseconds), a parameter of every constructor. *)

Record Date : Type := mkDate { getTime : number }.

Definition msPerDay : Z := 86400000.
Definition msPerHour : Z := 3600000.
Definition msPerMinute : Z := 60000.
Definition msPerSecond : Z := 1000.

Definition DayFromYear (y : Z) : Z :=
  (365 * (y - 1970) + (y - 1969) / 4 - (y - 1901) / 100 + (y - 1601) / 400)%Z.

Definition InLeapYear (y : Z) : bool :=
  ((y mod 4 =? 0) && (negb (y mod 100 =? 0) || (y mod 400 =? 0)))%Z.

(** Days of the year before the first day of month [m] (0 = January). *)
Definition DaysBeforeMonth (leap : bool) (m : Z) : Z :=
  let l := if leap then 1%Z else 0%Z in
  match m with
  | 0 => 0 | 1 => 31 | 2 => 59 + l | 3 => 90 + l | 4 => 120 + l
  | 5 => 151 + l | 6 => 181 + l | 7 => 212 + l | 8 => 243 + l
  | 9 => 273 + l | 10 => 304 + l | _ => 334 + l
  end%Z.

Definition MakeTime (hour min sec ms : number) : number :=
  match hour, min, sec, ms with
  | Fin h, Fin m, Fin s, Fin milli =>
      of_Z (trunc h * msPerHour + trunc m * msPerMinute
            + trunc s * msPerSecond + trunc milli)
  | _, _, _, _ => NaN
  end.

Definition MakeDay (year month date : number) : number :=
  match year, month, date with
  | Fin y, Fin m, Fin dt =>
      let ym := (trunc y + trunc m / 12)%Z in
      let mn := (trunc m mod 12)%Z in
      of_Z (DayFromYear ym + DaysBeforeMonth (InLeapYear ym) mn
            + trunc dt - 1)
  | _, _, _ => NaN
  end.

Definition MakeDate (day time : number) : number :=
  add (mul day (of_Z msPerDay)) time.

Definition TimeClip (t : number) : number :=
  match t with
  | NaN => NaN
  | Fin q =>
      if Qle_bool (Qabs q) (inject_Z 8640000000000000) then of_Z (trunc q)
      else NaN
  end.

(** Local time to UTC, at the constant offset [tza]; [Host.UTC] below takes
    the offset from the time zone. *)
Definition UTC (tza : Z) (t : number) : number := sub t (of_Z tza).

(** [new Date(year, month, date, hours, minutes)]: a year in [0, 99] means
    [1900 + year]; the fields are local time and may overflow their range. *)
Definition Date_of_fields (tza : Z) (year month date hours minutes : value)
  : Date :=
  let y := ToNumber year in
  let yr :=
    match y with
    | NaN => NaN
    | Fin q =>
        let yi := trunc q in
        if ((0 <=? yi) && (yi <=? 99))%Z then of_Z (1900 + yi) else y
    end in
  let day := MakeDay yr (ToNumber month) (ToNumber date) in
  let time := MakeTime (ToNumber hours) (ToNumber minutes) (Fin 0) (Fin 0) in
  mkDate (TimeClip (UTC tza (MakeDate day time))).

(** [d.getHours()] and [d.getMinutes()]: [HourFromTime] and [MinFromTime]
    of the local time. *)
Definition getHours (tza : Z) (d : Date) : number :=
  match getTime d with
  | NaN => NaN
  | Fin t => of_Z (((Qfloor t + tza) / msPerHour) mod 24)
  end.

Definition getMinutes (tza : Z) (d : Date) : number :=
  match getTime d with
  | NaN => NaN
  | Fin t => of_Z (((Qfloor t + tza) / msPerMinute) mod 60)
  end.

(** Reading fixed-width decimal fields and separators of a date-time
    string. *)
Fixpoint take_digits (n : nat) (acc : Z) (l : list ascii)
  : option (Z * list ascii) :=
  match n with
  | O => Some (acc, l)
  | S k =>
      match l with
      | c :: r =>
          if is_digit c then take_digits k (10 * acc + digit_val c) r
          else None
      | [] => None
      end
  end.

Definition expect (c : ascii) (l : list ascii) : option (list ascii) :=
  match l with
  | d :: r => if Ascii.eqb c d then Some r else None
  | [] => None
  end.

Definition obind {A B : Type} (o : option A) (k : A -> option B) : option B :=
  match o with Some a => k a | None => None end.

Definition in_range (lo x hi : Z) : bool := ((lo <=? x) && (x <=? hi))%Z.

(** The fields of a [YYYY-MM-DDTHH:mm:ss] string with every field in its
    range: month 01-12, day 01-31, hour 00-24 (24 only as [24:00:00]),
    minute and second 00-59. *)
Definition date_time_fields (l : list ascii) : option (Z * Z * Z * Z * Z * Z) :=
  obind (take_digits 4 0 l) (fun '(y, l) =>
  obind (expect "-"%char l) (fun l =>
  obind (take_digits 2 0 l) (fun '(mo, l) =>
  obind (expect "-"%char l) (fun l =>
  obind (take_digits 2 0 l) (fun '(d, l) =>
  obind (expect "T"%char l) (fun l =>
  obind (take_digits 2 0 l) (fun '(h, l) =>
  obind (expect ":"%char l) (fun l =>
  obind (take_digits 2 0 l) (fun '(mi, l) =>
  obind (expect ":"%char l) (fun l =>
  obind (take_digits 2 0 l) (fun '(sec, l) =>
  if is_nil l && in_range 1 mo 12 && in_range 1 d 31 && in_range 0 h 24
     && in_range 0 mi 59 && in_range 0 sec 59
     && ((h <? 24) || ((mi =? 0) && (sec =? 0)))%Z
  then Some (y, mo, d, h, mi, sec) else None))))))))))).

(** [new Date(s)] for a date-time string without offset, which denotes
    local time.  A string that is not of the form [YYYY-MM-DDTHH:mm:ss]
    gives an invalid date. *)
Definition Date_of_string (tza : Z) (s : string) : Date :=
  match date_time_fields (list_ascii_of_string s) with
  | Some (y, mo, d, h, mi, sec) =>
      let day := MakeDay (of_Z y) (of_Z (mo - 1)) (of_Z d) in
      let time := MakeTime (of_Z h) (of_Z mi) (of_Z sec) (Fin 0) in
      mkDate (TimeClip (UTC tza (MakeDate day time)))
  | None => mkDate NaN
  end.

(** *** parseInt, Number.prototype.toString, Date.prototype.setHours *)

(** [parseInt(s, 10)], with [None] for an argument that is [undefined]:
    leading white space is skipped, a sign is read, and the longest run of
    decimal digits that follows is the value; without a digit the result
    is [NaN]. *)
Definition parseInt (s : option string) : number :=
  match s with
  | None => NaN
  | Some s =>
      match drop_white (list_ascii_of_string s) with
      | [] => NaN
      | c :: r =>
          let (sign, body) :=
            if Ascii.eqb c "+"%char then (1%Z, r)
            else if Ascii.eqb c "-"%char then ((-1)%Z, r)
            else (1%Z, c :: r) in
          let (ds, _) := span_digits body in
          if is_nil ds then NaN
          else match digits_val 0 ds with
               | Some v => of_Z (sign * v)
               | None => NaN
               end
      end
  end.

(** [n.toString()] for a number that is integral or [NaN], which is what
    [getHours()] and [getMinutes()] return; of another value the integral
    part is written. *)
Definition toString (n : number) : string :=
  match n with
  | NaN => "NaN"
  | Fin q =>
      let z := trunc q in
      ((if (z <? 0)%Z then "-" else "") ++ decimal_of_Z (Z.abs z))%string
  end.

(** [s.padStart(width, '0')]. *)
Definition padStart0 (width : nat) (s : string) : string := pad_left width s.

(** [d.setHours(hour)]: the hour of the local time is replaced, the day,
    minute, second and millisecond are kept; an hour outside [0, 23] moves
    the day. *)
Definition setHours (tza : Z) (d : Date) (hour : number) : Date :=
  match getTime d with
  | NaN => mkDate NaN
  | Fin t =>
      let local := (Qfloor t + tza)%Z in
      let time :=
        MakeTime hour (of_Z ((local / msPerMinute) mod 60))
                 (of_Z ((local / msPerSecond) mod 60)) (of_Z (local mod 1000)) in
      mkDate (TimeClip (UTC tza (MakeDate (of_Z (local / msPerDay)) time)))
  end.

(** *** Year, month and day of a date *)

(** [YearFromTime] on day numbers: the year [y] with
    [DayFromYear y <= d < DayFromYear (y + 1)], found from the mean length
    of a year and corrected by one where needed. *)
Definition YearFromDay (d : Z) : Z :=
  let y := (1970 + (400 * d) / 146097)%Z in
  if (d <? DayFromYear y)%Z then (y - 1)%Z
  else if (DayFromYear (y + 1) <=? d)%Z then (y + 1)%Z
  else y.

Definition DayWithinYear (d : Z) : Z := (d - DayFromYear (YearFromDay d))%Z.

(** [MonthFromTime]: 0 for January to 11 for December. *)
Definition MonthFromDay (d : Z) : Z :=
  let dwy := DayWithinYear d in
  let l := if InLeapYear (YearFromDay d) then 1%Z else 0%Z in
  if (dwy <? 31)%Z then 0
  else if (dwy <? 59 + l)%Z then 1
  else if (dwy <? 90 + l)%Z then 2
  else if (dwy <? 120 + l)%Z then 3
  else if (dwy <? 151 + l)%Z then 4
  else if (dwy <? 181 + l)%Z then 5
  else if (dwy <? 212 + l)%Z then 6
  else if (dwy <? 243 + l)%Z then 7
  else if (dwy <? 273 + l)%Z then 8
  else if (dwy <? 304 + l)%Z then 9
  else if (dwy <? 334 + l)%Z then 10
  else 11.

(** [DateFromTime]: the day of the month, from 1. *)
Definition DateFromDay (d : Z) : Z :=
  (DayWithinYear d
   - DaysBeforeMonth (InLeapYear (YearFromDay d)) (MonthFromDay d) + 1)%Z.

(** The day number of the local time of a valid date. *)
Definition local_day (tza : Z) (t : Q) : Z := ((Qfloor t + tza) / msPerDay)%Z.

Definition getFullYear (tza : Z) (d : Date) : number :=
  match getTime d with
  | NaN => NaN
  | Fin t => of_Z (YearFromDay (local_day tza t))
  end.

Definition getMonth (tza : Z) (d : Date) : number :=
  match getTime d with
  | NaN => NaN
  | Fin t => of_Z (MonthFromDay (local_day tza t))
  end.

Definition getDate (tza : Z) (d : Date) : number :=
  match getTime d with
  | NaN => NaN
  | Fin t => of_Z (DateFromDay (local_day tza t))
  end.

(** *** parseFloat, Math.abs, truthiness and property writes *)

(** The exponent part of a decimal literal, when the text starts with
    one: [e] or [E], an optional sign and at least one digit. *)
Definition exponent_part (l : list ascii) : option Z :=
  match l with
  | c :: r =>
      if Ascii.eqb c "e"%char || Ascii.eqb c "E"%char then
        let (sign, body) :=
          match r with
          | d :: r' =>
              if Ascii.eqb d "+"%char then (1%Z, r')
              else if Ascii.eqb d "-"%char then ((-1)%Z, r')
              else (1%Z, r)
          | [] => (1%Z, r)
          end in
        let (ds, _) := span_digits body in
        if is_nil ds then None
        else option_map (Z.mul sign) (digits_val 0 ds)
      else None
  | [] => None
  end.

Definition pow10 (e : Z) : Q :=
  if (0 <=? e)%Z then inject_Z (10 ^ e) else 1 / inject_Z (10 ^ (- e)).

(** [parseFloat(s)]: leading white space is skipped and the longest prefix
    that is a signed decimal literal, with its fraction and exponent, is
    the value; [NaN] when there is none.  The value is the exact one of the
    literal; [Host.parseFloat] below rounds it to binary64 and reads the
    literal [Infinity]. *)
Definition parseFloat (s : string) : number :=
  match drop_white (list_ascii_of_string s) with
  | [] => NaN
  | c :: r =>
      let (sign, body) :=
        if Ascii.eqb c "+"%char then (1, r)
        else if Ascii.eqb c "-"%char then (-1, r)
        else (1, c :: r) in
      let (ip, r1) := span_digits body in
      let (fp, r2) :=
        match r1 with
        | d :: r' => if Ascii.eqb d "."%char then span_digits r' else ([], r1)
        | [] => ([], [])
        end in
      if is_nil ip && is_nil fp then NaN
      else
        match digits_val 0 ip, digits_val 0 fp with
        | Some i, Some f =>
            let scale := (10 ^ Z.of_nat (List.length fp))%Z in
            let mantissa := inject_Z (i * scale + f) / inject_Z scale in
            let e := match exponent_part r2 with Some e => e | None => 0%Z end in
            Fin (sign * mantissa * pow10 e)
        | _, _ => NaN
        end
  end.

Definition Math_abs (a : number) : number :=
  match a with
  | NaN => NaN
  | Fin q => Fin (Qabs q)
  end.

(** [ToBoolean]: what [v || w] tests. *)
Definition ToBoolean (v : value) : bool :=
  match v with
  | VUndefined | VNull => false
  | VBool b => b
  | VNumber NaN => false
  | VNumber (Fin q) => negb (Qeq_bool q 0)
  | VString s => truthy_string s
  | VObject _ => true
  end.

(** The properties of an object after [o[key] = v]: an existing key keeps
    its place, a new key comes last. *)
Fixpoint set_prop (props : list (string * value)) (key : string) (v : value)
  : list (string * value) :=
  match props with
  | [] => [(key, v)]
  | (k, w) :: r =>
      if String.eqb k key then (key, v) :: r
      else (k, w) :: set_prop r key v
  end.

(** The properties of an object after [delete o[key]]. *)
Definition delete_prop (props : list (string * value)) (key : string)
  : list (string * value) :=
  filter (fun kv => negb (String.eqb (fst kv) key)) props.

(** [o.key = v] in strict code, giving the object after the write: a
    write to a value that is not an object raises. *)
Definition assign (o : value) (key : string) (v : value) : completion value :=
  match o with
  | VObject props => Returned (VObject (set_prop props key v))
  | _ => Raised TypeError
  end.

(** [s.trim()], for the white space of [trim]. *)
Definition String_trim (s : string) : string :=
  string_of_list_ascii (trim (list_ascii_of_string s)).

End JS.

Import JS.

(* ================================================================= *)
(** ** src/utils.ts *)

Module Utils.

Record DateData : Type := mkDateData {
  performance : number;
  hours : number;
  overtime : bool;
  freeDay : bool
}.

Definition effectiveHours (hours : number) (overtime freeDay : bool) : number :=
  if freeDay then
    mul hours (Fin 0.967)
  else if overtime then
    let clampedHours := Math_max (Fin 8) (Math_min hours (Fin 16)) in
    add (Fin 7.25) (mul (sub clampedHours (Fin 8)) (Fin 0.967))
  else
    if lt hours (Fin 4) then
      hours
    else if le hours (Fin 8) then
      sub hours (Fin 0.75)
    else
      add (Fin 7.25) (mul (sub hours (Fin 8)) (Fin 0.967)).

Definition computePerformancePercentage (entry : DateData) : number :=
  let eff := effectiveHours (hours entry) (overtime entry) (freeDay entry) in
  if le eff (Fin 0) then Fin 0
  else Math_round (mul (div (performance entry) eff) (Fin 100)).

(** The record under a date key is read as a run-time object: the code
    converts its [performance] with [Number] and tests the result with
    [isNaN], and the caller in [App.tsx] passes records of another shape. *)
Definition calculateAverage (tza : Z) (data : list (string * value))
    (filterDates : Date -> bool) : completion string :=
  let filteredDates :=
    filter (fun dateString =>
              let dateObj := Date_of_string tza (dateString ++ "T00:00:00") in
              filterDates dateObj)
           (Object_keys data) in
  total <- fold_left
             (fun acc dateString =>
                sum <- acc ;;
                record <- get (VObject data) dateString ;;
                p <- get record "performance" ;;
                let perf := Number p in
                Returned (add sum (if isNaN perf then Fin 0 else perf)))
             filteredDates (Returned (Fin 0)) ;;
  let len := of_Z (Z.of_nat (List.length filteredDates)) in
  let average := if gt len (Fin 0) then div total len else Fin 0 in
  Returned (toFixed 2 average).

Definition calculatePercentage (v : number) : number :=
  let percentage :=
    add (mul (div (sub v (Fin 7.25)) (sub (Fin 10.88) (Fin 7.25))) (Fin 50))
        (Fin 100) in
  Math_round percentage.

(** A [DateData] as the object stored under a date key. *)
Definition DateData_object (e : DateData) : value :=
  VObject [("performance"%string, VNumber (performance e));
           ("hours"%string, VNumber (hours e));
           ("overtime"%string, VBool (overtime e));
           ("freeDay"%string, VBool (freeDay e))].

End Utils.

(* ================================================================= *)
(** ** src/PerformanceModal.tsx *)

Module PerformanceModal.

Definition computeHoursFromTimes (tza : Z) (start end_ : string)
  : completion number :=
  if negb (truthy_string start) || negb (truthy_string end_) then
    Returned (Fin 0)
  else
    let s := map (fun x => Number (VString x)) (split ":" start) in
    let sh := index s 0 in
    let sm := index s 1 in
    let e := map (fun x => Number (VString x)) (split ":" end_) in
    let eh := index e 0 in
    let em := index e 1 in
    let zero := VNumber (Fin 0) in
    let startDate := Date_of_fields tza zero zero zero sh sm in
    let endDate :=
      if lt_value eh sh then
        Date_of_fields tza zero zero (VNumber (Fin 1)) eh em
      else
        Date_of_fields tza zero zero zero eh em in
    let diff :=
      div (sub (getTime endDate) (getTime startDate))
          (mul (mul (Fin 1000) (Fin 60)) (Fin 60)) in
    Returned (if lt diff (Fin 0) then Fin 0 else diff).

(** [now] stands for the [new Date()] the function reads. *)
Definition getDefaultStartTime (tza : Z) (now : Date) : string :=
  let totalMins := add (mul (getHours tza now) (Fin 60)) (getMinutes tza now) in
  let morningStart := add (mul (Fin 5) (Fin 60)) (Fin 45) in
  let morningEnd := add (mul (Fin 14) (Fin 60)) (Fin 15) in
  let eveningStart := add (mul (Fin 13) (Fin 60)) (Fin 45) in
  let eveningEnd := add (mul (Fin 22) (Fin 60)) (Fin 15) in
  if ge totalMins morningStart && lt totalMins morningEnd then
    "05:45"%string
  else if ge totalMins eveningStart && lt totalMins eveningEnd then
    "13:45"%string
  else
    "21:45"%string.

Definition addHours (tza : Z) (time : string) (hoursToAdd : number) : string :=
  let parts := split ":" time in
  let hourStr := nth_error parts 0 in
  let minuteStr := nth_error parts 1 in
  let hour := parseInt hourStr in
  let minute := parseInt minuteStr in
  let zero := VNumber (Fin 0) in
  let date := Date_of_fields tza zero zero zero (VNumber hour) (VNumber minute) in
  let date := setHours tza date (add (getHours tza date) hoursToAdd) in
  let newHour := padStart0 2 (toString (getHours tza date)) in
  let newMinute := padStart0 2 (toString (getMinutes tza date)) in
  (newHour ++ ":" ++ newMinute)%string.

(** The calls of [onFormChange] a handler makes, in order: each sets the
    form field [name] to [value]. *)
Record FormChange : Type := mkFormChange {
  name : string;
  value_ : string
}.

Definition handleStartTime (tza : Z) (newVal : string)
  : completion (list FormChange) :=
  let autoEnd := addHours tza newVal (Fin 8) in
  hours <- computeHoursFromTimes tza newVal autoEnd ;;
  Returned [mkFormChange "startTime" newVal;
            mkFormChange "endTime" autoEnd;
            mkFormChange "hours" (toFixed 2 hours)].

(** [startTime] is the sign-in time the form holds when the sign-out time
    changes. *)
Definition handleEndTime (tza : Z) (startTime newVal : string)
  : completion (list FormChange) :=
  if truthy_string startTime then
    hours <- computeHoursFromTimes tza startTime newVal ;;
    Returned [mkFormChange "endTime" newVal;
              mkFormChange "hours" (toFixed 2 hours)]
  else
    Returned [mkFormChange "endTime" newVal].

(** The form state of [App.tsx], which the modal receives as [formData]:
    the two number inputs hold text. *)
Record FormData : Type := mkFormData {
  performance_text : string;
  hours_text : string;
  overtime_checked : bool;
  freeDay_checked : bool;
  startTime : string;
  endTime : string;
  trukki : bool
}.

(** What a submit handler does besides changing state: the alerts it
    shows, in order, and whether it goes on to [onSubmit]. *)
Record Submission : Type := mkSubmission {
  alerts : list string;
  forwarded : bool
}.

Definition handleSubmit (formData : FormData) : Submission :=
  let parsedPerformance := parseFloat (performance_text formData) in
  let parsedHours := parseFloat (hours_text formData) in
  let egg :=
    if lt (Math_abs (sub parsedPerformance (Fin 5.02))) (Fin 0.001)
    then ["Miro on botti"%string] else [] in
  if isNaN parsedPerformance then
    mkSubmission (egg ++ ["Lisää suorite esim. 7.25"%string]) false
  else if isNaN parsedHours || lt parsedHours (Fin 1)
          || gt parsedHours (Fin 16) then
    mkSubmission (egg ++ ["Työaika voi olla enintään 16 tuntia."%string]) false
  else
    mkSubmission egg true.

(** The test [!s || s.trim() === ""] both effects of the modal make. *)
Definition blank (s : string) : bool :=
  negb (truthy_string s) || String.eqb (String_trim s) "".

(** The effect that fills in the sign-in time; [now] stands for the
    [new Date()] that [getDefaultStartTime] reads. *)
Definition defaultStartTimeEffect (tza : Z) (now : Date) (formData : FormData)
  : list FormChange :=
  if blank (startTime formData) then
    let defaultStart := getDefaultStartTime tza now in
    [mkFormChange "startTime" defaultStart]
  else [].

(** The effect that fills in the sign-out time and the hours. *)
Definition autoEndTimeEffect (tza : Z) (formData : FormData)
  : completion (list FormChange) :=
  if truthy_string (startTime formData) && blank (endTime formData) then
    let autoEnd := addHours tza (startTime formData) (Fin 8) in
    hours <- computeHoursFromTimes tza (startTime formData) autoEnd ;;
    Returned [mkFormChange "endTime" autoEnd;
              mkFormChange "hours" (toFixed 2 hours)]
  else Returned [].

End PerformanceModal.

(* ================================================================= *)
(** ** App.tsx *)

Module App.

Inductive Shift : Type := morning | evening | night.

Definition getOngoingShift (tza : Z) (now : Date) : Shift :=
  let hr := getHours tza now in
  let min := getMinutes tza now in
  let totalMins := add (mul hr (Fin 60)) min in
  let timeToMins := fun h m : number => add (mul h (Fin 60)) m in
  let morningStart := timeToMins (Fin 5) (Fin 45) in
  let morningEnd := timeToMins (Fin 14) (Fin 15) in
  let eveningStart := timeToMins (Fin 13) (Fin 45) in
  let eveningEnd := timeToMins (Fin 22) (Fin 15) in
  let inRange := fun t start end_ : number => ge t start && lt t end_ in
  if inRange totalMins morningStart morningEnd then morning
  else if inRange totalMins eveningStart eveningEnd then evening
  else night.

Definition getPeriodForDate (tza : Z) (d : Date) : string :=
  let day := getDate tza d in
  if ge day (Fin 1) && le day (Fin 15) then "Jakso 1"%string
  else "Jakso 2"%string.

(** [period] is the period the application currently shows. *)
Definition filterDates (tza : Z) (period : string) (d : Date) : bool :=
  let day := getDate tza d in
  if String.eqb period "Jakso 1" then ge day (Fin 1) && le day (Fin 15)
  else ge day (Fin 16).

(** The key of a date in the store, as [handleFormSubmit],
    [handleDeleteData] and the calendar tiles build it. *)
Definition dateString (tza : Z) (date : Date) : string :=
  (toString (getFullYear tza date) ++ "-"
   ++ padStart0 2 (toString (add (getMonth tza date) (Fin 1))) ++ "-"
   ++ padStart0 2 (toString (getDate tza date)))%string.

(** The state of the component that the handlers below read and set. *)
Record AppState : Type := mkAppState {
  date : Date;
  data : list (string * value);
  period : string;
  showModal : bool;
  formData : PerformanceModal.FormData
}.

Definition initialFormData : PerformanceModal.FormData :=
  PerformanceModal.mkFormData "" "8" false false "" "" false.

(** The updater [handleFormSubmit] passes to [setData]. *)
Definition store_entry (prevData : list (string * value))
    (dateString : string) (trukki : bool) (entry : value)
  : completion (list (string * value)) :=
  let stored := lookup dateString prevData in
  let dayData := if ToBoolean stored then stored else VObject [] in
  dayData <- assign dayData (if trukki then "forklift" else "normal") entry ;;
  Returned (set_prop prevData dateString dayData).

(** The alerts shown and the state after the handler. *)
Definition handleFormSubmit (tza : Z) (st : AppState)
  : completion (list string * AppState) :=
  let f := formData st in
  let parsedPerformance := parseFloat (PerformanceModal.performance_text f) in
  let parsedHours := parseFloat (PerformanceModal.hours_text f) in
  if isNaN parsedPerformance then
    Returned (["Lisää suorite esim. 7.25"%string], st)
  else if isNaN parsedHours || lt parsedHours (Fin 0)
          || gt parsedHours (Fin 16) then
    Returned (["Lisää aika väliltä 0-16"%string], st)
  else
    let entry :=
      Utils.DateData_object
        (Utils.mkDateData parsedPerformance parsedHours
           (PerformanceModal.overtime_checked f)
           (PerformanceModal.freeDay_checked f)) in
    newData <- store_entry (data st) (dateString tza (date st))
                 (PerformanceModal.trukki f) entry ;;
    Returned ([], mkAppState (date st) newData (period st) false
                    initialFormData).

Definition handleDeleteData (tza : Z) (st : AppState) : AppState :=
  mkAppState (date st) (delete_prop (data st) (dateString tza (date st)))
             (period st) (showModal st) (formData st).

(** The modal's submit button: [handleSubmit] of the modal, which calls
    [handleFormSubmit] as its [onSubmit] when it accepts the form. *)
Definition submit (tza : Z) (st : AppState)
  : completion (list string * AppState) :=
  let s := PerformanceModal.handleSubmit (formData st) in
  if PerformanceModal.forwarded s then
    r <- handleFormSubmit tza st ;;
    Returned ((PerformanceModal.alerts s ++ fst r)%list, snd r)
  else
    Returned (PerformanceModal.alerts s, st).

(** A part of a template literal: [undefined] is written out. *)
Definition template_part (s : option string) : string :=
  match s with Some s => s | None => "undefined"%string end.

Definition formatDate (dateString : string) : string :=
  let parts := split "-" dateString in
  let year := nth_error parts 0 in
  let month := nth_error parts 1 in
  let day := nth_error parts 2 in
  (template_part day ++ "." ++ template_part month ++ "."
   ++ template_part year)%string.

(** The period average the application shows and its rescaled percentage.
    The call passes a track as a third argument, ['normal'] here and
    ['forklift'] for [overallAverageForklift]; [calculateAverage] has two
    parameters, so the argument is dropped and the two are the same. *)
Definition overallAverageNormal (tza : Z) (st : AppState) : completion number :=
  text <- Utils.calculateAverage tza (data st) (filterDates tza (period st)) ;;
  Returned (parseFloat text).

Definition overallAveragePercentageNormal (tza : Z) (st : AppState)
  : completion number :=
  average <- overallAverageNormal tza st ;;
  Returned (Utils.calculatePercentage average).

Definition overallAverageForklift (tza : Z) (st : AppState) : completion number :=
  text <- Utils.calculateAverage tza (data st) (filterDates tza (period st)) ;;
  Returned (parseFloat text).

Definition overallAveragePercentageForklift (tza : Z) (st : AppState)
  : completion number :=
  average <- overallAverageForklift tza st ;;
  Returned (Utils.calculatePercentage average).

(** What the calendar passes to [onChange]: a date, nothing, or a range
    of two ends that may be missing. *)
Inductive CalendarValue : Type :=
| OneDate (d : Date)
| NoDate
| DateRange (first second : option Date).

(** A valid or no selection sets the date and its period; anything else
    is logged and changes nothing. *)
Definition onChange (tza : Z) (st : AppState) (v : CalendarValue) : AppState :=
  let newDate :=
    match v with
    | OneDate d => Some d
    | DateRange (Some d) _ => Some d
    | _ => None
    end in
  match newDate with
  | Some d =>
      let day := getDate tza d in
      mkAppState d (data st)
        (if ge day (Fin 1) && le day (Fin 15) then "Jakso 1" else "Jakso 2")
        (showModal st) (formData st)
  | None => st
  end.

End App.

(* ================================================================= *)
(** ** Binary64 numbers *)

Module F64.

(** A number of the engine: [NaN], an infinity with its sign, or a finite
    binary64 value, held as the rational it denotes. *)
Inductive t : Type :=
| NaN : t
| Inf (negative : bool) : t
| Fin (q : Q) : t.

Definition pow2 (e : Z) : Q := 2 ^ e.

(** The binary exponent of a positive rational: [2^(ilog2 q) <= q <
    2^(ilog2 q + 1)]. *)
Definition ilog2 (q : Q) : Z :=
  let k := (Z.log2 (Qnum q) - Z.log2 (Z.pos (Qden q)))%Z in
  if Qle_bool (pow2 k) q then k else (k - 1)%Z.

Definition emax : Z := 1024.
Definition emin : Z := -1074.

(** The exponent of the last place of the binary64 values around [a]: 53
    significant bits, and no place below [2^-1074]. *)
Definition exponent (a : Q) : Z := Z.max (ilog2 a - 52) emin.

(** The integer nearest to [x], the even one of two that are equally
    near. *)
Definition nearest_even (x : Q) : Z :=
  let f := Qfloor x in
  match Qcompare (x - inject_Z f) (1 # 2) with
  | Lt => f
  | Gt => (f + 1)%Z
  | Eq => if Z.even f then f else (f + 1)%Z
  end.

(** The multiple of the last place nearest to [a >= 0]. *)
Definition nearest (a : Q) : Q :=
  let e := exponent a in
  inject_Z (nearest_even (a / pow2 e)) * pow2 e.

(** The binary64 value of a real number: the nearest value, ties to even;
    an infinity when that is [2^1024] or more in magnitude.  The rational
    of a finite value is kept in lowest terms. *)
Definition round (q : Q) : t :=
  let r := nearest (Qabs q) in
  if Qle_bool (pow2 emax) r then Inf (negb (Qle_bool 0 q))
  else Fin (Qred (if Qle_bool 0 q then r else - r)).

(** The sign bit of a rational: set for a negative one. *)
Definition negative (q : Q) : bool := negb (Qle_bool 0 q).

(** [a + b], [a - b], [a * b] and [a / b]: the exact result rounded, and
    the infinities and [NaN] of IEEE 754. *)
Definition add (a b : t) : t :=
  match a, b with
  | Fin x, Fin y => round (x + y)
  | Inf s, Inf s' => if Bool.eqb s s' then Inf s else NaN
  | Inf s, Fin _ => Inf s
  | Fin _, Inf s => Inf s
  | _, _ => NaN
  end.

Definition sub (a b : t) : t :=
  match a, b with
  | Fin x, Fin y => round (x - y)
  | Inf s, Inf s' => if Bool.eqb s s' then NaN else Inf s
  | Inf s, Fin _ => Inf s
  | Fin _, Inf s => Inf (negb s)
  | _, _ => NaN
  end.

Definition mul (a b : t) : t :=
  match a, b with
  | Fin x, Fin y => round (x * y)
  | Inf s, Inf s' => Inf (xorb s s')
  | Inf s, Fin y => if Qeq_bool y 0 then NaN else Inf (xorb s (negative y))
  | Fin x, Inf s => if Qeq_bool x 0 then NaN else Inf (xorb (negative x) s)
  | _, _ => NaN
  end.

(** A finite non-zero number over zero is an infinity with the sign of the
    number, and zero over zero is [NaN]. *)
Definition div (a b : t) : t :=
  match a, b with
  | Fin x, Fin y =>
      if Qeq_bool y 0 then
        if Qeq_bool x 0 then NaN else Inf (negative x)
      else round (x / y)
  | Inf s, Fin y => Inf (xorb s (negative y))
  | Fin _, Inf _ => Fin 0
  | _, _ => NaN
  end.

(** [a <= b] and [a < b]: [false] when either is [NaN]. *)
Definition leb (a b : t) : bool :=
  match a, b with
  | NaN, _ => false
  | _, NaN => false
  | Inf true, _ => true
  | _, Inf false => true
  | Inf false, _ => false
  | _, Inf true => false
  | Fin x, Fin y => Qle_bool x y
  end.

(** The order as a proposition. *)
Definition le (a b : t) : Prop := leb a b = true.

Definition ltb (a b : t) : bool :=
  match a, b with
  | NaN, _ => false
  | _, NaN => false
  | _, _ => negb (leb b a)
  end.

Definition isNaN (a : t) : bool :=
  match a with NaN => true | _ => false end.

(** [Math.max(a, b)], [Math.min(a, b)] and [Math.abs(a)]. *)
Definition max (a b : t) : t :=
  match a, b with
  | NaN, _ => NaN
  | _, NaN => NaN
  | _, _ => if leb a b then b else a
  end.

Definition min (a b : t) : t :=
  match a, b with
  | NaN, _ => NaN
  | _, NaN => NaN
  | _, _ => if leb a b then a else b
  end.

Definition abs (a : t) : t :=
  match a with
  | NaN => NaN
  | Inf _ => Inf false
  | Fin q => Fin (Qabs q)
  end.

(** [Math.round(a)]: the integer nearest to a finite [a], the larger of
    two that are equally near, without an intermediate rounding; [NaN] and
    the infinities are returned as they are. *)
Definition Math_round (a : t) : t :=
  match a with
  | Fin x => Fin (inject_Z (Qfloor (x + (1 # 2))))
  | _ => a
  end.

End F64.

(* ================================================================= *)
(** ** The run-time of a host: binary64 numbers and a time zone *)

Module Host.

(** The values, conversions, property reads and [Date] of [JS] over
    binary64 numbers.  What does not depend on the kind of number is shared
    with [JS]: white space and digits, [split], [padStart0], the calendar,
    [MakeDay], [MakeTime], [MakeDate] and [TimeClip].  These compute with
    exact integers, which is what binary64 does while the products stay
    below [2^53], beyond the range of the time values of a [Date]. *)

(** *** Values

    The properties of an object are listed in the order the engine
    enumerates them: the order of insertion for the keys of the store,
    which are not array indices. *)

#[warnings="-register-all"]
Inductive value : Type :=
| VUndefined : value
| VNull : value
| VBool (b : bool) : value
| VNumber (n : F64.t) : value
| VString (s : string) : value
| VObject (props : list (string * value)) : value.

(** *** Texts that denote numbers

    Texts are ASCII: of the white space and line terminators that
    [StringToNumber], [parseFloat] and [parseInt] skip, those of [is_white]
    can occur. *)

Fixpoint prefix (p l : list ascii) : bool :=
  match p, l with
  | [], _ => true
  | c :: p', d :: l' => Ascii.eqb c d && prefix p' l'
  | _ :: _, [] => false
  end.

Definition Infinity_text : list ascii := list_ascii_of_string "Infinity".

(** An optional sign: whether it is a minus, and what follows it. *)
Definition signed (l : list ascii) : bool * list ascii :=
  match l with
  | c :: r =>
      if Ascii.eqb c "+"%char then (false, r)
      else if Ascii.eqb c "-"%char then (true, r)
      else (false, l)
  | [] => (false, [])
  end.

(** What follows the digits of a decimal literal that ends with the text:
    nothing, or an exponent part, [e] or [E] with a signed integer. *)
Definition ExponentPart_opt (l : list ascii) : option Z :=
  match l with
  | [] => Some 0%Z
  | c :: r =>
      if Ascii.eqb c "e"%char || Ascii.eqb c "E"%char then
        let (neg, body) := signed r in
        let (ds, rest) := span_digits body in
        if is_nil ds || negb (is_nil rest) then None
        else option_map (fun v => if neg then (- v)%Z else v) (digits_val 0 ds)
      else None
  end.

(** [StrUnsignedDecimalLiteral] without [Infinity]: [digits], [digits.],
    [digits.digits] or [.digits], and an optional exponent part. *)
Definition StrUnsignedDecimalLiteral (l : list ascii) : option Q :=
  let (ip, r1) := span_digits l in
  let (fp, r2) :=
    match r1 with
    | d :: r' => if Ascii.eqb d "."%char then span_digits r' else ([], r1)
    | [] => ([], [])
    end in
  if is_nil ip && is_nil fp then None
  else
    match digits_val 0 ip, digits_val 0 fp, ExponentPart_opt r2 with
    | Some i, Some f, Some e =>
        let scale := (10 ^ Z.of_nat (List.length fp))%Z in
        Some (inject_Z (i * scale + f) / inject_Z scale * pow10 e)
    | _, _, _ => None
    end.

(** The value of a character as a digit in a radix up to 16. *)
Definition digit_in (radix : Z) (c : ascii) : option Z :=
  let n := Z.of_N (N_of_ascii c) in
  let v :=
    if ((48 <=? n) && (n <=? 57))%Z then (n - 48)%Z
    else if ((97 <=? n) && (n <=? 102))%Z then (n - 87)%Z
    else if ((65 <=? n) && (n <=? 70))%Z then (n - 55)%Z
    else (-1)%Z in
  if ((0 <=? v) && (v <? radix))%Z then Some v else None.

Fixpoint radix_val (radix acc : Z) (l : list ascii) : option Z :=
  match l with
  | [] => Some acc
  | c :: r =>
      match digit_in radix c with
      | Some v => radix_val radix (radix * acc + v) r
      | None => None
      end
  end.

(** [0x], [0o] and [0b] integer literals, in either case, with at least
    one digit and without a sign. *)
Definition NonDecimalIntegerLiteral (l : list ascii) : option Z :=
  match l with
  | z :: x :: ((_ :: _) as ds) =>
      if Ascii.eqb z "0"%char then
        if Ascii.eqb x "x"%char || Ascii.eqb x "X"%char then radix_val 16 0 ds
        else if Ascii.eqb x "o"%char || Ascii.eqb x "O"%char then radix_val 8 0 ds
        else if Ascii.eqb x "b"%char || Ascii.eqb x "B"%char then radix_val 2 0 ds
        else None
      else None
  | _ => None
  end.

Definition same_text (a b : list ascii) : bool :=
  prefix a b && prefix b a.

(** [StringToNumber], the conversion behind [Number(s)]: white space is
    trimmed; the empty text is 0; a [0x], [0o] or [0b] literal is its
    integer; a decimal literal, with its sign, fraction and exponent, is
    its value; [Infinity] with an optional sign is an infinity; anything
    else is [NaN].  The value is rounded to binary64. *)
Definition StringToNumber (s : string) : F64.t :=
  match trim (list_ascii_of_string s) with
  | [] => F64.Fin 0
  | c :: r =>
      let l := c :: r in
      match NonDecimalIntegerLiteral l with
      | Some n => F64.round (inject_Z n)
      | None =>
          let (neg, body) := signed l in
          if same_text body Infinity_text then F64.Inf neg
          else
            match StrUnsignedDecimalLiteral body with
            | Some q => F64.round (if neg then - q else q)
            | None => F64.NaN
            end
      end
  end.

(** [parseFloat(s)]: leading white space is skipped and the longest prefix
    that is a decimal literal is converted; [JS.parseFloat] gives the exact
    value of that prefix, which the number rounds to binary64.  A signed
    or unsigned [Infinity] at the start is an infinity. *)
Definition parseFloat (s : string) : F64.t :=
  let (neg, body) := signed (drop_white (list_ascii_of_string s)) in
  if prefix Infinity_text body then F64.Inf neg
  else
    match JS.parseFloat s with
    | NaN => F64.NaN
    | Fin q => F64.round q
    end.

(** [parseInt(s, 10)], with [None] for an argument that is [undefined]. *)
Definition parseInt (s : option string) : F64.t :=
  match s with
  | None => F64.NaN
  | Some s =>
      let (neg, body) := signed (drop_white (list_ascii_of_string s)) in
      let (ds, _) := span_digits body in
      if is_nil ds then F64.NaN
      else
        match digits_val 0 ds with
        | Some v => F64.round (inject_Z (if neg then - v else v))
        | None => F64.NaN
        end
  end.

(** *** Conversions and property reads *)

Definition ToNumber (v : value) : F64.t :=
  match v with
  | VUndefined => F64.NaN
  | VNull => F64.Fin 0
  | VBool b => if b then F64.Fin 1 else F64.Fin 0
  | VNumber n => n
  | VString s => StringToNumber s
  | VObject _ => F64.NaN
  end.

Definition Number (v : value) : F64.t := ToNumber v.

Definition ToBoolean (v : value) : bool :=
  match v with
  | VUndefined | VNull => false
  | VBool b => b
  | VNumber F64.NaN => false
  | VNumber (F64.Inf _) => true
  | VNumber (F64.Fin q) => negb (Qeq_bool q 0)
  | VString s => truthy_string s
  | VObject _ => true
  end.

Fixpoint lookup (key : string) (props : list (string * value)) : value :=
  match props with
  | [] => VUndefined
  | (k, v) :: r => if String.eqb k key then v else lookup key r
  end.

Definition get (o : value) (key : string) : completion value :=
  match o with
  | VUndefined | VNull => Raised TypeError
  | VObject props => Returned (lookup key props)
  | _ => Returned VUndefined
  end.

(** [Object.keys(o)], in the order of the properties. *)
Definition Object_keys (props : list (string * value)) : list string :=
  map fst props.

(** Element [i] of an array, [undefined] past its end. *)
Definition index (l : list F64.t) (i : nat) : value :=
  match nth_error l i with
  | Some n => VNumber n
  | None => VUndefined
  end.

Definition lt_value (a b : value) : bool := F64.ltb (ToNumber a) (ToNumber b).

Fixpoint set_prop (props : list (string * value)) (key : string) (v : value)
  : list (string * value) :=
  match props with
  | [] => [(key, v)]
  | (k, w) :: r =>
      if String.eqb k key then (key, v) :: r
      else (k, w) :: set_prop r key v
  end.

Definition assign (o : value) (key : string) (v : value) : completion value :=
  match o with
  | VObject props => Returned (VObject (set_prop props key v))
  | _ => Raised TypeError
  end.

(** *** Numbers to texts *)

(** [x.toFixed(f)]: as [JS.toFixed] on a finite value below [10^21] in
    magnitude; an infinity is written out. *)
Definition toFixed (f : nat) (x : F64.t) : string :=
  match x with
  | F64.NaN => "NaN"
  | F64.Inf s => if s then "-Infinity" else "Infinity"
  | F64.Fin q => JS.toFixed f (Fin q)
  end.

(** [n.toString()] for a number that is integral, [NaN] or an infinity. *)
Definition toString (n : F64.t) : string :=
  match n with
  | F64.NaN => "NaN"
  | F64.Inf s => if s then "-Infinity" else "Infinity"
  | F64.Fin q => JS.toString (Fin q)
  end.

(** *** Date in a time zone

    The time value of a [Date] is an integer or [NaN], as in [JS].  The
    zone gives the offset of local time from UTC, in milliseconds:
    [LocalTZA zone t true] at the UTC time [t], and [LocalTZA zone t false]
    at the local time [t]; where a local time occurs twice or not at all,
    the latter is the offset before the change. *)

Record TimeZone : Type := mkTimeZone { LocalTZA : Z -> bool -> Z }.

(** The finite value of a number: the day and time of a date made from a
    number that is not finite are [NaN]. *)
Definition finite (x : F64.t) : number :=
  match x with
  | F64.Fin q => Fin q
  | _ => NaN
  end.

(** A time value, an hour or a day of the month as a number. *)
Definition of_number (n : number) : F64.t :=
  match n with
  | NaN => F64.NaN
  | Fin q => F64.Fin q
  end.

Definition UTC (zone : TimeZone) (t : number) : number :=
  match t with
  | NaN => NaN
  | Fin q => sub t (of_Z (LocalTZA zone (Qfloor q) false))
  end.

Definition LocalTime (zone : TimeZone) (t : Q) : Z :=
  (Qfloor t + LocalTZA zone (Qfloor t) true)%Z.

Definition Date_of_fields (zone : TimeZone)
    (year month date hours minutes : value) : Date :=
  let y := finite (ToNumber year) in
  let yr :=
    match y with
    | NaN => NaN
    | Fin q =>
        let yi := trunc q in
        if ((0 <=? yi) && (yi <=? 99))%Z then of_Z (1900 + yi) else y
    end in
  let day := MakeDay yr (finite (ToNumber month)) (finite (ToNumber date)) in
  let time :=
    MakeTime (finite (ToNumber hours)) (finite (ToNumber minutes))
             (Fin 0) (Fin 0) in
  mkDate (TimeClip (UTC zone (MakeDate day time))).

Definition Date_of_string (zone : TimeZone) (s : string) : Date :=
  match date_time_fields (list_ascii_of_string s) with
  | Some (y, mo, d, h, mi, sec) =>
      let day := MakeDay (of_Z y) (of_Z (mo - 1)) (of_Z d) in
      let time := MakeTime (of_Z h) (of_Z mi) (of_Z sec) (Fin 0) in
      mkDate (TimeClip (UTC zone (MakeDate day time)))
  | None => mkDate NaN
  end.

Definition timeValue (d : Date) : F64.t := of_number (getTime d).

Definition getHours (zone : TimeZone) (d : Date) : F64.t :=
  match getTime d with
  | NaN => F64.NaN
  | Fin t => F64.Fin (inject_Z ((LocalTime zone t / msPerHour) mod 24))
  end.

Definition getMinutes (zone : TimeZone) (d : Date) : F64.t :=
  match getTime d with
  | NaN => F64.NaN
  | Fin t => F64.Fin (inject_Z ((LocalTime zone t / msPerMinute) mod 60))
  end.

Definition getFullYear (zone : TimeZone) (d : Date) : F64.t :=
  match getTime d with
  | NaN => F64.NaN
  | Fin t => F64.Fin (inject_Z (YearFromDay (LocalTime zone t / msPerDay)))
  end.

Definition getMonth (zone : TimeZone) (d : Date) : F64.t :=
  match getTime d with
  | NaN => F64.NaN
  | Fin t => F64.Fin (inject_Z (MonthFromDay (LocalTime zone t / msPerDay)))
  end.

Definition getDate (zone : TimeZone) (d : Date) : F64.t :=
  match getTime d with
  | NaN => F64.NaN
  | Fin t => F64.Fin (inject_Z (DateFromDay (LocalTime zone t / msPerDay)))
  end.

Definition setHours (zone : TimeZone) (d : Date) (hour : F64.t) : Date :=
  match getTime d with
  | NaN => mkDate NaN
  | Fin t =>
      let local := LocalTime zone t in
      let time :=
        MakeTime (finite hour) (of_Z ((local / msPerMinute) mod 60))
                 (of_Z ((local / msPerSecond) mod 60)) (of_Z (local mod 1000)) in
      mkDate (TimeClip (UTC zone (MakeDate (of_Z (local / msPerDay)) time)))
  end.

End Host.

(* ================================================================= *)
(** ** The sources on a host *)

Module Hosted.

Import Host.

(** The functions of [Utils], [PerformanceModal] and [App] whose results
    depend on the rounding of numbers, on the texts that denote numbers or
    on the time zone, written over [Host] as the sources have them.  A
    numeric literal of the sources is the binary64 value of its decimal
    text: [F64.round 0.967] for [0.967]. *)

(** *** src/utils.ts *)

Record DateData : Type := mkDateData {
  performance : F64.t;
  hours : F64.t;
  overtime : bool;
  freeDay : bool
}.

Definition effectiveHours (hours : F64.t) (overtime freeDay : bool) : F64.t :=
  if freeDay then
    F64.mul hours (F64.round 0.967)
  else if overtime then
    let clampedHours := F64.max (F64.round 8) (F64.min hours (F64.round 16)) in
    F64.add (F64.round 7.25)
            (F64.mul (F64.sub clampedHours (F64.round 8)) (F64.round 0.967))
  else
    if F64.ltb hours (F64.round 4) then
      hours
    else if F64.leb hours (F64.round 8) then
      F64.sub hours (F64.round 0.75)
    else
      F64.add (F64.round 7.25)
              (F64.mul (F64.sub hours (F64.round 8)) (F64.round 0.967)).

Definition computePerformancePercentage (entry : DateData) : F64.t :=
  let eff := effectiveHours (hours entry) (overtime entry) (freeDay entry) in
  if F64.leb eff (F64.round 0) then F64.round 0
  else F64.Math_round (F64.mul (F64.div (performance entry) eff) (F64.round 100)).

Definition calculateAverage (zone : TimeZone) (data : list (string * value))
    (filterDates : Date -> bool) : completion string :=
  let filteredDates :=
    filter (fun dateString =>
              let dateObj := Date_of_string zone (dateString ++ "T00:00:00") in
              filterDates dateObj)
           (Object_keys data) in
  total <- fold_left
             (fun acc dateString =>
                sum <- acc ;;
                record <- get (VObject data) dateString ;;
                p <- get record "performance" ;;
                let perf := Number p in
                Returned (F64.add sum (if F64.isNaN perf then F64.round 0
                                       else perf)))
             filteredDates (Returned (F64.round 0)) ;;
  let len := F64.round (inject_Z (Z.of_nat (List.length filteredDates))) in
  let average :=
    if F64.ltb (F64.round 0) len then F64.div total len else F64.round 0 in
  Returned (toFixed 2 average).

Definition calculatePercentage (v : F64.t) : F64.t :=
  let percentage :=
    F64.add
      (F64.mul (F64.div (F64.sub v (F64.round 7.25))
                        (F64.sub (F64.round 10.88) (F64.round 7.25)))
               (F64.round 50))
      (F64.round 100) in
  F64.Math_round percentage.

Definition DateData_object (e : DateData) : value :=
  VObject [("performance"%string, VNumber (performance e));
           ("hours"%string, VNumber (hours e));
           ("overtime"%string, VBool (overtime e));
           ("freeDay"%string, VBool (freeDay e))].

(** *** src/PerformanceModal.tsx *)

Definition computeHoursFromTimes (zone : TimeZone) (start end_ : string)
  : completion F64.t :=
  if negb (truthy_string start) || negb (truthy_string end_) then
    Returned (F64.round 0)
  else
    let s := map (fun x => Number (VString x)) (split ":" start) in
    let sh := index s 0 in
    let sm := index s 1 in
    let e := map (fun x => Number (VString x)) (split ":" end_) in
    let eh := index e 0 in
    let em := index e 1 in
    let zero := VNumber (F64.round 0) in
    let startDate := Date_of_fields zone zero zero zero sh sm in
    let endDate :=
      if lt_value eh sh then
        Date_of_fields zone zero zero (VNumber (F64.round 1)) eh em
      else
        Date_of_fields zone zero zero zero eh em in
    let diff :=
      F64.div (F64.sub (timeValue endDate) (timeValue startDate))
              (F64.mul (F64.mul (F64.round 1000) (F64.round 60))
                       (F64.round 60)) in
    Returned (if F64.ltb diff (F64.round 0) then F64.round 0 else diff).

Definition addHours (zone : TimeZone) (time : string) (hoursToAdd : F64.t)
  : string :=
  let parts := split ":" time in
  let hourStr := nth_error parts 0 in
  let minuteStr := nth_error parts 1 in
  let hour := parseInt hourStr in
  let minute := parseInt minuteStr in
  let zero := VNumber (F64.round 0) in
  let date := Date_of_fields zone zero zero zero (VNumber hour) (VNumber minute) in
  let date := setHours zone date (F64.add (getHours zone date) hoursToAdd) in
  let newHour := padStart0 2 (toString (getHours zone date)) in
  let newMinute := padStart0 2 (toString (getMinutes zone date)) in
  (newHour ++ ":" ++ newMinute)%string.

Definition handleSubmit (formData : PerformanceModal.FormData)
  : PerformanceModal.Submission :=
  let parsedPerformance :=
    parseFloat (PerformanceModal.performance_text formData) in
  let parsedHours := parseFloat (PerformanceModal.hours_text formData) in
  let egg :=
    if F64.ltb (F64.abs (F64.sub parsedPerformance (F64.round 5.02)))
               (F64.round 0.001)
    then ["Miro on botti"%string] else [] in
  if F64.isNaN parsedPerformance then
    PerformanceModal.mkSubmission
      (egg ++ ["Lisää suorite esim. 7.25"%string]) false
  else if F64.isNaN parsedHours || F64.ltb parsedHours (F64.round 1)
          || F64.ltb (F64.round 16) parsedHours then
    PerformanceModal.mkSubmission
      (egg ++ ["Työaika voi olla enintään 16 tuntia."%string]) false
  else
    PerformanceModal.mkSubmission egg true.

(** *** App.tsx *)

Definition dateString (zone : TimeZone) (date : Date) : string :=
  (toString (getFullYear zone date) ++ "-"
   ++ padStart0 2 (toString (F64.add (getMonth zone date) (F64.round 1))) ++ "-"
   ++ padStart0 2 (toString (getDate zone date)))%string.

Record AppState : Type := mkAppState {
  date : Date;
  data : list (string * value);
  period : string;
  showModal : bool;
  formData : PerformanceModal.FormData
}.

Definition store_entry (prevData : list (string * value))
    (dateString : string) (trukki : bool) (entry : value)
  : completion (list (string * value)) :=
  let stored := lookup dateString prevData in
  let dayData := if ToBoolean stored then stored else VObject [] in
  dayData <- assign dayData (if trukki then "forklift" else "normal") entry ;;
  Returned (set_prop prevData dateString dayData).

Definition handleFormSubmit (zone : TimeZone) (st : AppState)
  : completion (list string * AppState) :=
  let f := formData st in
  let parsedPerformance := parseFloat (PerformanceModal.performance_text f) in
  let parsedHours := parseFloat (PerformanceModal.hours_text f) in
  if F64.isNaN parsedPerformance then
    Returned (["Lisää suorite esim. 7.25"%string], st)
  else if F64.isNaN parsedHours || F64.ltb parsedHours (F64.round 0)
          || F64.ltb (F64.round 16) parsedHours then
    Returned (["Lisää aika väliltä 0-16"%string], st)
  else
    let entry :=
      DateData_object
        (mkDateData parsedPerformance parsedHours
           (PerformanceModal.overtime_checked f)
           (PerformanceModal.freeDay_checked f)) in
    newData <- store_entry (data st) (dateString zone (date st))
                 (PerformanceModal.trukki f) entry ;;
    Returned ([], mkAppState (date st) newData (period st) false
                    App.initialFormData).

Definition submit (zone : TimeZone) (st : AppState)
  : completion (list string * AppState) :=
  let s := handleSubmit (formData st) in
  if PerformanceModal.forwarded s then
    r <- handleFormSubmit zone st ;;
    Returned ((PerformanceModal.alerts s ++ fst r)%list, snd r)
  else
    Returned (PerformanceModal.alerts s, st).

Definition filterDates (zone : TimeZone) (period : string) (d : Date) : bool :=
  let day := getDate zone d in
  if String.eqb period "Jakso 1" then
    F64.leb (F64.round 1) day && F64.leb day (F64.round 15)
  else F64.leb (F64.round 16) day.

Definition overallAverageNormal (zone : TimeZone) (st : AppState)
  : completion F64.t :=
  text <- calculateAverage zone (data st) (filterDates zone (period st)) ;;
  Returned (parseFloat text).

Definition overallAveragePercentageNormal (zone : TimeZone) (st : AppState)
  : completion F64.t :=
  average <- overallAverageNormal zone st ;;
  Returned (calculatePercentage average).

End Hosted.

Import Utils PerformanceModal App.

(* ================================================================= *)
(** ** Vocabulary of the statements *)

(** [clamp x lo hi], written [max(lo, min(x, hi))] in the source. *)
Definition clamp (x lo hi : Q) : Q := Qmax lo (Qmin x hi).

(** A well-formed clock time: the zero-padded [HH:mm] text of hour [h] and
    minute [m]. *)
Definition digit_char (d : Z) : ascii := ascii_of_N (Z.to_N (48 + d)).

Definition two_digits (n : Z) : string :=
  String (digit_char (n / 10)) (String (digit_char (n mod 10)) EmptyString).

Definition clock (h m : Z) : string :=
  (two_digits h ++ ":" ++ two_digits m)%string.

(** The hour and minute that [computeHoursFromTimes] reads from a clock
    text: the first two elements of [s.split(':').map(Number)], converted
    where they are used; [NaN] for a missing or non-numeric component. *)
Definition time_components (s : string) : list number :=
  map (fun x => Number (VString x)) (split ":" s).

(** Minute of the local day of a valid date. *)
Definition minute_of_day (tza : Z) (now : Date) : Z :=
  match getTime now with
  | NaN => 0
  | Fin t => (((Qfloor t + tza) / msPerMinute) mod 1440)%Z
  end.

(** The sign-in boundary of a shift. *)
Definition shift_start (s : Shift) : string :=
  match s with
  | morning => "05:45"
  | evening => "13:45"
  | night => "21:45"
  end%string.

(** The aggregator in the words of the specification, for comparison with
    [calculateAverage]: a key survives when its local-midnight date
    satisfies [include] and its record has [track] populated; the mean of
    the surviving entries' raw performance, a non-numeric or missing
    performance counting as 0, and 0 when nothing survives. *)
Definition track_entry (record : value) (track : string) : value :=
  match record with
  | VObject props => lookup track props
  | _ => VUndefined
  end.

Definition populated (record : value) (track : string) : bool :=
  match track_entry record track with
  | VObject _ => true
  | _ => false
  end.

Definition raw_performance (entry : value) : number :=
  match entry with
  | VObject props =>
      let perf := ToNumber (lookup "performance" props) in
      if isNaN perf then Fin 0 else perf
  | _ => Fin 0
  end.

Definition meanPerformance_spec (tza : Z) (entries : list (string * value))
    (include : Date -> bool) (track : string) : number :=
  let surviving :=
    filter (fun kv =>
              include (Date_of_string tza (fst kv ++ "T00:00:00"))
              && populated (snd kv) track)
           entries in
  let total :=
    fold_left (fun sum kv => add sum (raw_performance (track_entry (snd kv) track)))
              surviving (Fin 0) in
  if is_nil surviving then Fin 0
  else div total (of_Z (Z.of_nat (List.length surviving))).

(** Order between two numbers that are both finite. *)
Definition num_le (a b : number) : Prop :=
  match a, b with
  | Fin x, Fin y => x <= y
  | _, _ => False
  end.

Definition num_lt (a b : number) : Prop :=
  match a, b with
  | Fin x, Fin y => x < y
  | _, _ => False
  end.

(** The keys of a store that [filterDates] accepts, read as local
    midnight. *)
Definition accepted (tza : Z) (filterDates : Date -> bool) (key : string)
  : bool :=
  filterDates (Date_of_string tza (key ++ "T00:00:00")).

(** The callback of the [reduce] in [calculateAverage]. *)
Definition step (data : list (string * value))
    (acc : completion number) (dateString : string) : completion number :=
  sum <- acc ;;
  record <- get (VObject data) dateString ;;
  p <- get record "performance" ;;
  let perf := Number p in
  Returned (add sum (if isNaN perf then Fin 0 else perf)).

(** The local time, in milliseconds, of minute [M] of hour [H] of day
    number [D]. *)
Definition local (D H M : Z) : Z :=
  (D * msPerDay + H * msPerHour + M * msPerMinute)%Z.

(** The track a submitted form is stored under, and the values a day of
    the store may hold for a submission to go through: nothing (or another
    falsy value), or an object. *)
Definition track_of (trukki : bool) : string :=
  if trukki then "forklift"%string else "normal"%string.

Definition storable (v : value) : Prop :=
  ToBoolean v = false \/ exists props, v = VObject props.

(** Whether a character occurs in a text. *)
Fixpoint has_char (c : ascii) (s : string) : bool :=
  match s with
  | EmptyString => false
  | String d r => Ascii.eqb d c || has_char c r
  end.

(** A day as [handleFormSubmit] writes it: an object with its entries
    under [normal] and [forklift] and no [performance] of its own; and a
    store all of whose days are such. *)
Definition day_record (v : value) : Prop :=
  exists props, v = VObject props /\ lookup "performance" props = VUndefined.

Definition track_store (data : list (string * value)) : Prop :=
  forall k : string, In k (Object_keys data) -> day_record (lookup k data).

(** The shift that follows a shift. *)
Definition next_shift (s : Shift) : Shift :=
  match s with
  | morning => evening
  | evening => night
  | night => morning
  end.

(** *** On a host *)

(** The hour and minute that [computeHoursFromTimes] reads from a text on
    a host. *)
Definition parsed_components (s : string) : list F64.t :=
  map (fun x => Host.Number (Host.VString x)) (JS.split ":" s).

Definition parsed_hour (s : string) : F64.t :=
  Host.ToNumber (Host.index (parsed_components s) 0).

Definition parsed_minute (s : string) : F64.t :=
  Host.ToNumber (Host.index (parsed_components s) 1).

(** A zone that keeps one offset at all times. *)
Definition fixed_zone (tza : Z) : Host.TimeZone :=
  Host.mkTimeZone (fun _ _ => tza).

(** The offsets of Europe/Stockholm around 1900 in the IANA time zone
    database: +01:00:14 until the end of 1899 and +01:00 from then on.  The
    local times from 23:59:46 to midnight of 31 December 1899 occur twice
    and are read with the earlier offset. *)
Definition Stockholm : Host.TimeZone :=
  Host.mkTimeZone
    (fun t isUTC =>
       if isUTC then
         if (t <? -2208992414000)%Z then 3614000%Z else 3600000%Z
       else
         if (t <? -2208988800000)%Z then 3614000%Z else 3600000%Z).

(** The offsets of Europe/Helsinki around 1921 in the IANA time zone
    database: +01:39:49 until 1 May 1921, 00:00 local time, and +02:00
    from then on, so that the local times from 00:00:00 to 00:20:11 of
    that day do not occur and are read with the earlier offset. *)
Definition Helsinki : Host.TimeZone :=
  Host.mkTimeZone
    (fun t isUTC =>
       if isUTC then
         if (t <? -1535938789000)%Z then 5989000%Z else 7200000%Z
       else
         if (t <? -1535931589000)%Z then 5989000%Z else 7200000%Z).

(** The local time [l] occurs in the zone: moved to UTC and back it is [l]
    again.  A local time that a forward change of the offset skips does
    not occur. *)
Definition occurs (zone : Host.TimeZone) (l : Z) : Prop :=
  Host.LocalTZA zone (l - Host.LocalTZA zone l false) true
  = Host.LocalTZA zone l false.

(** The offsets of a zone stay within a day of UTC. *)
Definition within_a_day (zone : Host.TimeZone) : Prop :=
  forall (t : Z) (isUTC : bool),
    (Z.abs (Host.LocalTZA zone t isUTC) <= JS.msPerDay)%Z.

(** A store of plain [DateData] records on a host, what
    [calculateAverage] adds up for each of them, the keys it accepts and
    the callback of its [reduce]. *)
Definition hosted_plain_store (entries : list (string * Hosted.DateData))
  : list (string * Host.value) :=
  map (fun ke => (fst ke, Hosted.DateData_object (snd ke))) entries.

Definition hosted_contribution (e : Hosted.DateData) : F64.t :=
  if F64.isNaN (Hosted.performance e) then F64.Fin 0
  else Hosted.performance e.

Definition hosted_accepted (zone : Host.TimeZone)
    (filterDates : JS.Date -> bool) (key : string) : bool :=
  filterDates (Host.Date_of_string zone (key ++ "T00:00:00")).

Definition hosted_step (data : list (string * Host.value))
    (acc : JS.completion F64.t) (dateString : string) : JS.completion F64.t :=
  JS.bind acc (fun sum =>
  JS.bind (Host.get (Host.VObject data) dateString) (fun record =>
  JS.bind (Host.get record "performance") (fun p =>
  let perf := Host.Number p in
  JS.Returned (F64.add sum (if F64.isNaN perf then F64.round 0 else perf))))).

(** The mean as the code computes it: the numbers are added from the left
    in binary64, starting from 0, and the sum is divided by their count;
    0 for no numbers. *)
Definition binary64_mean (l : list F64.t) : F64.t :=
  if JS.is_nil l then F64.Fin 0
  else F64.div (fold_left F64.add l (F64.Fin 0))
               (F64.Fin (inject_Z (Z.of_nat (List.length l)))).

(** A number that [toFixed] writes in positional notation: not a finite
    number of magnitude [10^21] or more. *)
Definition positional (x : F64.t) : Prop :=
  match x with
  | F64.Fin q => Qabs q < inject_Z (10 ^ 21)
  | _ => True
  end.

(** The binary64 value of the literal [0.967]. *)
Definition rate : Q := 8709961679334539 # 9007199254740992.

(** An operation whose other operand is a finite constant, positive for a
    product or a quotient: an infinity is kept, and a finite [x] goes to the
    rounding of [g x]. *)
Definition through (g : Q -> Q) (a : F64.t) : F64.t :=
  match a with
  | F64.NaN => F64.NaN
  | F64.Inf s => F64.Inf s
  | F64.Fin x => F64.round (g x)
  end.

(* ================================================================= *)
(** ** Comparisons and rounding *)

Section Comparisons.

Lemma Qle_bool_true (x y : Q) : Qle_bool x y = true -> x <= y.
Proof. apply Qle_bool_iff. Qed.

Lemma Qle_bool_false (x y : Q) : Qle_bool x y = false -> y < x.
Proof.
  intros H. apply Qnot_le_lt. intros Hle.
  apply Qle_bool_iff in Hle. congruence.
Qed.

Lemma Qle_bool_of_le (x y : Q) : x <= y -> Qle_bool x y = true.
Proof. apply Qle_bool_iff. Qed.

Lemma Qle_bool_of_lt (x y : Q) : y < x -> Qle_bool x y = false.
Proof.
  intros H. destruct (Qle_bool x y) eqn:E; [|reflexivity].
  apply Qle_bool_true in E. lra.
Qed.

End Comparisons.

(** Case analysis on every rational comparison in the goal, leaving the
    outcome of each as an order hypothesis. *)
Ltac qcases :=
  repeat match goal with
    | |- context [Qle_bool ?a ?b] =>
        let E := fresh "E" in
        destruct (Qle_bool a b) eqn:E;
        [apply Qle_bool_true in E | apply Qle_bool_false in E]
    end.

Ltac qsolve := simpl; qcases; simpl; try reflexivity; try lra.

Section Rounding.

(** [round_half_up x] is the integer [r] with [r - 1/2 <= x < r + 1/2]. *)
Lemma round_half_up_spec (x : Q) :
  inject_Z (round_half_up x) - (1 # 2) <= x /\
  x < inject_Z (round_half_up x) + (1 # 2).
Proof.
  unfold round_half_up.
  pose proof (Qfloor_le (x + (1 # 2))) as Hlo.
  pose proof (Qlt_floor (x + (1 # 2))) as Hhi.
  rewrite inject_Z_plus in Hhi. change (inject_Z 1) with 1 in Hhi.
  split; lra.
Qed.

Lemma round_half_up_unique (x : Q) (r : Z) :
  inject_Z r - (1 # 2) <= x -> x < inject_Z r + (1 # 2) ->
  round_half_up x = r.
Proof.
  intros Hlo Hhi.
  destruct (round_half_up_spec x) as [Glo Ghi].
  assert (H1 : inject_Z (round_half_up x) < inject_Z r + 1) by lra.
  assert (H2 : inject_Z r < inject_Z (round_half_up x) + 1) by lra.
  change 1 with (inject_Z 1) in H1, H2.
  rewrite <- inject_Z_plus in H1, H2.
  rewrite <- Zlt_Qlt in H1, H2. lia.
Qed.

Lemma round_half_up_nonneg (x : Q) : 0 <= x -> (0 <= round_half_up x)%Z.
Proof.
  intros Hx. unfold round_half_up.
  change 0%Z with (Qfloor (inject_Z 0)).
  apply Qfloor_resp_le. change (inject_Z 0) with 0. lra.
Qed.

End Rounding.

(* ================================================================= *)
(** ** Worked values *)

Section WorkedValues.

Example percentage_of_no_performance :
  computePerformancePercentage (mkDateData (Fin 0) (Fin 8) false false)
  = Fin 0.
Proof. vm_compute. reflexivity. Qed.

Example percentage_of_full_performance :
  computePerformancePercentage (mkDateData (Fin 7.25) (Fin 8) false false)
  = Fin 100.
Proof. vm_compute. reflexivity. Qed.

Example rescale_band_ends :
  calculatePercentage (Fin 7.25) = Fin 100 /\
  calculatePercentage (Fin 10.88) = Fin 150.
Proof. split; vm_compute; reflexivity. Qed.

Example numbers_of_strings :
  StringToNumber "07" = Fin 7 /\
  StringToNumber " 12.50 " = Fin 12.50 /\
  StringToNumber "" = Fin 0 /\
  StringToNumber "xx" = NaN.
Proof. repeat split; vm_compute; reflexivity. Qed.

Example split_of_clock_text :
  split ":" "21:45" = ["21"; "45"]%string /\
  split ":" "9" = ["9"]%string /\
  split ":" ":" = [""; ""]%string.
Proof. repeat split. Qed.

Example toFixed_values :
  toFixed 2 (Fin 8.456) = "8.46"%string /\
  toFixed 2 (Fin 12) = "12.00"%string /\
  toFixed 2 (Fin 0) = "0.00"%string /\
  toFixed 2 NaN = "NaN"%string.
Proof. repeat split; vm_compute; reflexivity. Qed.

(** 31 December 1899, 21:45 UTC. *)
Example date_of_start_time :
  getTime (Date_of_fields 0 (VNumber (Fin 0)) (VNumber (Fin 0))
             (VNumber (Fin 0)) (VNumber (Fin 21)) (VNumber (Fin 45)))
  = Fin (inject_Z (-2208996900000)).
Proof. vm_compute. reflexivity. Qed.

Example date_of_key :
  getTime (Date_of_string 0 "2024-03-01T00:00:00")
  = Fin (inject_Z 1709251200000) /\
  getTime (Date_of_string 0 "2024-3-1T00:00:00") = NaN.
Proof. split; vm_compute; reflexivity. Qed.

(** A store of plain [DateData] records, the shape [calculateAverage]
    declares. *)
Example average_of_plain_records :
  calculateAverage 0
    [("2024-01-05"%string,
      DateData_object (mkDateData (Fin 8) (Fin 8) false false));
     ("2024-01-20"%string,
      DateData_object (mkDateData (Fin 9.5) (Fin 8) false false))]
    (fun _ => true)
  = Returned "8.75"%string.
Proof. vm_compute. reflexivity. Qed.

Example average_of_nothing :
  calculateAverage 0 [] (fun _ => true) = Returned "0.00"%string.
Proof. vm_compute. reflexivity. Qed.

End WorkedValues.

(* ================================================================= *)
(** ** Effective hours *)



(** The clamp stays within its bounds and is the identity between them. *)
Lemma clamp_cases (x lo hi : Q) :
  lo <= hi ->
  (x <= lo /\ clamp x lo hi == lo) \/
  (lo <= x <= hi /\ clamp x lo hi == x) \/
  (hi <= x /\ clamp x lo hi == hi).
Proof.
  intros Hb. unfold clamp.
  destruct (Q.min_spec x hi) as [[H1 E1] | [H1 E1]];
    destruct (Q.max_spec lo (Qmin x hi)) as [[H2 E2] | [H2 E2]];
    generalize dependent (Qmax lo (Qmin x hi)); intros M;
    generalize dependent (Qmin x hi); intros m; intros.
  - right; left. repeat split; lra.
  - left. split; lra.
  - right; right. split; lra.
  - right; right. split; lra.
Qed.





(* ================================================================= *)
(** ** Performance percentage *)

Lemma percentage_quotient (p e : Q) :
  0 < e ->
  mul (div (Fin p) (Fin e)) (Fin 100) = Fin (p / e * 100).
Proof.
  intros He. simpl.
  destruct (Qeq_bool e 0) eqn:E; [|reflexivity].
  apply Qeq_bool_eq in E. lra.
Qed.

(* ================================================================= *)
(** ** Integral time values and invalid dates *)

Lemma trunc_inject_Z (z : Z) : trunc (inject_Z z) = z.
Proof.
  unfold trunc. destruct (Qle_bool 0 (inject_Z z));
    [apply Qfloor_Z | apply Qceiling_Z].
Qed.

Lemma trunc_integral (q : Q) (z : Z) : q == inject_Z z -> trunc q = z.
Proof.
  intros E. unfold trunc.
  rewrite (Qleb_comp 0 0 (Qeq_refl 0) q (inject_Z z) E).
  rewrite (Qfloor_comp _ _ E), (Qceiling_comp _ _ E).
  apply trunc_inject_Z.
Qed.

Lemma TimeClip_integral (q : Q) (z : Z) :
  q == inject_Z z -> (Z.abs z <= 8640000000000000)%Z ->
  TimeClip (Fin q) = of_Z z.
Proof.
  intros E Hz. unfold TimeClip.
  rewrite (trunc_integral q z E).
  rewrite Qle_bool_of_le; [reflexivity|].
  rewrite E. apply Qabs_Qle_condition.
  rewrite <- inject_Z_opp, <- !Zle_Qle. lia.
Qed.

Lemma add_NaN_r (a : number) : add a NaN = NaN.
Proof. destruct a; reflexivity. Qed.

Lemma sub_NaN_r (a : number) : sub a NaN = NaN.
Proof. destruct a; reflexivity. Qed.

Lemma sub_NaN_l (a : number) : sub NaN a = NaN.
Proof. reflexivity. Qed.

Create Rewrite HintDb js_nan.
#[local] Hint Rewrite add_NaN_r sub_NaN_r sub_NaN_l : js_nan.

Lemma MakeTime_invalid (h m s ms : number) :
  h = NaN \/ m = NaN -> MakeTime h m s ms = NaN.
Proof.
  intros [-> | ->]; [reflexivity|]. destruct h; reflexivity.
Qed.

(* ================================================================= *)
(** ** Dates and durations in a fixed time zone *)

Section LocalTime.

(** The offset of local time from UTC, less than a day either way. *)
Variable tza : Z.
Hypothesis tza_within_day : (Z.abs tza <= msPerDay)%Z.

(** A date built from an hour or a minute that is [NaN] is invalid. *)
Lemma Date_of_fields_invalid (y mo d h m : value) :
  ToNumber h = NaN \/ ToNumber m = NaN ->
  getTime (Date_of_fields tza y mo d h m) = NaN.
Proof.
  intros H. unfold Date_of_fields, getTime, MakeDate.
  rewrite (MakeTime_invalid _ _ _ _ H).
  autorewrite with js_nan. reflexivity.
Qed.

(** [new Date(0, 0, d, h, m)] for integers [d], [h], [m] within a year of
    the origin and a time-zone offset within a day: day [d] of January 1900
    (day 0 being 31 December 1899) at [h:m] local time. *)
Lemma Date_of_fields_1900 (d h m : Z) :
  (Z.abs d <= 366)%Z -> (Z.abs h <= 8784)%Z -> (Z.abs m <= 527040)%Z ->
  getTime (Date_of_fields tza (VNumber (Fin 0)) (VNumber (Fin 0))
             (VNumber (of_Z d)) (VNumber (of_Z h)) (VNumber (of_Z m)))
  = of_Z ((d - 25568) * msPerDay + h * msPerHour + m * msPerMinute - tza).
Proof.
  intros Hd Hh Hm.
  unfold Date_of_fields, getTime, ToNumber.
  change (trunc 0) with 0%Z. cbv iota beta zeta.
  change ((0 <=? 0)%Z && (0 <=? 99)%Z) with true. cbv iota.
  unfold MakeDay, MakeTime, of_Z.
  rewrite !trunc_inject_Z.
  change (trunc 0) with 0%Z.
  change (1900 + 0 + 0 / 12)%Z with 1900%Z.
  change (0 mod 12)%Z with 0%Z.
  change (DayFromYear 1900 + DaysBeforeMonth (InLeapYear 1900) 0)%Z
    with (-25567)%Z.
  unfold MakeDate, UTC, of_Z, add, mul, sub, lift2.
  apply TimeClip_integral.
  - rewrite <- !Z.add_opp_r.
    repeat (rewrite ?inject_Z_plus, ?inject_Z_mult, ?inject_Z_opp).
    unfold msPerDay, msPerHour, msPerMinute, msPerSecond.
    change (inject_Z (-25567)) with (-25567).
    change (inject_Z 25568) with 25568.
    change (inject_Z 1) with 1.
    change (inject_Z 86400000) with 86400000.
    change (inject_Z 3600000) with 3600000.
    change (inject_Z 60000) with 60000.
    change (inject_Z 1000) with 1000.
    ring.
  - pose proof tza_within_day.
    unfold msPerDay, msPerHour, msPerMinute in *. lia.
Qed.

(** *** Clock times *)

Section ClockTimes.

Lemma below_100_cases (P : Z -> Prop) :
  (forall i : nat, (i < 100)%nat -> P (Z.of_nat i)) ->
  forall n : Z, (0 <= n < 100)%Z -> P n.
Proof.
  intros H n Hn. rewrite <- (Z2Nat.id n) by lia. apply H. lia.
Qed.

Lemma two_digits_number (n : Z) :
  (0 <= n < 100)%Z -> StringToNumber (two_digits n) = of_Z n.
Proof.
  revert n. apply below_100_cases. intros i Hi.
  do 100 (destruct i as [|i]; [vm_compute; reflexivity|]). lia.
Qed.

Lemma two_digits_split (n : Z) (rest : string) :
  (0 <= n < 100)%Z ->
  split ":" (two_digits n ++ String ":" rest)
  = two_digits n :: split ":" rest.
Proof.
  revert n. apply below_100_cases. intros i Hi.
  do 100 (destruct i as [|i]; [reflexivity|]). lia.
Qed.

Lemma two_digits_whole (n : Z) :
  (0 <= n < 100)%Z -> split ":" (two_digits n) = [two_digits n].
Proof.
  revert n. apply below_100_cases. intros i Hi.
  do 100 (destruct i as [|i]; [reflexivity|]). lia.
Qed.

(** A well-formed clock text is read back as its hour and minute. *)
Lemma clock_components (h m : Z) :
  (0 <= h < 100)%Z -> (0 <= m < 100)%Z ->
  time_components (clock h m) = [of_Z h; of_Z m].
Proof.
  intros Hh Hm. unfold time_components, clock.
  change (":" ++ two_digits m)%string with (String ":" (two_digits m)).
  rewrite two_digits_split, two_digits_whole by assumption.
  cbn [map]. unfold Number, ToNumber.
  rewrite !two_digits_number by assumption. reflexivity.
Qed.

Lemma clock_truthy (h m : Z) : truthy_string (clock h m) = true.
Proof. reflexivity. Qed.

End ClockTimes.

(** *** Duration between two clock times *)

Lemma lt_of_Z (a b : Z) : lt (of_Z a) (of_Z b) = (a <? b)%Z.
Proof.
  unfold lt, of_Z.
  destruct (Z.ltb_spec a b) as [H | H].
  - rewrite Qle_bool_of_lt; [reflexivity | rewrite <- Zlt_Qlt; exact H].
  - rewrite Qle_bool_of_le; [reflexivity | rewrite <- Zle_Qle; exact H].
Qed.

Lemma computeHoursFromTimes_clock (sh sm eh em : Z) :
  (0 <= sh < 24)%Z -> (0 <= sm < 60)%Z ->
  (0 <= eh < 24)%Z -> (0 <= em < 60)%Z ->
  let day := if (eh <? sh)%Z then 1%Z else 0%Z in
  let diff :=
    (inject_Z ((day - 25568) * msPerDay + eh * msPerHour + em * msPerMinute - tza)
     - inject_Z ((0 - 25568) * msPerDay + sh * msPerHour + sm * msPerMinute - tza))
    / (1000 * 60 * 60) in
  computeHoursFromTimes tza (clock sh sm) (clock eh em)
  = Returned (if lt (Fin diff) (Fin 0) then Fin 0 else Fin diff).
Proof.
  intros Hsh Hsm Heh Hem day diff.
  unfold computeHoursFromTimes.
  rewrite !clock_truthy. cbn [negb orb].
  fold (time_components (clock sh sm)) (time_components (clock eh em)).
  rewrite !clock_components by lia.
  cbn [index nth_error].
  unfold lt_value. cbn [ToNumber]. rewrite lt_of_Z. fold day.
  assert (Hend :
    getTime (if (eh <? sh)%Z
             then Date_of_fields tza (VNumber (Fin 0)) (VNumber (Fin 0))
                    (VNumber (Fin 1)) (VNumber (of_Z eh)) (VNumber (of_Z em))
             else Date_of_fields tza (VNumber (Fin 0)) (VNumber (Fin 0))
                    (VNumber (Fin 0)) (VNumber (of_Z eh)) (VNumber (of_Z em)))
    = of_Z ((day - 25568) * msPerDay + eh * msPerHour + em * msPerMinute - tza)).
  { subst day. destruct (eh <? sh)%Z.
    - apply (Date_of_fields_1900 1 eh em); lia.
    - apply (Date_of_fields_1900 0 eh em); lia. }
  rewrite Hend.
  pose proof (Date_of_fields_1900 0 sh sm
                ltac:(lia) ltac:(lia) ltac:(lia)) as Hstart.
  change (of_Z 0) with (Fin 0) in Hstart.
  rewrite Hstart. reflexivity.
Qed.

End LocalTime.

(** C10.  [computeHoursFromTimes] returns exactly 0 when the start text or
    the end text is empty; nothing is parsed in that case, whatever the
    other text is. *)
Theorem computeHoursFromTimes_empty (tza : Z) (start end_ : string) :
  start = EmptyString \/ end_ = EmptyString ->
  computeHoursFromTimes tza start end_ = Returned (Fin 0).
Proof.
  intros [-> | ->]; unfold computeHoursFromTimes.
  - reflexivity.
  - destruct (truthy_string start); reflexivity.
Qed.

Lemma computeHoursFromTimes_empty_witness :
  computeHoursFromTimes 0 "" "junk" = Returned (Fin 0) /\
  computeHoursFromTimes 0 "21:45" "" = Returned (Fin 0).
Proof.
  split.
  - apply (computeHoursFromTimes_empty 0 "" "junk"). left. reflexivity.
  - apply (computeHoursFromTimes_empty 0 "21:45" ""). right. reflexivity.
Defined.

(* ================================================================= *)
(** ** Shift classification *)

Section Shifts.

Lemma minute_of_day_split (T : Z) :
  (((T / msPerHour) mod 24) * 60 + (T / msPerMinute) mod 60
   = (T / msPerMinute) mod 1440)%Z.
Proof.
  unfold msPerHour, msPerMinute.
  replace (T / 3600000)%Z with (T / 60000 / 60)%Z
    by (rewrite Z.div_div by lia; reflexivity).
  generalize (T / 60000)%Z. intros M.
  Z.div_mod_to_equations. lia.
Qed.

(** The minute count both classifiers compute from [now]. *)
Lemma total_minutes (tza : Z) (now : Date) (t : Q) :
  getTime now = Fin t ->
  exists q : Q,
    add (mul (getHours tza now) (Fin 60)) (getMinutes tza now) = Fin q /\
    q == inject_Z (minute_of_day tza now).
Proof.
  intros Ht. unfold getHours, getMinutes, minute_of_day. rewrite Ht.
  eexists. split; [reflexivity|].
  rewrite <- minute_of_day_split.
  rewrite inject_Z_plus, inject_Z_mult. reflexivity.
Qed.

Lemma in_range_minutes (q : Q) (mins lo hi : Z) :
  q == inject_Z mins ->
  ge (Fin q) (Fin (inject_Z lo)) && lt (Fin q) (Fin (inject_Z hi))
  = ((lo <=? mins) && (mins <? hi))%Z.
Proof.
  intros E. unfold ge, le, lt.
  rewrite (Qleb_comp _ _ (Qeq_refl (inject_Z lo)) _ _ E).
  rewrite (Qleb_comp _ _ (Qeq_refl (inject_Z hi)) _ _ E).
  f_equal.
  - destruct (Z.leb_spec lo mins) as [H | H].
    + apply Qle_bool_of_le. rewrite <- Zle_Qle. exact H.
    + apply Qle_bool_of_lt. rewrite <- Zlt_Qlt. exact H.
  - destruct (Z.ltb_spec mins hi) as [H | H].
    + rewrite Qle_bool_of_lt; [reflexivity | rewrite <- Zlt_Qlt; exact H].
    + rewrite Qle_bool_of_le; [reflexivity | rewrite <- Zle_Qle; exact H].
Qed.

Lemma getOngoingShift_minutes (tza : Z) (now : Date) (t : Q) :
  getTime now = Fin t ->
  let mins := minute_of_day tza now in
  getOngoingShift tza now =
    (if (345 <=? mins) && (mins <? 855) then morning
     else if (825 <=? mins) && (mins <? 1335) then evening
     else night)%Z.
Proof.
  intros Ht mins.
  destruct (total_minutes tza now t Ht) as (q & Hq & E).
  unfold getOngoingShift. cbv zeta beta. rewrite Hq.
  change (add (mul (Fin 5) (Fin 60)) (Fin 45)) with (Fin (inject_Z 345)).
  change (add (mul (Fin 14) (Fin 60)) (Fin 15)) with (Fin (inject_Z 855)).
  change (add (mul (Fin 13) (Fin 60)) (Fin 45)) with (Fin (inject_Z 825)).
  change (add (mul (Fin 22) (Fin 60)) (Fin 15)) with (Fin (inject_Z 1335)).
  rewrite !(in_range_minutes q mins) by exact E.
  reflexivity.
Qed.

Lemma default_start_of_shift (tza : Z) (now : Date) :
  getDefaultStartTime tza now = shift_start (getOngoingShift tza now).
Proof.
  unfold getDefaultStartTime, getOngoingShift. cbv zeta beta.
  repeat match goal with
         | |- context [if ?b then _ else _] => destruct b
         end; reflexivity.
Qed.

End Shifts.

(** C9.  The shift of the current minute of the day is decided by two
    half-open ranges tried in order, morning [05:45, 14:15) before evening
    [13:45, 22:15), night otherwise; every minute of the overlap
    [13:45, 14:15), 14:00 among them, is therefore morning.  The default
    start time is that of the shift found: "05:45" for morning, "13:45"
    for evening and "21:45" for night. *)
Theorem shift_first_match_wins (tza : Z) (now : Date) (t : Q) :
  getTime now = Fin t ->
  let mins := minute_of_day tza now in
  getOngoingShift tza now =
    (if (345 <=? mins) && (mins <? 855) then morning
     else if (825 <=? mins) && (mins <? 1335) then evening
     else night)%Z /\
  ((825 <= mins < 855)%Z -> getOngoingShift tza now = morning) /\
  (mins = 840%Z -> getOngoingShift tza now = morning) /\
  getDefaultStartTime tza now = shift_start (getOngoingShift tza now) /\
  shift_start morning = "05:45"%string /\
  shift_start evening = "13:45"%string /\
  shift_start night = "21:45"%string.
Proof.
  intros Ht mins.
  pose proof (getOngoingShift_minutes tza now t Ht) as H. fold mins in H.
  split; [exact H|].
  split.
  { intros Hm. rewrite H.
    replace ((345 <=? mins) && (mins <? 855))%Z with true; [reflexivity|].
    symmetry. apply andb_true_intro. split; [apply Z.leb_le | apply Z.ltb_lt]; lia. }
  split.
  { intros Hm. rewrite H, Hm. reflexivity. }
  split; [apply default_start_of_shift|].
  repeat split.
Qed.

Lemma shift_first_match_wins_witness :
  let now := Date_of_string 7200000 "2025-03-14T14:00:00" in
  minute_of_day 7200000 now = 840%Z /\
  getOngoingShift 7200000 now = morning /\
  getDefaultStartTime 7200000 now = "05:45"%string.
Proof.
  set (now := Date_of_string 7200000 "2025-03-14T14:00:00").
  assert (Ht : getTime now = Fin (inject_Z 1741953600000))
    by (vm_compute; reflexivity).
  destruct (shift_first_match_wins 7200000 now _ Ht)
    as (_ & _ & H14 & Hdef & Hmorning & _).
  assert (Hm : minute_of_day 7200000 now = 840%Z) by (vm_compute; reflexivity).
  split; [exact Hm|]. split; [exact (H14 Hm)|].
  rewrite Hdef, (H14 Hm). exact Hmorning.
Defined.

(* ================================================================= *)
(** ** Period average *)

Section PeriodAverage.

Lemma toFixed_2_zero (q : Q) : q == 0 -> toFixed 2 (Fin q) = "0.00"%string.
Proof.
  intros E. unfold toFixed.
  rewrite (Qleb_comp 0 0 (Qeq_refl 0) q 0 E).
  change (Qle_bool 0 0) with true. cbn [negb].
  unfold round_half_up.
  rewrite (Qfloor_comp (q * inject_Z (10 ^ Z.of_nat 2) + (1 # 2)) (1 # 2))
    by (rewrite E; reflexivity).
  reflexivity.
Qed.

(** A record that has no numeric [performance] of its own adds 0. *)
Lemma fold_without_performance (data : list (string * value))
    (keys : list string) :
  (forall k, In k keys ->
     exists props, lookup k data = VObject props /\
                   Number (lookup "performance" props) = NaN) ->
  fold_left
    (fun acc dateString =>
       sum <- acc ;;
       record <- get (VObject data) dateString ;;
       p <- get record "performance" ;;
       let perf := Number p in
       Returned (add sum (if isNaN perf then Fin 0 else perf)))
    keys (Returned (Fin 0))
  = Returned (Fin 0).
Proof.
  induction keys as [|k keys IH]; intros H; [reflexivity|].
  cbn [fold_left].
  destruct (H k (or_introl eq_refl)) as (props & Hk & Hp).
  cbn [bind get]. rewrite Hk. cbn [bind get]. rewrite Hp. cbn [isNaN].
  change (add (Fin 0) (Fin 0)) with (Fin 0).
  apply IH. intros k' Hk'. apply H. right. exact Hk'.
Qed.

(** On a store whose records carry their entries under [normal] and
    [forklift], as [App.tsx] builds them, no record has a [performance] of
    its own and the average is ["0.00"] whatever the entries hold. *)
Lemma calculateAverage_track_store (tza : Z) (data : list (string * value))
    (filterDates : Date -> bool) :
  (forall k, In k (Object_keys data) ->
     exists props, lookup k data = VObject props /\
                   Number (lookup "performance" props) = NaN) ->
  calculateAverage tza data filterDates = Returned "0.00"%string.
Proof.
  intros H. unfold calculateAverage.
  rewrite fold_without_performance.
  - cbn [bind]. f_equal.
    destruct (gt _ (Fin 0)) eqn:G; [|reflexivity].
    unfold gt, lt, of_Z in G.
    apply negb_true_iff, Qle_bool_false in G.
    unfold div, of_Z.
    destruct (Qeq_bool _ 0) eqn:E.
    + apply Qeq_bool_eq in E. rewrite E in G. discriminate G.
    + apply toFixed_2_zero. unfold Qdiv. ring.
  - intros k Hk. apply H. apply filter_In in Hk. apply Hk.
Qed.

End PeriodAverage.

(** C5.  The specification selects, for a requested track, the keys whose
    record has that track and averages the performance of those entries.
    [calculateAverage] has no track: on a store with one [normal] entry of
    performance 8 and one [forklift] entry of performance 9 it counts both
    keys, finds no performance to read and returns ["0.00"], where the
    specification gives 8 for [normal] and 9 for [forklift]. *)
Theorem calculateAverage_ignores_track :
  let normal_day :=
    VObject [("normal"%string,
              DateData_object (mkDateData (Fin 8) (Fin 8) false false))] in
  let forklift_day :=
    VObject [("forklift"%string,
              DateData_object (mkDateData (Fin 9) (Fin 8) false false))] in
  let data := [("2025-03-03"%string, normal_day);
               ("2025-03-04"%string, forklift_day)] in
  let include := fun _ : Date => true in
  calculateAverage 0 data include = Returned "0.00"%string /\
  num_eq (meanPerformance_spec 0 data include "normal") (Fin 8) /\
  num_eq (meanPerformance_spec 0 data include "forklift") (Fin 9).
Proof.
  cbv zeta. split; [|split]; vm_compute; reflexivity.
Qed.

(* ================================================================= *)
(** ** Further properties of the effective hours *)

Section EffectiveHoursShape.

Lemma round_half_up_mono (x y : Q) :
  x <= y -> (round_half_up x <= round_half_up y)%Z.
Proof.
  intros H. unfold round_half_up. apply Qfloor_resp_le. lra.
Qed.

End EffectiveHoursShape.

(** X1.  On a normal day the effective hours do not decrease as the hours
    grow within [0, 4) or from 4 upwards, but they drop at 4: every shift
    longer than 3.25 hours and shorter than 4 counts for more than a shift
    of exactly 4 hours. *)
Theorem effectiveHours_normal_day_drop_at_4 :
  (forall a b : Q,
      a <= b -> b < 4 ->
      num_le (effectiveHours (Fin a) false false)
             (effectiveHours (Fin b) false false)) /\
  (forall a b : Q,
      4 <= a -> a <= b ->
      num_le (effectiveHours (Fin a) false false)
             (effectiveHours (Fin b) false false)) /\
  (forall h : Q,
      3.25 < h -> h < 4 ->
      num_lt (effectiveHours (Fin 4) false false)
             (effectiveHours (Fin h) false false)).
Proof.
  unfold effectiveHours.
  repeat split; intros; simpl; qcases; simpl; lra.
Qed.

Lemma effectiveHours_normal_day_drop_at_4_witness :
  num_le (effectiveHours (Fin 1) false false)
         (effectiveHours (Fin 3) false false) /\
  num_le (effectiveHours (Fin 5) false false)
         (effectiveHours (Fin 12) false false) /\
  num_lt (effectiveHours (Fin 4) false false)
         (effectiveHours (Fin 3.5) false false).
Proof.
  destruct effectiveHours_normal_day_drop_at_4 as (Hlow & Hhigh & Hdrop).
  split; [|split].
  - apply (Hlow 1 3); lra.
  - apply (Hhigh 5 12); lra.
  - apply (Hdrop 3.5); lra.
Defined.

(** X2.  On a regular day the overtime flag changes nothing for hours
    between 8 and 16; below 8 hours it raises the effective hours to 7.25,
    and above 16 hours it caps them below the normal-day value. *)
Theorem effectiveHours_overtime_against_normal (h : Q) :
  (8 <= h -> h <= 16 ->
   num_eq (effectiveHours (Fin h) true false)
          (effectiveHours (Fin h) false false)) /\
  (h < 8 ->
   num_lt (effectiveHours (Fin h) false false)
          (effectiveHours (Fin h) true false)) /\
  (16 < h ->
   num_lt (effectiveHours (Fin h) true false)
          (effectiveHours (Fin h) false false)).
Proof.
  assert (Hb : 8 <= 16) by lra.
  repeat split; intros; unfold effectiveHours; simpl;
    fold (clamp h 8 16);
    destruct (clamp_cases h 8 16 Hb) as [[? E] | [[? E] | [? E]]];
    qcases; simpl; try rewrite E; lra.
Qed.

Lemma effectiveHours_overtime_against_normal_witness :
  num_eq (effectiveHours (Fin 10) true false)
         (effectiveHours (Fin 10) false false) /\
  num_lt (effectiveHours (Fin 6) false false)
         (effectiveHours (Fin 6) true false) /\
  num_lt (effectiveHours (Fin 18) true false)
         (effectiveHours (Fin 18) false false).
Proof.
  split; [|split].
  - apply (effectiveHours_overtime_against_normal 10); lra.
  - apply (effectiveHours_overtime_against_normal 6); lra.
  - apply (effectiveHours_overtime_against_normal 18); lra.
Defined.

(** X4.  An entry whose performance equals its effective hours scores
    exactly 100, whatever the hours and flags, as long as the effective
    hours are positive. *)
Theorem percentage_of_par_performance (entry : DateData) (p e : Q) :
  effectiveHours (hours entry) (overtime entry) (freeDay entry) = Fin e ->
  performance entry = Fin p ->
  0 < e -> p == e ->
  computePerformancePercentage entry = Fin 100.
Proof.
  intros He Hp Hpos Hpe.
  unfold computePerformancePercentage. rewrite He, Hp.
  simpl le. rewrite Qle_bool_of_lt by exact Hpos.
  rewrite percentage_quotient by exact Hpos.
  simpl. f_equal.
  change 100 with (inject_Z 100). f_equal.
  assert (E : p / e * 100 == 100) by (rewrite Hpe; field; lra).
  apply round_half_up_unique; rewrite E; change (inject_Z 100) with 100; lra.
Qed.

Lemma percentage_of_par_performance_witness :
  computePerformancePercentage
    (mkDateData (Fin 14.986) (Fin 20) true false) = Fin 100.
Proof.
  apply (percentage_of_par_performance
           (mkDateData (Fin 14.986) (Fin 20) true false)
           14.986 (7.25 + (Qmax 8 (Qmin 20 16) - 8) * 0.967)).
  - reflexivity.
  - reflexivity.
  - vm_compute. reflexivity.
  - vm_compute. reflexivity.
Defined.

(** X5.  For fixed hours and flags with positive effective hours, the
    percentage does not decrease when the performance grows. *)
Theorem percentage_monotone_in_performance (e1 e2 : DateData) (p1 p2 eff : Q) :
  hours e1 = hours e2 -> overtime e1 = overtime e2 ->
  freeDay e1 = freeDay e2 ->
  effectiveHours (hours e1) (overtime e1) (freeDay e1) = Fin eff ->
  0 < eff ->
  performance e1 = Fin p1 -> performance e2 = Fin p2 -> p1 <= p2 ->
  num_le (computePerformancePercentage e1) (computePerformancePercentage e2).
Proof.
  intros Hh Ho Hf He Hpos Hp1 Hp2 Hle.
  unfold computePerformancePercentage.
  rewrite <- Hh, <- Ho, <- Hf, He, Hp1, Hp2.
  simpl le. rewrite Qle_bool_of_lt by exact Hpos.
  rewrite !percentage_quotient by exact Hpos.
  simpl. rewrite <- Zle_Qle. apply round_half_up_mono.
  apply Qmult_le_compat_r; [|lra].
  unfold Qdiv. apply Qmult_le_compat_r; [exact Hle|].
  apply Qlt_le_weak, Qinv_lt_0_compat. exact Hpos.
Qed.

Lemma percentage_monotone_in_performance_witness :
  num_le
    (computePerformancePercentage (mkDateData (Fin 6) (Fin 8) false false))
    (computePerformancePercentage (mkDateData (Fin 9) (Fin 8) false false)).
Proof.
  apply (percentage_monotone_in_performance
           (mkDateData (Fin 6) (Fin 8) false false)
           (mkDateData (Fin 9) (Fin 8) false false) 6 9 (8 - 0.75));
    try reflexivity.
  discriminate.
Defined.

(* ================================================================= *)
(** ** Further properties of the period average *)

Section AverageShape.

Variable tza : Z.
Variable filterDates : Date -> bool.

Lemma fold_step_raised (data : list (string * value)) (keys : list string)
    (e : error) :
  fold_left (step data) keys (Raised e) = Raised e.
Proof. induction keys as [|k keys IH]; [reflexivity | exact IH]. Qed.

Lemma step_returns (data : list (string * value)) (s : number) (k : string) :
  lookup k data <> VUndefined -> lookup k data <> VNull ->
  exists s' : number, step data (Returned s) k = Returned s'.
Proof.
  intros Hu Hn. unfold step. cbn [bind get].
  destruct (lookup k data); try contradiction; cbn [bind get]; eauto.
Qed.

Lemma step_raises (data : list (string * value)) (s : number) (k : string) :
  lookup k data = VUndefined \/ lookup k data = VNull ->
  step data (Returned s) k = Raised TypeError.
Proof.
  intros [H | H]; unfold step; cbn [bind get]; rewrite H; reflexivity.
Qed.

Lemma fold_step_outcome (data : list (string * value)) (keys : list string)
    (s : number) :
  (exists k, In k keys /\
             (lookup k data = VUndefined \/ lookup k data = VNull)) /\
  fold_left (step data) keys (Returned s) = Raised TypeError
  \/
  (forall k, In k keys ->
             lookup k data <> VUndefined /\ lookup k data <> VNull) /\
  exists s' : number, fold_left (step data) keys (Returned s) = Returned s'.
Proof.
  revert s. induction keys as [|k keys IH]; intros s.
  - right. split; [intros k [] | eexists; reflexivity].
  - cbn [fold_left].
    assert (Hk : (lookup k data = VUndefined \/ lookup k data = VNull) \/
                 (lookup k data <> VUndefined /\ lookup k data <> VNull)).
    { destruct (lookup k data); auto; right; split; discriminate. }
    destruct Hk as [Hbad | [Hu Hn]].
    + left. split.
      * exists k. split; [left; reflexivity | exact Hbad].
      * rewrite (step_raises data s k Hbad). apply fold_step_raised.
    + destruct (step_returns data s k Hu Hn) as [s' Hs']. rewrite Hs'.
      destruct (IH s') as [[(k' & Hin & Hbad) Hr] | [Hall Hr]].
      * left. split; [|exact Hr]. exists k'. split; [right; exact Hin | exact Hbad].
      * right. split; [|exact Hr].
        intros k' [<- | Hin]; [split; assumption | apply Hall; exact Hin].
Qed.

Lemma toFixed_comp (f : nat) (x y : Q) :
  x == y -> toFixed f (Fin x) = toFixed f (Fin y).
Proof.
  intros E. unfold toFixed.
  rewrite (Qleb_comp 0 0 (Qeq_refl 0) x y E).
  destruct (negb (Qle_bool 0 y)); cbv zeta; unfold round_half_up.
  - rewrite (Qfloor_comp (- x * inject_Z (10 ^ Z.of_nat f) + (1 # 2))
                         (- y * inject_Z (10 ^ Z.of_nat f) + (1 # 2)))
      by (rewrite E; reflexivity).
    reflexivity.
  - rewrite (Qfloor_comp (x * inject_Z (10 ^ Z.of_nat f) + (1 # 2))
                         (y * inject_Z (10 ^ Z.of_nat f) + (1 # 2)))
      by (rewrite E; reflexivity).
    reflexivity.
Qed.

End AverageShape.

Lemma calculateAverage_unfold (tza : Z) (data : list (string * value))
    (filterDates : Date -> bool) :
  calculateAverage tza data filterDates =
  let filteredDates := filter (accepted tza filterDates) (Object_keys data) in
  total <- fold_left (step data) filteredDates (Returned (Fin 0)) ;;
  let len := of_Z (Z.of_nat (List.length filteredDates)) in
  Returned (toFixed 2 (if gt len (Fin 0) then div total len else Fin 0)).
Proof. reflexivity. Qed.

(** X8.  [calculateAverage] raises a [TypeError] exactly when some key that
    [filterDates] accepts holds [null] or [undefined]; every other value
    under an accepted key is read without raising, and a key that is
    rejected is never read. *)
Theorem calculateAverage_raises_iff (tza : Z) (data : list (string * value))
    (filterDates : Date -> bool) :
  calculateAverage tza data filterDates = Raised TypeError
  <->
  exists k : string,
    In k (Object_keys data) /\ accepted tza filterDates k = true /\
    (lookup k data = VUndefined \/ lookup k data = VNull).
Proof.
  rewrite calculateAverage_unfold. cbv zeta.
  set (keys := filter (accepted tza filterDates) (Object_keys data)).
  destruct (fold_step_outcome data keys (Fin 0))
    as [[(k & Hin & Hbad) Hr] | [Hall (s' & Hr)]]; rewrite Hr; cbn [bind].
  - split; [|reflexivity]. intros _. exists k.
    apply filter_In in Hin. destruct Hin as [Hin Hacc].
    repeat split; assumption.
  - split; [discriminate|].
    intros (k & Hin & Hacc & Hbad). exfalso.
    destruct (Hall k) as [Hu Hn].
    { apply filter_In. split; assumption. }
    destruct Hbad; contradiction.
Qed.

(** X9.  When [filterDates] accepts no key of the store, the empty store
    included, [calculateAverage] returns ["0.00"]: nothing is read, so
    even [null] records cannot make it raise, and nothing is divided. *)
Theorem calculateAverage_nothing_accepted (tza : Z)
    (data : list (string * value)) (filterDates : Date -> bool) :
  (forall k : string,
      In k (Object_keys data) -> accepted tza filterDates k = false) ->
  calculateAverage tza data filterDates = Returned "0.00"%string.
Proof.
  intros H. rewrite calculateAverage_unfold. cbv zeta.
  assert (E : filter (accepted tza filterDates) (Object_keys data) = []).
  { induction (Object_keys data) as [|k keys IH]; [reflexivity|].
    cbn [filter]. rewrite (H k (or_introl eq_refl)).
    apply IH. intros k' Hk'. apply H. right. exact Hk'. }
  rewrite E. reflexivity.
Qed.

Lemma calculateAverage_nothing_accepted_witness :
  calculateAverage 0 [("2024-01-05"%string, VNull)] (fun _ => false)
  = Returned "0.00"%string.
Proof.
  apply (calculateAverage_nothing_accepted 0
           [("2024-01-05"%string, VNull)] (fun _ => false)).
  intros k _. reflexivity.
Defined.

(* ================================================================= *)
(** ** Two-digit texts *)

Lemma parseInt_two_digits (n : Z) :
  (0 <= n < 100)%Z -> parseInt (Some (two_digits n)) = of_Z n.
Proof.
  revert n. apply (below_100_cases 0). intros i Hi.
  do 100 (destruct i as [|i]; [vm_compute; reflexivity|]). lia.
Qed.

Lemma padded_two_digits (n : Z) :
  (0 <= n < 100)%Z -> padStart0 2 (toString (of_Z n)) = two_digits n.
Proof.
  revert n. apply (below_100_cases 0). intros i Hi.
  do 100 (destruct i as [|i]; [vm_compute; reflexivity|]). lia.
Qed.

Lemma clock_parts (h m : Z) :
  (0 <= h < 100)%Z -> (0 <= m < 100)%Z ->
  split ":" (clock h m) = [two_digits h; two_digits m].
Proof.
  intros Hh Hm. unfold clock.
  change (":" ++ two_digits m)%string with (String ":" (two_digits m)).
  rewrite (two_digits_split 0), (two_digits_whole 0) by assumption.
  reflexivity.
Qed.

(* ================================================================= *)
(** ** Adding hours to a clock time *)

Section AddHours.

Variable tza : Z.
Hypothesis tza_within_day : (Z.abs tza <= msPerDay)%Z.

Lemma getHours_of_Z (T : Z) :
  getHours tza (mkDate (of_Z T)) = of_Z (((T + tza) / msPerHour) mod 24).
Proof. unfold getHours, getTime, of_Z. rewrite Qfloor_Z. reflexivity. Qed.

Lemma getMinutes_of_Z (T : Z) :
  getMinutes tza (mkDate (of_Z T)) = of_Z (((T + tza) / msPerMinute) mod 60).
Proof. unfold getMinutes, getTime, of_Z. rewrite Qfloor_Z. reflexivity. Qed.

Lemma Date_eta (d : Date) (n : number) : getTime d = n -> d = mkDate n.
Proof. destruct d as [t]. simpl. intros ->. reflexivity. Qed.

Lemma local_fields (D H M : Z) :
  (0 <= H < 24)%Z -> (0 <= M < 60)%Z ->
  (local D H M / msPerDay = D)%Z /\
  ((local D H M / msPerHour) mod 24 = H)%Z /\
  ((local D H M / msPerMinute) mod 60 = M)%Z /\
  ((local D H M / msPerSecond) mod 60 = 0)%Z /\
  (local D H M mod 1000 = 0)%Z.
Proof.
  intros HH HM. unfold local, msPerDay, msPerHour, msPerMinute, msPerSecond.
  repeat split; Z.div_mod_to_equations; lia.
Qed.

Lemma setHours_local (D H M K : Z) :
  (0 <= H < 24)%Z -> (0 <= M < 60)%Z ->
  (Z.abs D <= 30000)%Z -> (Z.abs K <= 1000000)%Z ->
  setHours tza (mkDate (of_Z (local D H M - tza))) (Fin (inject_Z H + inject_Z K))
  = mkDate (of_Z (local (D + (H + K) / 24) ((H + K) mod 24) M - tza)).
Proof.
  intros HH HM HD HK.
  unfold setHours, getTime, of_Z. rewrite Qfloor_Z.
  replace (local D H M - tza + tza)%Z with (local D H M) by lia.
  destruct (local_fields D H M HH HM) as (-> & _ & -> & -> & ->).
  f_equal. unfold MakeTime, of_Z.
  rewrite (trunc_integral (inject_Z H + inject_Z K) (H + K))
    by (rewrite inject_Z_plus; reflexivity).
  rewrite !trunc_inject_Z.
  unfold MakeDate, UTC, of_Z, add, mul, sub, lift2.
  apply TimeClip_integral.
  - unfold local.
    rewrite <- !Z.add_opp_r.
    repeat (rewrite ?inject_Z_plus, ?inject_Z_mult, ?inject_Z_opp).
    assert (E : inject_Z (H + K)
                == inject_Z ((H + K) / 24) * 24 + inject_Z ((H + K) mod 24)).
    { change 24 with (inject_Z 24).
      rewrite <- inject_Z_mult, <- inject_Z_plus.
      rewrite (Z.div_mod (H + K) 24) at 1 by lia.
      rewrite (Z.mul_comm 24). reflexivity. }
    rewrite inject_Z_plus in E.
    unfold msPerDay, msPerHour, msPerMinute, msPerSecond.
    change (inject_Z 0) with 0.
    change (inject_Z 86400000) with 86400000.
    change (inject_Z 3600000) with 3600000.
    change (inject_Z 60000) with 60000.
    change (inject_Z 1000) with 1000.
    generalize dependent (inject_Z ((H + K) / 24)).
    generalize dependent (inject_Z ((H + K) mod 24)).
    intros r q E. lra.
  - pose proof tza_within_day.
    unfold local, msPerDay, msPerHour, msPerMinute in *.
    Z.div_mod_to_equations. lia.
Qed.

(** The date [addHours] builds from a well-formed clock time. *)
Lemma addHours_start_date (h m : Z) :
  (0 <= h < 24)%Z -> (0 <= m < 60)%Z ->
  Date_of_fields tza (VNumber (Fin 0)) (VNumber (Fin 0)) (VNumber (Fin 0))
                 (VNumber (of_Z h)) (VNumber (of_Z m))
  = mkDate (of_Z (local (-25568) h m - tza)).
Proof.
  intros Hh Hm. apply Date_eta.
  pose proof (Date_of_fields_1900 tza tza_within_day 0 h m
                ltac:(lia) ltac:(lia) ltac:(lia)) as H.
  change (of_Z 0) with (Fin 0) in H. rewrite H. reflexivity.
Qed.

Lemma addHours_clock (h m k : Z) :
  (0 <= h < 24)%Z -> (0 <= m < 60)%Z -> (Z.abs k <= 1000000)%Z ->
  addHours tza (clock h m) (of_Z k) = clock ((h + k) mod 24) m.
Proof.
  intros Hh Hm Hk. unfold addHours.
  rewrite clock_parts by lia. cbn [nth_error].
  rewrite !parseInt_two_digits by lia.
  rewrite addHours_start_date by assumption.
  rewrite getHours_of_Z.
  replace (local (-25568) h m - tza + tza)%Z with (local (-25568) h m) by lia.
  destruct (local_fields (-25568) h m Hh Hm) as (_ & -> & _).
  change (add (of_Z h) (of_Z k)) with (Fin (inject_Z h + inject_Z k)).
  rewrite setHours_local by lia.
  rewrite getHours_of_Z, getMinutes_of_Z.
  set (D := (-25568 + (h + k) / 24)%Z).
  set (H := ((h + k) mod 24)%Z).
  assert (HH : (0 <= H < 24)%Z) by (subst H; apply Z.mod_pos_bound; lia).
  replace (local D H m - tza + tza)%Z with (local D H m) by lia.
  destruct (local_fields D H m HH Hm) as (_ & -> & -> & _).
  rewrite !padded_two_digits by lia. reflexivity.
Qed.

End AddHours.

Section AutomaticSignOut.

Variable tza : Z.
Hypothesis tza_within_day : (Z.abs tza <= msPerDay)%Z.

(** From a clock time to the time [k] hours later on the clock, [k] hours
    are counted when [k] is below 24. *)
Lemma duration_to_later_clock (h m k : Z) :
  (0 <= h < 24)%Z -> (0 <= m < 60)%Z -> (0 <= k < 24)%Z ->
  exists d : Q,
    computeHoursFromTimes tza (clock h m) (clock ((h + k) mod 24) m)
    = Returned (Fin d) /\
    d == inject_Z k.
Proof.
  intros Hh Hm Hk.
  assert (HH : (0 <= (h + k) mod 24 < 24)%Z) by (apply Z.mod_pos_bound; lia).
  rewrite (computeHoursFromTimes_clock tza tza_within_day h m ((h + k) mod 24) m)
    by assumption.
  cbv zeta.
  set (diff := (_ - _) / (1000 * 60 * 60)).
  assert (E : diff == inject_Z k).
  { subst diff.
    assert (Hcase :
      ((h + k) mod 24 = h + k /\ ((h + k) mod 24 <? h) = false)%Z \/
      ((h + k) mod 24 = h + k - 24 /\ ((h + k) mod 24 <? h) = true)%Z).
    { destruct (Z.ltb_spec ((h + k) mod 24) h);
        Z.div_mod_to_equations; lia. }
    destruct Hcase as [[-> ->] | [-> ->]];
      rewrite <- !Z.add_opp_r;
      repeat (rewrite ?inject_Z_plus, ?inject_Z_mult, ?inject_Z_opp);
      unfold msPerDay, msPerHour, msPerMinute;
      change (inject_Z 25568) with 25568;
      change (inject_Z 24) with 24;
      change (inject_Z 0) with 0;
      change (inject_Z 1) with 1;
      change (inject_Z 86400000) with 86400000;
      change (inject_Z 3600000) with 3600000;
      change (inject_Z 60000) with 60000;
      field. }
  assert (Hk0 : 0 <= inject_Z k)
    by (change 0 with (inject_Z 0); rewrite <- Zle_Qle; lia).
  exists diff. split; [|exact E].
  simpl. rewrite Qle_bool_of_le by lra. reflexivity.
Qed.


End AutomaticSignOut.


(** X12.  When the hour or the minute of the text has no leading integer,
    [addHours] returns ["NaN:NaN"], whatever is added; clearing the sign-in
    time therefore sets the sign-out time to ["NaN:NaN"] and the hours to
    ["0.00"]. *)
Theorem addHours_malformed (tza : Z) (time : string) (hoursToAdd : number) :
  parseInt (nth_error (split ":" time) 0) = NaN \/
  parseInt (nth_error (split ":" time) 1) = NaN ->
  addHours tza time hoursToAdd = "NaN:NaN"%string /\
  handleStartTime tza ""
  = Returned [mkFormChange "startTime" "";
              mkFormChange "endTime" "NaN:NaN";
              mkFormChange "hours" "0.00"].
Proof.
  intros H. split; [|reflexivity].
  unfold addHours.
  set (d := Date_of_fields _ _ _ _ _ _).
  assert (Hd : d = mkDate NaN).
  { apply Date_eta. subst d. apply Date_of_fields_invalid. exact H. }
  rewrite Hd. reflexivity.
Qed.

Lemma addHours_malformed_witness :
  addHours 0 "9" (Fin 8) = "NaN:NaN"%string.
Proof.
  apply (addHours_malformed 0 "9" (Fin 8)). right. reflexivity.
Defined.

(* ================================================================= *)
(** ** The calendar *)

Section Calendar.

Lemma DayFromYear_mean (y : Z) :
  (146097 * (y - 1970) - 608 <= 400 * DayFromYear y
   <= 146097 * (y - 1970) + 600)%Z.
Proof. unfold DayFromYear. Z.div_mod_to_equations. lia. Qed.

Lemma DayFromYear_succ (y : Z) :
  DayFromYear (y + 1)
  = (DayFromYear y + (if InLeapYear y then 366 else 365))%Z.
Proof.
  unfold DayFromYear, InLeapYear.
  destruct (Z.eqb_spec (y mod 4) 0), (Z.eqb_spec (y mod 100) 0),
    (Z.eqb_spec (y mod 400) 0); cbn [andb orb negb];
    Z.div_mod_to_equations; lia.
Qed.

(** [YearFromDay d] is the year whose days include [d]. *)
Lemma YearFromDay_spec (d : Z) :
  (DayFromYear (YearFromDay d) <= d < DayFromYear (YearFromDay d + 1))%Z.
Proof.
  unfold YearFromDay. cbv zeta.
  set (y := (1970 + 400 * d / 146097)%Z).
  assert (Hy : (146097 * (y - 1970) <= 400 * d
                < 146097 * (y - 1970) + 146097)%Z).
  { subst y. Z.div_mod_to_equations. lia. }
  clearbody y.
  pose proof (DayFromYear_mean y).
  pose proof (DayFromYear_mean (y - 1)).
  pose proof (DayFromYear_mean (y + 1)).
  pose proof (DayFromYear_mean (y + 1 + 1)).
  destruct (Z.ltb_spec d (DayFromYear y)).
  - replace (y - 1 + 1)%Z with y by lia. lia.
  - destruct (Z.leb_spec (DayFromYear (y + 1)) d); lia.
Qed.

Lemma DayWithinYear_range (d : Z) :
  (0 <= DayWithinYear d
   < (if InLeapYear (YearFromDay d) then 366 else 365))%Z.
Proof.
  unfold DayWithinYear. pose proof (YearFromDay_spec d) as H.
  rewrite DayFromYear_succ in H. lia.
Qed.

Lemma MonthFromDay_range (d : Z) : (0 <= MonthFromDay d <= 11)%Z.
Proof.
  unfold MonthFromDay. cbv zeta.
  repeat match goal with
         | |- context [if (?a <? ?b)%Z then _ else _] =>
             destruct (a <? b)%Z
         end; lia.
Qed.

(** The day of the month lies between 1 and 31. *)
Lemma DateFromDay_range (d : Z) : (1 <= DateFromDay d <= 31)%Z.
Proof.
  unfold DateFromDay, MonthFromDay. cbv zeta.
  pose proof (DayWithinYear_range d) as H.
  destruct (InLeapYear (YearFromDay d));
    repeat match goal with
           | |- context [if (?a <? ?b)%Z then _ else _] =>
               destruct (Z.ltb_spec a b)
           end; cbn [DaysBeforeMonth]; lia.
Qed.

(** Year, month and day of the month give the day number back. *)
Lemma day_of_fields (d : Z) :
  (DayFromYear (YearFromDay d)
   + DaysBeforeMonth (InLeapYear (YearFromDay d)) (MonthFromDay d)
   + DateFromDay d - 1 = d)%Z.
Proof. unfold DateFromDay, DayWithinYear. lia. Qed.

End Calendar.

Lemma le_of_Z (a b : Z) : le (of_Z a) (of_Z b) = (a <=? b)%Z.
Proof.
  unfold le, of_Z.
  destruct (Z.leb_spec a b) as [H | H].
  - apply Qle_bool_of_le. rewrite <- Zle_Qle. exact H.
  - apply Qle_bool_of_lt. rewrite <- Zlt_Qlt. exact H.
Qed.

(** X14.  A valid date belongs to the period [getPeriodForDate] gives it
    and to no other: of the two periods, [filterDates] accepts the date
    under that one only, days 1 to 15 under "Jakso 1" and days from 16
    under "Jakso 2".  An invalid date is named "Jakso 2" but is accepted
    under no period. *)
Theorem period_of_date (tza : Z) (date : Date) (t : Q) :
  getTime date = Fin t ->
  filterDates tza (getPeriodForDate tza date) date = true /\
  (forall period : string,
      period = "Jakso 1"%string \/ period = "Jakso 2"%string ->
      (filterDates tza period date = true
       <-> period = getPeriodForDate tza date)) /\
  (forall period : string, filterDates tza period (mkDate NaN) = false) /\
  getPeriodForDate tza (mkDate NaN) = "Jakso 2"%string.
Proof.
  intros Ht.
  assert (Hvalid :
    exists dd : Z, getDate tza date = of_Z dd /\ (1 <= dd <= 31)%Z).
  { unfold getDate. rewrite Ht. eexists. split; [reflexivity|].
    apply DateFromDay_range. }
  destruct Hvalid as (dd & Hdd & Hr).
  assert (Hp : getPeriodForDate tza date
               = if (dd <=? 15)%Z then "Jakso 1"%string else "Jakso 2"%string).
  { unfold getPeriodForDate. rewrite Hdd. unfold ge.
    change (Fin 1) with (of_Z 1). change (Fin 15) with (of_Z 15).
    rewrite !le_of_Z.
    replace (1 <=? dd)%Z with true by (symmetry; apply Z.leb_le; lia).
    reflexivity. }
  assert (H1 : filterDates tza "Jakso 1" date = (dd <=? 15)%Z).
  { unfold filterDates. rewrite Hdd. unfold ge. cbn [String.eqb Ascii.eqb].
    change (Fin 1) with (of_Z 1). change (Fin 15) with (of_Z 15).
    rewrite !le_of_Z.
    replace (1 <=? dd)%Z with true by (symmetry; apply Z.leb_le; lia).
    reflexivity. }
  assert (H2 : filterDates tza "Jakso 2" date = negb (dd <=? 15)%Z).
  { unfold filterDates. rewrite Hdd. unfold ge.
    change (Fin 16) with (of_Z 16). rewrite le_of_Z.
    change (String.eqb "Jakso 2" "Jakso 1") with false. cbv iota.
    destruct (Z.leb_spec dd 15); [apply Z.leb_gt | apply Z.leb_le]; lia. }
  split.
  { rewrite Hp. destruct (dd <=? 15)%Z.
    - rewrite H1. reflexivity.
    - rewrite H2. reflexivity. }
  split.
  { intros period [-> | ->]; rewrite Hp.
    - rewrite H1. destruct (dd <=? 15)%Z; split; congruence.
    - rewrite H2. destruct (dd <=? 15)%Z; split; cbn [negb]; congruence. }
  split.
  { intros period. unfold filterDates. cbn.
    destruct (String.eqb period "Jakso 1"); reflexivity. }
  reflexivity.
Qed.

Lemma period_of_date_witness :
  let date := Date_of_string 7200000 "2025-03-16T08:00:00" in
  filterDates 7200000 (getPeriodForDate 7200000 date) date = true /\
  (filterDates 7200000 "Jakso 1" date = true
   <-> "Jakso 1"%string = getPeriodForDate 7200000 date).
Proof.
  set (date := Date_of_string 7200000 "2025-03-16T08:00:00").
  assert (Ht : getTime date = Fin (inject_Z 1742104800000))
    by (vm_compute; reflexivity).
  destruct (period_of_date 7200000 date _ Ht) as (H1 & H2 & _).
  split; [exact H1|]. apply H2. left. reflexivity.
Defined.

(* ================================================================= *)
(** ** The key of a date *)

Section DateKey.

Lemma chars_app (a b : string) :
  list_ascii_of_string (a ++ b)
  = (list_ascii_of_string a ++ list_ascii_of_string b)%list.
Proof.
  induction a as [|c a IH]; [reflexivity|]. cbn. rewrite IH. reflexivity.
Qed.

Lemma take_digits_app (n : nat) (acc v : Z) (l r : list ascii) :
  take_digits n acc l = Some (v, []) ->
  take_digits n acc (l ++ r)%list = Some (v, r).
Proof.
  revert acc l. induction n as [|n IH]; intros acc l H.
  - cbn in H. injection H as -> ->. reflexivity.
  - destruct l as [|c l]; [discriminate H|]. cbn in H |- *.
    destruct (is_digit c); [|discriminate H]. apply IH. exact H.
Qed.

Lemma two_digits_taken (n : Z) :
  (0 <= n < 100)%Z ->
  take_digits 2 0 (list_ascii_of_string (two_digits n)) = Some (n, []).
Proof.
  revert n. apply (below_100_cases 0). intros i Hi.
  do 100 (destruct i as [|i]; [reflexivity|]). lia.
Qed.

(** The decimal text of a year from 1000 to 9999 has four digits. *)
Lemma year_taken (y : Z) :
  (1000 <= y <= 9999)%Z ->
  take_digits 4 0 (list_ascii_of_string (toString (of_Z y))) = Some (y, []).
Proof.
  intros Hy.
  assert (Hall :
    forallb
      (fun i : nat =>
         match take_digits 4 0
                 (list_ascii_of_string
                    (toString (of_Z (1000 + Z.of_nat i)))) with
         | Some (v, []) => (v =? 1000 + Z.of_nat i)%Z
         | _ => false
         end)
      (seq 0 (Z.to_nat 9000)) = true) by (vm_compute; reflexivity).
  rewrite forallb_forall in Hall.
  specialize (Hall (Z.to_nat (y - 1000))).
  replace (1000 + Z.of_nat (Z.to_nat (y - 1000)))%Z with y in Hall by lia.
  assert (Hin : In (Z.to_nat (y - 1000)) (seq 0 (Z.to_nat 9000)))
    by (apply in_seq; lia).
  specialize (Hall Hin).
  destruct (take_digits 4 0 (list_ascii_of_string (toString (of_Z y))))
    as [[v [|c r]]|]; try discriminate Hall.
  apply Z.eqb_eq in Hall. subst v. reflexivity.
Qed.

Lemma toString_integral (q : Q) (z : Z) :
  q == inject_Z z -> toString (Fin q) = toString (of_Z z).
Proof.
  intros E. unfold toString, of_Z.
  rewrite (trunc_integral q z E), trunc_inject_Z. reflexivity.
Qed.

(** The key of a valid date, written with its year, month and day. *)
Lemma dateString_valid (tza : Z) (date : Date) (t : Q) :
  getTime date = Fin t ->
  dateString tza date
  = (toString (of_Z (YearFromDay (local_day tza t))) ++ "-"
     ++ two_digits (MonthFromDay (local_day tza t) + 1) ++ "-"
     ++ two_digits (DateFromDay (local_day tza t)))%string.
Proof.
  intros Ht. unfold dateString, getFullYear, getMonth, getDate. rewrite Ht.
  set (D := local_day tza t).
  pose proof (MonthFromDay_range D). pose proof (DateFromDay_range D).
  change (add (of_Z (MonthFromDay D)) (Fin 1))
    with (Fin (inject_Z (MonthFromDay D) + 1)).
  rewrite (toString_integral (inject_Z (MonthFromDay D) + 1)
             (MonthFromDay D + 1))
    by (rewrite inject_Z_plus; reflexivity).
  rewrite !padded_two_digits by lia. reflexivity.
Qed.

Lemma key_fields (Y Mo Dt : Z) :
  (1000 <= Y <= 9999)%Z -> (1 <= Mo <= 12)%Z -> (1 <= Dt <= 31)%Z ->
  date_time_fields
    (list_ascii_of_string
       ((toString (of_Z Y) ++ "-" ++ two_digits Mo ++ "-" ++ two_digits Dt)
        ++ "T00:00:00"))
  = Some (Y, Mo, Dt, 0, 0, 0)%Z.
Proof.
  intros HY HMo HDt.
  rewrite !chars_app.
  change (list_ascii_of_string "-") with ["-"%char].
  rewrite <- !app_assoc. cbn [app].
  unfold date_time_fields.
  rewrite (take_digits_app 4 0 Y _ _ (year_taken Y HY)).
  cbn [obind expect]. change (Ascii.eqb "-" "-") with true. cbn [obind].
  rewrite (take_digits_app 2 0 Mo _ _ (two_digits_taken Mo ltac:(lia))).
  cbn [obind expect]. change (Ascii.eqb "-" "-") with true. cbn [obind].
  rewrite (take_digits_app 2 0 Dt _ _ (two_digits_taken Dt ltac:(lia))).
  cbn. unfold in_range.
  replace (1 <=? Mo)%Z with true by (symmetry; apply Z.leb_le; lia).
  replace (Mo <=? 12)%Z with true by (symmetry; apply Z.leb_le; lia).
  replace (1 <=? Dt)%Z with true by (symmetry; apply Z.leb_le; lia).
  replace (Dt <=? 31)%Z with true by (symmetry; apply Z.leb_le; lia).
  reflexivity.
Qed.

Lemma local_day_of_midnight (tza D : Z) :
  local_day tza (inject_Z (D * msPerDay - tza)) = D.
Proof.
  unfold local_day. rewrite Qfloor_Z.
  replace (D * msPerDay - tza + tza)%Z with (D * msPerDay)%Z by lia.
  apply Z.div_mul. unfold msPerDay. lia.
Qed.

(** Days of the years 1000 to 9999. *)
Lemma day_bounds (D : Z) :
  (1000 <= YearFromDay D <= 9999)%Z -> (-400000 <= D <= 3000000)%Z.
Proof.
  intros HY. pose proof (YearFromDay_spec D) as H.
  pose proof (DayFromYear_mean (YearFromDay D)).
  pose proof (DayFromYear_mean (YearFromDay D + 1)). lia.
Qed.

(** The key of a valid date in the years 1000 to 9999, read back as
    [calculateAverage] reads it, is local midnight of the same day. *)
Lemma dateString_read_back (tza : Z) (date : Date) (t : Q) :
  (Z.abs tza <= msPerDay)%Z ->
  getTime date = Fin t ->
  (1000 <= YearFromDay (local_day tza t) <= 9999)%Z ->
  Date_of_string tza (dateString tza date ++ "T00:00:00")
  = mkDate (of_Z (local_day tza t * msPerDay - tza)).
Proof.
  intros Htza Ht HY.
  set (D := local_day tza t) in *.
  pose proof (MonthFromDay_range D) as HM.
  pose proof (DateFromDay_range D) as HD.
  pose proof (day_bounds D HY) as HB.
  rewrite (dateString_valid tza date t Ht). fold D.
  unfold Date_of_string.
  rewrite key_fields by lia.
  f_equal.
  unfold MakeDay, MakeTime, of_Z. rewrite !trunc_inject_Z.
  change (trunc 0) with 0%Z.
  replace (MonthFromDay D + 1 - 1)%Z with (MonthFromDay D) by lia.
  replace (MonthFromDay D / 12)%Z with 0%Z by (symmetry; apply Z.div_small; lia).
  replace (MonthFromDay D mod 12)%Z with (MonthFromDay D)
    by (symmetry; apply Z.mod_small; lia).
  replace (YearFromDay D + 0)%Z with (YearFromDay D) by lia.
  rewrite day_of_fields.
  unfold MakeDate, UTC, of_Z, add, mul, sub, lift2.
  apply TimeClip_integral.
  - rewrite <- !Z.add_opp_r.
    repeat (rewrite ?inject_Z_plus, ?inject_Z_mult, ?inject_Z_opp).
    unfold msPerHour, msPerMinute, msPerSecond.
    change (inject_Z 0) with 0. ring.
  - unfold msPerDay in *. lia.
Qed.

End DateKey.

(** X16.  An entry stored under the key of a valid date in the years 1000
    to 9999 is counted by [calculateAverage] in the period
    [getPeriodForDate] gives that date and in no other: [filterDates]
    accepts the key under that period only. *)
Theorem stored_date_is_in_its_period (tza : Z) (date : Date) (t : Q) (y : Z) :
  (Z.abs tza <= msPerDay)%Z ->
  getTime date = Fin t ->
  getFullYear tza date = of_Z y -> (1000 <= y <= 9999)%Z ->
  forall period : string,
    period = "Jakso 1"%string \/ period = "Jakso 2"%string ->
    (accepted tza (filterDates tza period) (dateString tza date) = true
     <-> period = getPeriodForDate tza date).
Proof.
  intros Htza Ht Hy Hr period Hperiod.
  assert (HY : (1000 <= YearFromDay (local_day tza t) <= 9999)%Z).
  { unfold getFullYear in Hy. rewrite Ht in Hy. unfold of_Z in Hy.
    injection Hy as Hy. rewrite Hy. exact Hr. }
  unfold accepted.
  rewrite (dateString_read_back tza date t Htza Ht HY).
  set (D := local_day tza t) in *.
  assert (Hday : forall p : string,
    filterDates tza p (mkDate (of_Z (D * msPerDay - tza)))
    = filterDates tza p date).
  { intros p. unfold filterDates, getDate. rewrite Ht. cbn [getTime of_Z].
    rewrite local_day_of_midnight. reflexivity. }
  rewrite Hday.
  assert (Hdd :
    exists dd : Z, getDate tza date = of_Z dd /\ (1 <= dd <= 31)%Z).
  { unfold getDate. rewrite Ht. eexists. split; [reflexivity|].
    apply DateFromDay_range. }
  destruct Hdd as (dd & Hdd & Hrange).
  unfold filterDates, getPeriodForDate. rewrite Hdd. unfold ge.
  change (Fin 1) with (of_Z 1). change (Fin 15) with (of_Z 15).
  change (Fin 16) with (of_Z 16). rewrite !le_of_Z.
  replace (1 <=? dd)%Z with true by (symmetry; apply Z.leb_le; lia).
  cbn [andb].
  destruct Hperiod as [-> | ->].
  - change (String.eqb "Jakso 1" "Jakso 1") with true. cbv iota.
    destruct (dd <=? 15)%Z; split; congruence.
  - change (String.eqb "Jakso 2" "Jakso 1") with false. cbv iota.
    destruct (Z.leb_spec dd 15) as [H | H].
    + replace (16 <=? dd)%Z with false by (symmetry; apply Z.leb_gt; lia).
      split; congruence.
    + replace (16 <=? dd)%Z with true by (symmetry; apply Z.leb_le; lia).
      split; congruence.
Qed.

Lemma stored_date_is_in_its_period_witness :
  let date := Date_of_string 7200000 "2024-02-29T23:30:00" in
  accepted 7200000 (filterDates 7200000 "Jakso 2") (dateString 7200000 date)
  = true
  <-> "Jakso 2"%string = getPeriodForDate 7200000 date.
Proof.
  set (date := Date_of_string 7200000 "2024-02-29T23:30:00").
  assert (Htza : (Z.abs 7200000 <= msPerDay)%Z) by (unfold msPerDay; lia).
  assert (Ht : getTime date = Fin (inject_Z 1709242200000))
    by (vm_compute; reflexivity).
  assert (Hy : getFullYear 7200000 date = of_Z 2024)
    by (vm_compute; reflexivity).
  apply (stored_date_is_in_its_period 7200000 date _ 2024 Htza Ht Hy
           ltac:(lia)).
  right. reflexivity.
Defined.

(* ================================================================= *)
(** ** The store of daily records *)

Section Store.

Lemma lookup_set_same (props : list (string * value)) (k : string) (v : value) :
  lookup k (set_prop props k v) = v.
Proof.
  induction props as [|[k' w] props IH]; cbn [set_prop lookup].
  - rewrite String.eqb_refl. reflexivity.
  - destruct (String.eqb k' k) eqn:E; cbn [lookup].
    + rewrite String.eqb_refl. reflexivity.
    + rewrite E. exact IH.
Qed.

Lemma lookup_set_other (props : list (string * value)) (k k' : string)
    (v : value) :
  k' <> k -> lookup k' (set_prop props k v) = lookup k' props.
Proof.
  intros Hne. induction props as [|[k0 w] props IH]; cbn [set_prop lookup].
  - destruct (String.eqb_spec k k'); [congruence | reflexivity].
  - destruct (String.eqb_spec k0 k) as [-> | Hk]; cbn [lookup].
    + destruct (String.eqb_spec k k'); [congruence | reflexivity].
    + destruct (String.eqb k0 k'); [reflexivity | exact IH].
Qed.

Lemma keys_set_prop (props : list (string * value)) (k k' : string)
    (v : value) :
  In k' (Object_keys (set_prop props k v))
  <-> k' = k \/ In k' (Object_keys props).
Proof.
  unfold Object_keys.
  induction props as [|[k0 w] props IH]; cbn [set_prop map fst In].
  - intuition congruence.
  - destruct (String.eqb_spec k0 k) as [-> | Hk]; cbn [map fst In].
    + intuition congruence.
    + rewrite IH. intuition congruence.
Qed.

Lemma NoDup_set_prop (props : list (string * value)) (k : string) (v : value) :
  NoDup (Object_keys props) -> NoDup (Object_keys (set_prop props k v)).
Proof.
  unfold Object_keys.
  induction props as [|[k0 w] props IH]; intros Hnd; cbn [set_prop map fst].
  - constructor; [intros [] | constructor].
  - inversion Hnd as [|? ? Hnot Hnd']; subst.
    destruct (String.eqb_spec k0 k) as [-> | Hk]; cbn [map fst].
    + constructor; assumption.
    + constructor; [|apply IH; exact Hnd'].
      intros Hin. apply (keys_set_prop props k k0 v) in Hin.
      destruct Hin as [-> | Hin]; [congruence | contradiction].
Qed.

Lemma lookup_delete_same (props : list (string * value)) (k : string) :
  lookup k (delete_prop props k) = VUndefined.
Proof.
  unfold delete_prop.
  induction props as [|[k0 w] props IH]; [reflexivity|].
  cbn [filter fst]. destruct (String.eqb k0 k) eqn:E; cbn [negb lookup].
  - exact IH.
  - rewrite E. exact IH.
Qed.

Lemma lookup_delete_other (props : list (string * value)) (k k' : string) :
  k' <> k -> lookup k' (delete_prop props k) = lookup k' props.
Proof.
  intros Hne. unfold delete_prop.
  induction props as [|[k0 w] props IH]; [reflexivity|].
  cbn [filter fst lookup].
  destruct (String.eqb_spec k0 k) as [-> | Hk]; cbn [negb lookup].
  - destruct (String.eqb_spec k k'); [congruence | exact IH].
  - destruct (String.eqb k0 k'); [reflexivity | exact IH].
Qed.

Lemma delete_absent (props : list (string * value)) (k : string) :
  ~ In k (Object_keys props) -> delete_prop props k = props.
Proof.
  unfold delete_prop, Object_keys.
  induction props as [|[k0 w] props IH]; intros Hnot; [reflexivity|].
  cbn [filter fst]. cbn [map fst In] in Hnot.
  destruct (String.eqb_spec k0 k) as [-> | Hk]; cbn [negb].
  - exfalso. apply Hnot. left. reflexivity.
  - f_equal. apply IH. intros Hin. apply Hnot. right. exact Hin.
Qed.

Lemma delete_set_absent (props : list (string * value)) (k : string)
    (v : value) :
  ~ In k (Object_keys props) -> delete_prop (set_prop props k v) k = props.
Proof.
  unfold delete_prop, Object_keys.
  induction props as [|[k0 w] props IH]; intros Hnot.
  - cbn. rewrite String.eqb_refl. reflexivity.
  - cbn [map fst In] in Hnot. cbn [set_prop].
    destruct (String.eqb_spec k0 k) as [-> | Hk].
    + exfalso. apply Hnot. left. reflexivity.
    + cbn [filter fst]. destruct (String.eqb_spec k0 k); [congruence|].
      cbn [negb]. f_equal. apply IH. intros Hin. apply Hnot. right. exact Hin.
Qed.

End Store.

(** With a numeric performance and hours from 0 to 16, [handleFormSubmit]
    goes on to the store without an alert. *)
Lemma handleFormSubmit_valid (tza : Z) (st : AppState) (p h : Q) :
  parseFloat (performance_text (formData st)) = Fin p ->
  parseFloat (hours_text (formData st)) = Fin h ->
  0 <= h -> h <= 16 ->
  handleFormSubmit tza st =
  (newData <- store_entry (data st) (dateString tza (date st))
                (trukki (formData st))
                (DateData_object
                   (mkDateData (Fin p) (Fin h)
                      (overtime_checked (formData st))
                      (freeDay_checked (formData st)))) ;;
   Returned ([], mkAppState (date st) newData (period st) false
                   initialFormData)).
Proof.
  intros Hp Hh Hlo Hhi.
  unfold handleFormSubmit. cbv zeta. rewrite Hp, Hh.
  cbn [isNaN orb lt gt].
  rewrite (Qle_bool_of_le 0 h Hlo), (Qle_bool_of_le h 16 Hhi).
  reflexivity.
Qed.



(** X19.  [handleDeleteData] removes the whole day of the selected date,
    both tracks with it, and nothing else: every other day, the selected
    date, the period, the modal and the form are as before.  Deleting a
    day that is not in the store changes nothing, and storing under a new
    key and deleting it again gives the store back. *)
Theorem handleDeleteData_removes_day (tza : Z) (st : AppState) :
  let key := dateString tza (date st) in
  let st' := handleDeleteData tza st in
  lookup key (data st') = VUndefined /\
  ~ In key (Object_keys (data st')) /\
  (forall k : string, k <> key -> lookup k (data st') = lookup k (data st)) /\
  date st' = date st /\ period st' = period st /\
  showModal st' = showModal st /\ formData st' = formData st /\
  (~ In key (Object_keys (data st)) -> st' = st) /\
  (forall v : value,
      ~ In key (Object_keys (data st)) ->
      delete_prop (set_prop (data st) key v) key = data st).
Proof.
  intros key st'. subst st'. unfold handleDeleteData.
  cbn [data date period showModal formData]. fold key.
  split; [apply lookup_delete_same|].
  split.
  { unfold Object_keys, delete_prop. intros Hin.
    apply in_map_iff in Hin. destruct Hin as ([k v] & Hk & Hin).
    apply filter_In in Hin. destruct Hin as [_ Hneq].
    cbn [fst] in Hk, Hneq. subst k. rewrite String.eqb_refl in Hneq.
    discriminate Hneq. }
  split; [intros k Hk; apply lookup_delete_other; exact Hk|].
  repeat split.
  - intros Hnot. rewrite (delete_absent (data st) key Hnot).
    destruct st; reflexivity.
  - intros v Hnot. apply delete_set_absent. exact Hnot.
Qed.

Lemma handleDeleteData_removes_day_witness :
  let st :=
    mkAppState (Date_of_string 0 "2024-02-29T12:00:00")
      [("2024-02-28"%string, VObject [])] "Jakso 2" false initialFormData in
  handleDeleteData 0 st = st.
Proof.
  set (st := mkAppState _ _ _ _ _).
  assert (Hkey : dateString 0 (date st) = "2024-02-29"%string)
    by (vm_compute; reflexivity).
  apply (handleDeleteData_removes_day 0 st).
  rewrite Hkey. unfold st. cbn [data Object_keys map fst In].
  intros [H | []]. discriminate H.
Defined.

(* ================================================================= *)
(** ** Showing a key as a date *)

Section FormatDate.

Lemma split_whole (sep : ascii) (a : string) :
  has_char sep a = false -> split sep a = [a].
Proof.
  induction a as [|c a IH]; intros H; [reflexivity|].
  cbn [has_char] in H. apply orb_false_iff in H. destruct H as [Hc Ha].
  cbn [split]. rewrite Hc, (IH Ha). reflexivity.
Qed.

Lemma split_first (sep : ascii) (a b : string) :
  has_char sep a = false ->
  split sep (a ++ String sep b) = a :: split sep b.
Proof.
  induction a as [|c a IH]; intros H.
  - cbn. rewrite Ascii.eqb_refl. reflexivity.
  - cbn [has_char] in H. apply orb_false_iff in H. destruct H as [Hc Ha].
    cbn [append split]. rewrite Hc, (IH Ha). reflexivity.
Qed.

Lemma two_digits_no_dash (n : Z) :
  (0 <= n < 100)%Z -> has_char "-" (two_digits n) = false.
Proof.
  revert n. apply (below_100_cases 0). intros i Hi.
  do 100 (destruct i as [|i]; [reflexivity|]). lia.
Qed.

Lemma year_no_dash (y : Z) :
  (1000 <= y <= 9999)%Z -> has_char "-" (toString (of_Z y)) = false.
Proof.
  intros Hy.
  assert (Hall :
    forallb
      (fun i : nat =>
         negb (has_char "-" (toString (of_Z (1000 + Z.of_nat i)))))
      (seq 0 (Z.to_nat 9000)) = true) by (vm_compute; reflexivity).
  rewrite forallb_forall in Hall.
  specialize (Hall (Z.to_nat (y - 1000))).
  replace (1000 + Z.of_nat (Z.to_nat (y - 1000)))%Z with y in Hall by lia.
  apply negb_true_iff, Hall, in_seq. lia.
Qed.

Lemma formatDate_parts (y m d : string) :
  has_char "-" y = false -> has_char "-" m = false ->
  has_char "-" d = false ->
  formatDate (y ++ "-" ++ m ++ "-" ++ d) = (d ++ "." ++ m ++ "." ++ y)%string.
Proof.
  intros Hy Hm Hd. unfold formatDate.
  change ("-" ++ m ++ "-" ++ d)%string with (String "-" (m ++ String "-" d)).
  rewrite (split_first "-" y _ Hy), (split_first "-" m _ Hm),
    (split_whole "-" d Hd).
  reflexivity.
Qed.

End FormatDate.

(** X21.  [formatDate] turns a text [y-m-d] whose three parts hold no
    dash into [d.m.y], and ignores any part after the third; a text with
    fewer parts gets ["undefined"] for each missing one. *)
Theorem formatDate_swaps_parts (y m d : string) :
  has_char "-" y = false -> has_char "-" m = false ->
  has_char "-" d = false ->
  formatDate (y ++ "-" ++ m ++ "-" ++ d) = (d ++ "." ++ m ++ "." ++ y)%string /\
  (forall rest : string,
      formatDate (y ++ "-" ++ m ++ "-" ++ d ++ "-" ++ rest)
      = (d ++ "." ++ m ++ "." ++ y)%string) /\
  formatDate (y ++ "-" ++ m) = ("undefined." ++ m ++ "." ++ y)%string /\
  formatDate y = ("undefined.undefined." ++ y)%string.
Proof.
  intros Hy Hm Hd.
  split; [apply formatDate_parts; assumption|].
  split.
  { intros rest. unfold formatDate.
    change ("-" ++ m ++ "-" ++ d ++ "-" ++ rest)%string
      with (String "-" (m ++ String "-" (d ++ String "-" rest))).
    rewrite (split_first "-" y _ Hy), (split_first "-" m _ Hm),
      (split_first "-" d _ Hd).
    reflexivity. }
  split.
  { unfold formatDate.
    change ("-" ++ m)%string with (String "-" m).
    rewrite (split_first "-" y _ Hy), (split_whole "-" m Hm). reflexivity. }
  unfold formatDate. rewrite (split_whole "-" y Hy). reflexivity.
Qed.

Lemma formatDate_swaps_parts_witness :
  formatDate "2024-02-29" = "29.02.2024"%string /\
  formatDate "2024-02" = "undefined.02.2024"%string.
Proof.
  destruct (formatDate_swaps_parts "2024" "02" "29") as (H1 & _ & H2 & _);
    try reflexivity.
  split; [exact H1 | exact H2].
Defined.

(** X22.  For a valid date in the years 1000 to 9999 the text shown for
    its key is its day of the month, its month and its year, the first
    two in two digits, joined by dots. *)
Theorem formatDate_of_key (tza : Z) (date : Date) (t : Q) (y : Z) :
  getTime date = Fin t ->
  getFullYear tza date = of_Z y -> (1000 <= y <= 9999)%Z ->
  formatDate (dateString tza date)
  = (padStart0 2 (toString (getDate tza date)) ++ "."
     ++ padStart0 2 (toString (add (getMonth tza date) (Fin 1))) ++ "."
     ++ toString (getFullYear tza date))%string.
Proof.
  intros Ht Hy Hr.
  assert (HY : YearFromDay (local_day tza t) = y).
  { unfold getFullYear in Hy. rewrite Ht in Hy. unfold of_Z in Hy.
    injection Hy as Hy. exact Hy. }
  pose proof (MonthFromDay_range (local_day tza t)) as HM.
  pose proof (DateFromDay_range (local_day tza t)) as HD.
  rewrite (dateString_valid tza date t Ht).
  unfold getFullYear, getMonth, getDate. rewrite Ht.
  change (add (of_Z (MonthFromDay (local_day tza t))) (Fin 1))
    with (Fin (inject_Z (MonthFromDay (local_day tza t)) + 1)).
  rewrite (toString_integral
             (inject_Z (MonthFromDay (local_day tza t)) + 1)
             (MonthFromDay (local_day tza t) + 1))
    by (rewrite inject_Z_plus; reflexivity).
  rewrite !padded_two_digits by lia.
  apply formatDate_parts.
  - rewrite HY. apply year_no_dash. exact Hr.
  - apply two_digits_no_dash. lia.
  - apply two_digits_no_dash. lia.
Qed.

Lemma formatDate_of_key_witness :
  let date := Date_of_string 7200000 "2024-02-29T23:30:00" in
  formatDate (dateString 7200000 date)
  = (padStart0 2 (toString (getDate 7200000 date)) ++ "."
     ++ padStart0 2 (toString (add (getMonth 7200000 date) (Fin 1))) ++ "."
     ++ toString (getFullYear 7200000 date))%string.
Proof.
  set (date := Date_of_string 7200000 "2024-02-29T23:30:00").
  assert (Ht : getTime date = Fin (inject_Z 1709242200000))
    by (vm_compute; reflexivity).
  assert (Hy : getFullYear 7200000 date = of_Z 2024)
    by (vm_compute; reflexivity).
  apply (formatDate_of_key 7200000 date _ 2024 Ht Hy). lia.
Defined.

(* ================================================================= *)
(** ** Writing a number and reading it back *)

Section DecimalTexts.

Lemma digits_of_uint_acc (d : Decimal.uint) (acc : positive) :
  digits_val (Z.pos acc) (list_ascii_of_string (NilEmpty.string_of_uint d))
  = Some (Z.pos (Pos.of_uint_acc d acc)).
Proof.
  revert acc. induction d as [|d IH|d IH|d IH|d IH|d IH|d IH|d IH|d IH|d IH|d IH];
    intros acc; [reflexivity|..];
    cbn [NilEmpty.string_of_uint list_ascii_of_string digits_val
         Pos.of_uint_acc];
    match goal with
    | |- context [is_digit ?c] => change (is_digit c) with true
    end; cbv iota; rewrite <- IH; f_equal; unfold digit_val;
    match goal with
    | |- context [N_of_ascii ?c] =>
        let v := eval vm_compute in (Z.of_N (N_of_ascii c) - 48)%Z in
        change (Z.of_N (N_of_ascii c) - 48)%Z with v
    end; lia.
Qed.

Lemma digits_of_uint (d : Decimal.uint) :
  digits_val 0 (list_ascii_of_string (NilEmpty.string_of_uint d))
  = Some (Z.of_N (Pos.of_uint d)).
Proof.
  induction d as [|d IH|d IH|d IH|d IH|d IH|d IH|d IH|d IH|d IH|d IH];
    [reflexivity | exact IH |..];
    cbn [NilEmpty.string_of_uint list_ascii_of_string digits_val Pos.of_uint];
    match goal with
    | |- context [is_digit ?c] => change (is_digit c) with true
    end; cbv iota; apply digits_of_uint_acc.
Qed.

Lemma all_digits_of_uint (d : Decimal.uint) :
  forallb is_digit (list_ascii_of_string (NilEmpty.string_of_uint d)) = true.
Proof.
  induction d; [reflexivity|..];
    cbn [NilEmpty.string_of_uint list_ascii_of_string forallb];
    rewrite IHd; reflexivity.
Qed.

(** The decimal text of a natural number is a non-empty run of digits
    whose value is the number. *)
Lemma decimal_of_Z_digits (z : Z) :
  (0 <= z)%Z ->
  digits_val 0 (list_ascii_of_string (decimal_of_Z z)) = Some z /\
  forallb is_digit (list_ascii_of_string (decimal_of_Z z)) = true /\
  list_ascii_of_string (decimal_of_Z z) <> [].
Proof.
  intros Hz. unfold decimal_of_Z.
  pose proof (DecimalN.Unsigned.of_to (Z.to_N z)) as Hof.
  unfold N.of_uint in Hof.
  assert (Hnz : NilZero.string_of_uint (N.to_uint (Z.to_N z))
                = NilEmpty.string_of_uint (N.to_uint (Z.to_N z)) /\
                N.to_uint (Z.to_N z) <> Decimal.Nil).
  { destruct (Z.to_N z) as [|p]; [split; [reflexivity | discriminate]|].
    cbn [N.to_uint].
    assert (Hp : Pos.to_uint p <> Decimal.Nil).
    { intros E. pose proof (DecimalPos.Unsigned.of_to p) as H.
      rewrite E in H. discriminate H. }
    split; [|exact Hp].
    destruct (Pos.to_uint p); [contradiction | reflexivity..]. }
  destruct Hnz as [-> Hnil].
  split; [|split].
  - rewrite digits_of_uint, Hof. f_equal. lia.
  - apply all_digits_of_uint.
  - destruct (N.to_uint (Z.to_N z)); [contradiction | discriminate..].
Qed.

Lemma span_all_digits (ds r : list ascii) :
  forallb is_digit ds = true ->
  match r with [] => True | c :: _ => is_digit c = false end ->
  span_digits (ds ++ r) = (ds, r).
Proof.
  intros Hds Hr. induction ds as [|c ds IH].
  - destruct r as [|c r]; [reflexivity|]. cbn. rewrite Hr. reflexivity.
  - cbn [forallb] in Hds. apply andb_prop in Hds. destruct Hds as [Hc Hds].
    cbn [app span_digits]. rewrite Hc, (IH Hds). reflexivity.
Qed.

End DecimalTexts.

Section ReadingBack.

Lemma digit_is_plain (c : ascii) :
  is_digit c = true ->
  is_white c = false /\ Ascii.eqb c "+" = false /\ Ascii.eqb c "-" = false.
Proof.
  destruct c as [[] [] [] [] [] [] [] []]; intros H;
    try discriminate H; repeat split.
Qed.

Lemma two_digits_digits (k : Z) :
  (0 <= k < 100)%Z ->
  digits_val 0 (list_ascii_of_string (two_digits k)) = Some k /\
  forallb is_digit (list_ascii_of_string (two_digits k)) = true /\
  pad_left 2 (decimal_of_Z k) = two_digits k.
Proof.
  revert k. apply (below_100_cases 0). intros i Hi.
  do 100 (destruct i as [|i]; [repeat split|]). lia.
Qed.

(** What [parseFloat] makes of the digits of a number with two decimals,
    after the sign. *)
Lemma unsigned_two_decimals (z k : Z) (sign : Q) :
  (0 <= z)%Z -> (0 <= k < 100)%Z ->
  (let (ip, r1) :=
     span_digits (list_ascii_of_string (decimal_of_Z z ++ "." ++ two_digits k)) in
   let (fp, r2) :=
     match r1 with
     | d :: r' => if Ascii.eqb d "."%char then span_digits r' else ([], r1)
     | [] => ([], [])
     end in
   if is_nil ip && is_nil fp then NaN
   else
     match digits_val 0 ip, digits_val 0 fp with
     | Some i, Some f =>
         let scale := (10 ^ Z.of_nat (List.length fp))%Z in
         let mantissa := inject_Z (i * scale + f) / inject_Z scale in
         let e := match exponent_part r2 with Some e => e | None => 0%Z end in
         Fin (sign * mantissa * pow10 e)
     | _, _ => NaN
     end)
  = Fin (sign * (inject_Z (z * 100 + k) / inject_Z 100) * 1).
Proof.
  intros Hz Hk.
  destruct (decimal_of_Z_digits z Hz) as (Hval & Hall & Hne).
  destruct (two_digits_digits k Hk) as (Hkval & Hkall & _).
  rewrite chars_app.
  change (list_ascii_of_string ("." ++ two_digits k))
    with ("."%char :: list_ascii_of_string (two_digits k)).
  rewrite (span_all_digits _ _ Hall) by reflexivity.
  change (Ascii.eqb "." ".") with true. cbv iota.
  rewrite <- (app_nil_r (list_ascii_of_string (two_digits k))) at 1.
  rewrite (span_all_digits _ [] Hkall) by exact I.
  destruct (list_ascii_of_string (decimal_of_Z z)) as [|c l] eqn:El;
    [contradiction|].
  cbn [is_nil andb]. rewrite Hval, Hkval.
  reflexivity.
Qed.

Lemma toFixed_2_nonneg (q : Q) :
  0 <= q ->
  toFixed 2 (Fin q)
  = (decimal_of_Z (round_half_up (q * inject_Z 100) / 100) ++ "."
     ++ two_digits (round_half_up (q * inject_Z 100) mod 100))%string.
Proof.
  intros Hq. unfold toFixed. rewrite (Qle_bool_of_le 0 q Hq). cbn [negb].
  change (10 ^ Z.of_nat 2)%Z with 100%Z. cbv zeta.
  destruct (two_digits_digits (round_half_up (q * inject_Z 100) mod 100))
    as (_ & _ & ->); [apply Z.mod_pos_bound; lia|].
  reflexivity.
Qed.

Lemma toFixed_2_neg (q : Q) :
  q < 0 ->
  toFixed 2 (Fin q)
  = String "-"
      (decimal_of_Z (round_half_up (- q * inject_Z 100) / 100) ++ "."
       ++ two_digits (round_half_up (- q * inject_Z 100) mod 100))%string.
Proof.
  intros Hq. unfold toFixed. rewrite (Qle_bool_of_lt 0 q Hq). cbn [negb].
  change (10 ^ Z.of_nat 2)%Z with 100%Z. cbv zeta.
  destruct (two_digits_digits (round_half_up (- q * inject_Z 100) mod 100))
    as (_ & _ & ->); [apply Z.mod_pos_bound; lia|].
  reflexivity.
Qed.

(** Reading a two-decimal text back gives the hundredths it was written
    from. *)
Lemma parseFloat_toFixed_2 (q : Q) :
  exists v : Q,
    parseFloat (toFixed 2 (Fin q)) = Fin v /\
    v == (if Qle_bool 0 q then 1 else -1)
         * inject_Z (round_half_up (Qabs q * 100)) / 100.
Proof.
  destruct (Qle_bool 0 q) eqn:E.
  - apply Qle_bool_true in E.
    set (n := round_half_up (q * inject_Z 100)).
    assert (Hn : (0 <= n)%Z).
    { apply round_half_up_nonneg. change (inject_Z 100) with 100. lra. }
    assert (Hz : (0 <= n / 100)%Z) by (apply Z.div_pos; lia).
    assert (Hk : (0 <= n mod 100 < 100)%Z) by (apply Z.mod_pos_bound; lia).
    rewrite (toFixed_2_nonneg q E). fold n.
    unfold parseFloat.
    destruct (decimal_of_Z_digits (n / 100) Hz) as (_ & Hall & Hne).
    rewrite chars_app.
    destruct (list_ascii_of_string (decimal_of_Z (n / 100))) as [|c l] eqn:El;
      [contradiction|].
    cbn [forallb] in Hall. apply andb_prop in Hall. destruct Hall as [Hc _].
    destruct (digit_is_plain c Hc) as (Hw & Hplus & Hminus).
    cbn [app drop_white]. rewrite Hw, Hplus, Hminus.
    change (c :: (l ++ list_ascii_of_string ("." ++ two_digits (n mod 100))))%list
      with ((c :: l) ++ list_ascii_of_string ("." ++ two_digits (n mod 100)))%list.
    rewrite <- El, <- chars_app.
    pose proof (unsigned_two_decimals (n / 100) (n mod 100) 1 Hz Hk) as Hbody.
    cbv zeta in Hbody. rewrite Hbody.
    eexists. split; [reflexivity|].
    replace (n / 100 * 100 + n mod 100)%Z with n
      by (rewrite Z.mul_comm; apply Z.div_mod; lia).
    assert (Hr : round_half_up (Qabs q * 100) = n).
    { subst n. unfold round_half_up. apply Qfloor_comp.
      rewrite (Qabs_pos q E). reflexivity. }
    rewrite Hr. change (inject_Z 100) with 100. field.
  - apply Qle_bool_false in E.
    set (n := round_half_up (- q * inject_Z 100)).
    assert (Hn : (0 <= n)%Z).
    { apply round_half_up_nonneg. change (inject_Z 100) with 100. lra. }
    assert (Hz : (0 <= n / 100)%Z) by (apply Z.div_pos; lia).
    assert (Hk : (0 <= n mod 100 < 100)%Z) by (apply Z.mod_pos_bound; lia).
    rewrite (toFixed_2_neg q E). fold n.
    unfold parseFloat. cbn [list_ascii_of_string drop_white].
    change (is_white "-") with false. cbv iota.
    change (Ascii.eqb "-" "+") with false.
    change (Ascii.eqb "-" "-") with true. cbv iota.
    pose proof (unsigned_two_decimals (n / 100) (n mod 100) (-1) Hz Hk)
      as Hbody.
    cbv zeta in Hbody. rewrite Hbody.
    eexists. split; [reflexivity|].
    replace (n / 100 * 100 + n mod 100)%Z with n
      by (rewrite Z.mul_comm; apply Z.div_mod; lia).
    assert (Hr : round_half_up (Qabs q * 100) = n).
    { subst n. unfold round_half_up. apply Qfloor_comp.
      rewrite (Qabs_neg q) by lra. reflexivity. }
    rewrite Hr. change (inject_Z 100) with 100. field.
Qed.

End ReadingBack.

(* ================================================================= *)
(** ** The averages the application shows *)

Section TrackStore.

Lemma lookup_absent (props : list (string * value)) (k : string) :
  ~ In k (Object_keys props) -> lookup k props = VUndefined.
Proof.
  unfold Object_keys. induction props as [|[k0 w] props IH]; intros Hnot;
    [reflexivity|].
  cbn [map fst In] in Hnot. cbn [lookup].
  destruct (String.eqb_spec k0 k) as [-> | Hk].
  - exfalso. apply Hnot. left. reflexivity.
  - apply IH. intros Hin. apply Hnot. right. exact Hin.
Qed.

Lemma track_store_set (data : list (string * value)) (key : string)
    (v : value) :
  track_store data -> day_record v -> track_store (set_prop data key v).
Proof.
  intros Hstore Hv k Hin.
  destruct (String.eqb_spec k key) as [-> | Hne].
  - rewrite lookup_set_same. exact Hv.
  - rewrite lookup_set_other by exact Hne.
    apply Hstore. apply keys_set_prop in Hin.
    destruct Hin as [-> | Hin]; [congruence | exact Hin].
Qed.

Lemma track_store_stored (data : list (string * value)) (key : string) :
  track_store data ->
  exists props0 : list (string * value),
    (if ToBoolean (lookup key data) then lookup key data else VObject [])
    = VObject props0 /\
    lookup "performance" props0 = VUndefined.
Proof.
  intros Hstore.
  destruct (in_dec string_dec key (Object_keys data)) as [Hin | Hnot].
  - destruct (Hstore key Hin) as (props & -> & Hp).
    exists props. split; [reflexivity | exact Hp].
  - rewrite (lookup_absent data key Hnot). exists []. split; reflexivity.
Qed.

Lemma store_entry_keeps_shape (data : list (string * value)) (key : string)
    (trukki : bool) (entry : value) :
  track_store data ->
  exists data' : list (string * value),
    store_entry data key trukki entry = Returned data' /\ track_store data'.
Proof.
  intros Hstore. unfold store_entry.
  destruct (track_store_stored data key Hstore) as (props0 & -> & Hp).
  cbn [assign bind]. eexists. split; [reflexivity|].
  apply track_store_set; [exact Hstore|].
  eexists. split; [reflexivity|].
  rewrite lookup_set_other; [exact Hp | destruct trukki; discriminate].
Qed.

End TrackStore.

(** X24.  The days [handleFormSubmit] writes keep their entries under
    [normal] and [forklift]: starting from the empty store, every store
    reached by submitting and deleting has this shape, a submission into it
    never raises, and on every such store both period averages are 0 and
    both percentages 0, under either period and whatever the entries
    hold. *)
Theorem averages_of_track_store (tza : Z) (st : AppState) :
  track_store [] /\
  (track_store (data st) ->
   (exists (shown : list string) (st' : AppState),
       handleFormSubmit tza st = Returned (shown, st') /\
       track_store (data st')) /\
   track_store (data (handleDeleteData tza st)) /\
   (exists v : Q,
       overallAverageNormal tza st = Returned (Fin v) /\
       overallAverageForklift tza st = Returned (Fin v) /\ v == 0) /\
   overallAveragePercentageNormal tza st = Returned (Fin 0) /\
   overallAveragePercentageForklift tza st = Returned (Fin 0)).
Proof.
  split; [intros k []|].
  intros Hstore.
  split.
  { unfold handleFormSubmit. cbv zeta.
    destruct (isNaN (parseFloat (performance_text (formData st))));
      [eexists _, _; split; [reflexivity | exact Hstore]|].
    destruct (isNaN _ || _ || _);
      [eexists _, _; split; [reflexivity | exact Hstore]|].
    match goal with
    | |- context [store_entry ?d ?k ?t ?e] =>
        destruct (store_entry_keeps_shape d k t e Hstore) as (data' & -> & Hd')
    end.
    cbn [bind]. eexists _, _. split; [reflexivity | exact Hd']. }
  split.
  { intros k Hin. unfold handleDeleteData in *. cbn [data] in *.
    set (key := dateString tza (date st)) in *.
    assert (Hk : k <> key /\ In k (Object_keys (data st))).
    { unfold Object_keys, delete_prop in Hin.
      apply in_map_iff in Hin. destruct Hin as ([k' v] & Hk' & Hin).
      apply filter_In in Hin. destruct Hin as [Hin Hneq].
      cbn [fst] in Hk', Hneq. subst k'. split.
      - intros ->. rewrite String.eqb_refl in Hneq. discriminate Hneq.
      - unfold Object_keys. apply (in_map fst) in Hin. exact Hin. }
    destruct Hk as [Hne Hin'].
    rewrite lookup_delete_other by exact Hne. apply Hstore. exact Hin'. }
  assert (Havg :
    calculateAverage tza (data st) (filterDates tza (period st))
    = Returned "0.00"%string).
  { apply calculateAverage_track_store. intros k Hin.
    destruct (Hstore k Hin) as (props & Hl & Hp).
    exists props. split; [exact Hl|]. rewrite Hp. reflexivity. }
  unfold overallAveragePercentageNormal, overallAveragePercentageForklift,
    overallAverageNormal, overallAverageForklift.
  rewrite Havg. cbn [bind].
  split; [|split; vm_compute; reflexivity].
  eexists. split; [reflexivity|]. split; [reflexivity|].
  vm_compute. reflexivity.
Qed.

Lemma averages_of_track_store_witness :
  let st :=
    mkAppState (Date_of_string 0 "2024-01-10T12:00:00")
      [("2024-01-05"%string,
        VObject [("normal"%string,
                  DateData_object (mkDateData (Fin 9) (Fin 8) false false))])]
      "Jakso 1" false initialFormData in
  (exists v : Q, overallAverageNormal 0 st = Returned (Fin v) /\ v == 0) /\
  overallAveragePercentageNormal 0 st = Returned (Fin 0).
Proof.
  set (st := mkAppState _ _ _ _ _).
  assert (Hstore : track_store (data st)).
  { intros k [<- | []]. eexists. split; reflexivity. }
  destruct (averages_of_track_store 0 st) as [_ H].
  destruct (H Hstore) as (_ & _ & (v & Ha & _ & Ev) & Hp & _).
  split; [exists v; split; assumption | exact Hp].
Defined.

(* ================================================================= *)
(** ** Filling in the times of a new entry *)



(* ================================================================= *)
(** ** Selecting a date *)

(** X26.  Selecting a date, alone or as the first end of a range, makes
    it the selected date and sets the period to the one
    [getPeriodForDate] gives it, so a valid selected date is always
    accepted by [filterDates] under the period shown; the store, the modal
    and the form are untouched.  A selection without a date changes
    nothing. *)
Theorem onChange_sets_date_and_period (tza : Z) (st : AppState) (d : Date) :
  (forall second : option Date,
      onChange tza st (DateRange (Some d) second) = onChange tza st (OneDate d)) /\
  (let st' := onChange tza st (OneDate d) in
   date st' = d /\ period st' = getPeriodForDate tza d /\
   data st' = data st /\ showModal st' = showModal st /\
   formData st' = formData st /\
   (forall t : Q,
       getTime d = Fin t -> filterDates tza (period st') (date st') = true)) /\
  onChange tza st NoDate = st /\
  (forall second : option Date,
      onChange tza st (DateRange None second) = st).
Proof.
  split; [reflexivity|].
  split; [|split; reflexivity].
  cbv zeta. unfold onChange. cbn [date period data showModal formData].
  repeat split.
  intros t Ht.
  fold (getPeriodForDate tza d).
  assert (Hdd :
    exists dd : Z, getDate tza d = of_Z dd /\ (1 <= dd <= 31)%Z).
  { unfold getDate. rewrite Ht. eexists. split; [reflexivity|].
    apply DateFromDay_range. }
  destruct Hdd as (dd & Hdd & Hr).
  unfold filterDates, getPeriodForDate. rewrite Hdd. unfold ge.
  change (Fin 1) with (of_Z 1). change (Fin 15) with (of_Z 15).
  change (Fin 16) with (of_Z 16). rewrite !le_of_Z.
  replace (1 <=? dd)%Z with true by (symmetry; apply Z.leb_le; lia).
  cbn [andb].
  destruct (Z.leb_spec dd 15) as [H | H].
  - reflexivity.
  - change (String.eqb "Jakso 2" "Jakso 1") with false. cbv iota.
    apply Z.leb_le. lia.
Qed.

Lemma onChange_sets_date_and_period_witness :
  let d := Date_of_string 7200000 "2025-03-16T00:00:00" in
  let st :=
    mkAppState (Date_of_string 7200000 "2025-03-01T00:00:00") [] "Jakso 1"
               false initialFormData in
  filterDates 7200000 (period (onChange 7200000 st (OneDate d)))
              (date (onChange 7200000 st (OneDate d))) = true.
Proof.
  set (d := Date_of_string 7200000 "2025-03-16T00:00:00").
  set (st := mkAppState _ _ _ _ _).
  assert (Ht : getTime d = Fin (inject_Z 1742076000000))
    by (vm_compute; reflexivity).
  destruct (onChange_sets_date_and_period 7200000 st d) as (_ & H & _).
  destruct H as (_ & _ & _ & _ & _ & Hf).
  exact (Hf _ Ht).
Defined.

(* ================================================================= *)
(** ** Rounding to binary64 *)

Lemma pow2_pos (e : Z) : 0 < F64.pow2 e.
Proof. apply Qpower_0_lt. reflexivity. Qed.

Lemma pow2_add (a b : Z) : F64.pow2 (a + b) == F64.pow2 a * F64.pow2 b.
Proof. apply Qpower_plus. discriminate. Qed.

Lemma pow2_sub (a b : Z) : F64.pow2 (a - b) == F64.pow2 a / F64.pow2 b.
Proof. apply Qpower_minus. discriminate. Qed.

Lemma pow2_le (a b : Z) : (a <= b)%Z -> F64.pow2 a <= F64.pow2 b.
Proof. intros H. apply Qpower_le_compat_l; [exact H | discriminate]. Qed.

Lemma pow2_lt (a b : Z) : (a < b)%Z -> F64.pow2 a < F64.pow2 b.
Proof. intros H. apply Qpower_lt_compat_l; [exact H | reflexivity]. Qed.

Lemma pow2_lt_inv (a b : Z) : F64.pow2 a < F64.pow2 b -> (a < b)%Z.
Proof. intros H. apply (Qpower_lt_compat_l_inv 2); [exact H | reflexivity]. Qed.

Lemma pow2_inject (n : Z) : (0 <= n)%Z -> F64.pow2 n == inject_Z (2 ^ n).
Proof. intros H. unfold F64.pow2. rewrite Zpower_Qpower by exact H. reflexivity. Qed.

Lemma pow2_succ (a : Z) : F64.pow2 (a + 1) == 2 * F64.pow2 a.
Proof. rewrite pow2_add. change (F64.pow2 1) with 2. ring. Qed.

(** [F64.ilog2 q] is the binade of a positive [q]. *)
Lemma ilog2_spec (q : Q) :
  0 < q -> F64.pow2 (F64.ilog2 q) <= q /\ q < F64.pow2 (F64.ilog2 q + 1).
Proof.
  intros Hq. destruct q as [a b]. unfold F64.ilog2. cbn [Qnum Qden].
  assert (Ha : (0 < a)%Z).
  { unfold Qlt in Hq. cbn in Hq. lia. }
  destruct (Z.log2_spec a Ha) as [Ha1 Ha2].
  destruct (Z.log2_spec (Z.pos b) (Pos2Z.is_pos b)) as [Hb1 Hb2].
  pose proof (Z.log2_nonneg a) as Hla.
  pose proof (Z.log2_nonneg (Z.pos b)) as Hlb.
  set (la := Z.log2 a) in *. set (lb := Z.log2 (Z.pos b)) in *.
  assert (Eq : a # b == inject_Z a / inject_Z (Z.pos b)).
  { rewrite Qmake_Qdiv. reflexivity. }
  assert (Hbpos : 0 < inject_Z (Z.pos b)).
  { change 0 with (inject_Z 0). rewrite <- Zlt_Qlt. lia. }
  assert (Hlo : F64.pow2 (la - lb - 1) <= a # b).
  { rewrite Eq. apply Qle_shift_div_l; [exact Hbpos|].
    replace (la - lb - 1)%Z with (la - (lb + 1))%Z by lia.
    rewrite pow2_sub.
    apply Qle_trans with (F64.pow2 la / F64.pow2 (lb + 1) * F64.pow2 (lb + 1)).
    - apply Qmult_le_compat_nonneg.
      + split; [|apply Qle_refl].
        apply Qlt_le_weak, Qlt_shift_div_l; [apply pow2_pos|].
        rewrite Qmult_0_l. apply pow2_pos.
      + split; [apply Qlt_le_weak, Hbpos|].
        rewrite pow2_inject by lia. rewrite <- Zle_Qle. lia.
    - assert (E : F64.pow2 la / F64.pow2 (lb + 1) * F64.pow2 (lb + 1) == F64.pow2 la).
      { field. pose proof (pow2_pos (lb + 1)). lra. }
      rewrite E. rewrite pow2_inject by lia. rewrite <- Zle_Qle. lia. }
  assert (Hhi : a # b < F64.pow2 (la - lb + 1)).
  { rewrite Eq. apply Qlt_shift_div_r; [exact Hbpos|].
    replace (la - lb + 1)%Z with (la + 1 - lb)%Z by lia.
    rewrite pow2_sub.
    apply Qlt_le_trans with (F64.pow2 (la + 1)).
    - rewrite pow2_inject by lia. rewrite <- Zlt_Qlt. lia.
    - assert (E : F64.pow2 (la + 1) == F64.pow2 (la + 1) / F64.pow2 lb * F64.pow2 lb).
      { field. pose proof (pow2_pos lb). lra. }
      rewrite E at 1.
      apply Qmult_le_compat_nonneg.
      + split; [|apply Qle_refl].
        apply Qlt_le_weak, Qlt_shift_div_l; [apply pow2_pos|].
        rewrite Qmult_0_l. apply pow2_pos.
      + split; [apply Qlt_le_weak, pow2_pos|].
        rewrite pow2_inject by lia. rewrite <- Zle_Qle. lia. }
  destruct (Qle_bool (F64.pow2 (la - lb)) (a # b)) eqn:E.
  - apply Qle_bool_iff in E. split; assumption.
  - assert (Hlt : a # b < F64.pow2 (la - lb)).
    { apply Qnot_le_lt. intros H. apply Qle_bool_iff in H. congruence. }
    replace (la - lb - 1 + 1)%Z with (la - lb)%Z by lia.
    split; assumption.
Qed.

Lemma ilog2_unique (q : Q) (e : Z) :
  F64.pow2 e <= q -> q < F64.pow2 (e + 1) -> F64.ilog2 q = e.
Proof.
  intros Hlo Hhi.
  assert (Hq : 0 < q) by (pose proof (pow2_pos e); lra).
  destruct (ilog2_spec q Hq) as [Glo Ghi].
  assert (H1 : (e < F64.ilog2 q + 1)%Z) by (apply pow2_lt_inv; lra).
  assert (H2 : (F64.ilog2 q < e + 1)%Z) by (apply pow2_lt_inv; lra).
  lia.
Qed.

Lemma ilog2_mono (x y : Q) : 0 < x -> x <= y -> (F64.ilog2 x <= F64.ilog2 y)%Z.
Proof.
  intros Hx Hxy.
  destruct (ilog2_spec x Hx) as [Xlo Xhi].
  destruct (ilog2_spec y) as [Ylo Yhi]; [lra|].
  assert (H : (F64.ilog2 x < F64.ilog2 y + 1)%Z) by (apply pow2_lt_inv; lra).
  lia.
Qed.

Lemma ilog2_comp (x y : Q) : 0 < x -> x == y -> F64.ilog2 x = F64.ilog2 y.
Proof.
  intros Hx E. symmetry. apply ilog2_unique; rewrite <- E; apply ilog2_spec; exact Hx.
Qed.

(** *** Rounding to the F64.nearest integer, ties to even *)

Lemma nearest_even_cases (x : Q) :
  let f := Qfloor x in
  (x - inject_Z f < 1 # 2 /\ F64.nearest_even x = f) \/
  (1 # 2 < x - inject_Z f /\ F64.nearest_even x = (f + 1)%Z) \/
  (x - inject_Z f == 1 # 2 /\
   F64.nearest_even x = if Z.even f then f else (f + 1)%Z).
Proof.
  intros f. unfold F64.nearest_even. fold f.
  destruct (Qcompare (x - inject_Z f) (1 # 2)) eqn:E.
  - right; right. split; [apply Qeq_alt; exact E | reflexivity].
  - left. split; [apply Qlt_alt; exact E | reflexivity].
  - right; left. split; [apply Qgt_alt in E; exact E | reflexivity].
Qed.

Lemma floor_bounds (x : Q) :
  inject_Z (Qfloor x) <= x /\ x < inject_Z (Qfloor x) + 1.
Proof.
  split; [apply Qfloor_le|].
  pose proof (Qlt_floor x) as H. rewrite inject_Z_plus in H. exact H.
Qed.

Lemma nearest_even_spec (x : Q) :
  x - (1 # 2) <= inject_Z (F64.nearest_even x) /\
  inject_Z (F64.nearest_even x) <= x + (1 # 2).
Proof.
  destruct (floor_bounds x) as [Hlo Hhi].
  destruct (nearest_even_cases x) as [[H E] | [[H E] | [H E]]]; rewrite E.
  - split; lra.
  - rewrite inject_Z_plus. change (inject_Z 1) with 1. split; lra.
  - destruct (Z.even (Qfloor x)).
    + split; lra.
    + rewrite inject_Z_plus. change (inject_Z 1) with 1. split; lra.
Qed.

Lemma nearest_even_comp (x y : Q) : x == y -> F64.nearest_even x = F64.nearest_even y.
Proof.
  intros E. unfold F64.nearest_even. rewrite (Qfloor_comp x y E).
  assert (E' : x - inject_Z (Qfloor y) == y - inject_Z (Qfloor y))
    by (rewrite E; reflexivity).
  rewrite (Qcompare_comp _ _ E' (1 # 2) (1 # 2) (Qeq_refl _)). reflexivity.
Qed.

Lemma nearest_even_Z (n : Z) : F64.nearest_even (inject_Z n) = n.
Proof.
  destruct (nearest_even_cases (inject_Z n)) as [[H E] | [[H E] | [H E]]];
    rewrite Qfloor_Z in *; try exact E; lra.
Qed.

Lemma nearest_even_integral (x : Q) (n : Z) :
  x == inject_Z n -> F64.nearest_even x = n.
Proof. intros E. rewrite (nearest_even_comp _ _ E). apply nearest_even_Z. Qed.

Lemma nearest_even_mono (x y : Q) :
  x <= y -> (F64.nearest_even x <= F64.nearest_even y)%Z.
Proof.
  intros Hxy.
  pose proof (Qfloor_resp_le x y Hxy) as Hf.
  destruct (floor_bounds x) as [Xlo Xhi].
  destruct (floor_bounds y) as [Ylo Yhi].
  destruct (Z.eq_dec (Qfloor x) (Qfloor y)) as [Ef | Nf].
  - destruct (nearest_even_cases x) as [[Hx Ex] | [[Hx Ex] | [Hx Ex]]];
      destruct (nearest_even_cases y) as [[Hy Ey] | [[Hy Ey] | [Hy Ey]]];
      rewrite Ex, Ey; rewrite <- ?Ef in *;
      try lia; try lra; destruct (Z.even (Qfloor x)); lia.
  - assert (Hlt : (Qfloor x + 1 <= Qfloor y)%Z) by lia.
    assert (Hx : (F64.nearest_even x <= Qfloor x + 1)%Z).
    { destruct (nearest_even_cases x) as [[_ E] | [[_ E] | [_ E]]]; rewrite E;
        try lia. destruct (Z.even (Qfloor x)); lia. }
    assert (Hy : (Qfloor y <= F64.nearest_even y)%Z).
    { destruct (nearest_even_cases y) as [[_ E] | [[_ E] | [_ E]]]; rewrite E;
        try lia. destruct (Z.even (Qfloor y)); lia. }
    lia.
Qed.

Lemma nearest_even_le (x : Q) (n : Z) :
  x <= inject_Z n -> (F64.nearest_even x <= n)%Z.
Proof.
  intros H. rewrite <- (nearest_even_Z n). apply nearest_even_mono. exact H.
Qed.

Lemma nearest_even_ge (x : Q) (n : Z) :
  inject_Z n <= x -> (n <= F64.nearest_even x)%Z.
Proof.
  intros H. rewrite <- (nearest_even_Z n) at 1. apply nearest_even_mono. exact H.
Qed.

(** *** Rounding a magnitude to the binary64 grid *)

Lemma exponent_lower (a : Q) : (F64.emin <= F64.exponent a)%Z.
Proof. unfold F64.exponent. lia. Qed.

Lemma exponent_comp (x y : Q) : 0 < x -> x == y -> F64.exponent x = F64.exponent y.
Proof. intros Hx E. unfold F64.exponent. rewrite (ilog2_comp x y Hx E). reflexivity. Qed.

Lemma exponent_mono (x y : Q) : 0 < x -> x <= y -> (F64.exponent x <= F64.exponent y)%Z.
Proof.
  intros Hx Hxy. unfold F64.exponent. pose proof (ilog2_mono x y Hx Hxy). lia.
Qed.

Lemma nearest_zero (a : Q) : a == 0 -> F64.nearest a == 0.
Proof.
  intros E. unfold F64.nearest.
  assert (E' : a / F64.pow2 (F64.exponent a) == inject_Z 0).
  { generalize (F64.pow2 (F64.exponent a)). intros p. rewrite E. unfold Qdiv. ring. }
  rewrite (nearest_even_integral _ 0 E'). ring.
Qed.

Lemma nearest_comp (x y : Q) : 0 <= x -> x == y -> F64.nearest x == F64.nearest y.
Proof.
  intros Hx E.
  destruct (Qle_lt_or_eq _ _ Hx) as [Hpos | Hz].
  - unfold F64.nearest. rewrite <- (exponent_comp x y Hpos E).
    assert (E' : x / F64.pow2 (F64.exponent x) == y / F64.pow2 (F64.exponent x)).
    { generalize (F64.pow2 (F64.exponent x)). intros p. rewrite E. reflexivity. }
    rewrite (nearest_even_comp _ _ E'). reflexivity.
  - rewrite (nearest_zero x), (nearest_zero y); [reflexivity | | ];
      rewrite <- ?E; symmetry; exact Hz.
Qed.

Lemma scaled_below (a : Q) : 0 < a -> a / F64.pow2 (F64.exponent a) < F64.pow2 53.
Proof.
  intros Ha. destruct (ilog2_spec a Ha) as [_ Hhi].
  apply Qlt_shift_div_r; [apply pow2_pos|].
  rewrite <- pow2_add.
  apply Qlt_le_trans with (1 := Hhi). apply pow2_le.
  unfold F64.exponent. lia.
Qed.

Lemma scaled_above (a : Q) :
  0 < a -> (F64.emin <= F64.ilog2 a - 52)%Z -> F64.pow2 52 <= a / F64.pow2 (F64.exponent a).
Proof.
  intros Ha He. destruct (ilog2_spec a Ha) as [Hlo _].
  apply Qle_shift_div_l; [apply pow2_pos|].
  rewrite <- pow2_add.
  apply Qle_trans with (2 := Hlo). apply pow2_le.
  unfold F64.exponent in *. lia.
Qed.

Lemma nearest_nonneg (a : Q) : 0 <= a -> 0 <= F64.nearest a.
Proof.
  intros Ha. unfold F64.nearest.
  apply Qmult_le_0_compat; [|apply Qlt_le_weak, pow2_pos].
  change 0 with (inject_Z 0). rewrite <- Zle_Qle.
  apply nearest_even_ge. change (inject_Z 0) with 0.
  apply Qle_shift_div_l; [apply pow2_pos|]. lra.
Qed.

(** The rounded magnitude stays within the binade of the magnitude, its
    upper end included. *)
Lemma nearest_binade_hi (a : Q) :
  0 < a -> F64.nearest a <= F64.pow2 (F64.exponent a + 53).
Proof.
  intros Ha. unfold F64.nearest. rewrite pow2_add.
  rewrite (Qmult_comm (F64.pow2 (F64.exponent a))).
  apply Qmult_le_compat_r; [|apply Qlt_le_weak, pow2_pos].
  rewrite (pow2_inject 53) by lia. rewrite <- Zle_Qle.
  apply nearest_even_le. rewrite <- pow2_inject by lia.
  apply Qlt_le_weak, scaled_below. exact Ha.
Qed.

Lemma nearest_binade_lo (a : Q) :
  0 < a -> (F64.emin <= F64.ilog2 a - 52)%Z -> F64.pow2 (F64.exponent a + 52) <= F64.nearest a.
Proof.
  intros Ha He. unfold F64.nearest. rewrite pow2_add.
  rewrite (Qmult_comm (F64.pow2 (F64.exponent a))).
  apply Qmult_le_compat_r; [|apply Qlt_le_weak, pow2_pos].
  rewrite (pow2_inject 52) by lia. rewrite <- Zle_Qle.
  apply nearest_even_ge. rewrite <- pow2_inject by lia.
  apply scaled_above; assumption.
Qed.

Lemma nearest_mono (x y : Q) : 0 <= x -> x <= y -> F64.nearest x <= F64.nearest y.
Proof.
  intros Hx Hxy.
  destruct (Qle_lt_or_eq _ _ Hx) as [Hpos | Hz].
  2:{ rewrite (nearest_zero x) by (symmetry; exact Hz).
      apply nearest_nonneg. lra. }
  pose proof (exponent_mono x y Hpos Hxy) as He.
  destruct (Z.eq_dec (F64.exponent x) (F64.exponent y)) as [E | N].
  - unfold F64.nearest. rewrite E.
    apply Qmult_le_compat_r; [|apply Qlt_le_weak, pow2_pos].
    rewrite <- Zle_Qle. apply nearest_even_mono.
    apply Qmult_le_compat_r; [exact Hxy|].
    apply Qlt_le_weak, Qinv_lt_0_compat, pow2_pos.
  - apply Qle_trans with (F64.pow2 (F64.exponent x + 53)).
    + apply nearest_binade_hi. exact Hpos.
    + apply Qle_trans with (F64.pow2 (F64.exponent y + 52)).
      * apply pow2_le. lia.
      * apply nearest_binade_lo; [lra|].
        pose proof (exponent_lower x). unfold F64.exponent in *. lia.
Qed.

(** A magnitude on the grid is left as it is. *)
Lemma nearest_exact (a : Q) (m e : Z) :
  (0 <= m < 2 ^ 53)%Z -> (F64.emin <= e)%Z -> a == inject_Z m * F64.pow2 e ->
  F64.nearest a == a.
Proof.
  intros Hm He E.
  destruct (Z.eq_dec m 0) as [-> | Hm0].
  { rewrite nearest_zero; rewrite E; ring. }
  assert (Ha : 0 < a).
  { rewrite E. apply Qmult_lt_0_compat; [|apply pow2_pos].
    change 0 with (inject_Z 0). rewrite <- Zlt_Qlt. lia. }
  assert (Hexp : (F64.exponent a <= e)%Z).
  { destruct (ilog2_spec a Ha) as [Hlo _].
    assert (Hlt : F64.pow2 (F64.ilog2 a) < F64.pow2 (e + 53)).
    { apply Qle_lt_trans with (1 := Hlo). rewrite E.
      rewrite (Z.add_comm e), pow2_add.
      apply Qmult_lt_compat_r; [apply pow2_pos|].
      rewrite pow2_inject by lia. rewrite <- Zlt_Qlt. lia. }
    apply pow2_lt_inv in Hlt. unfold F64.exponent. lia. }
  unfold F64.nearest.
  assert (Eint : a / F64.pow2 (F64.exponent a)
                 == inject_Z (m * 2 ^ (e - F64.exponent a))).
  { rewrite inject_Z_mult, <- pow2_inject by lia. rewrite pow2_sub.
    generalize (pow2_pos (F64.exponent a)). generalize (F64.pow2 (F64.exponent a)).
    intros p Hp. rewrite E. field. lra. }
  rewrite (nearest_even_integral _ _ Eint).
  rewrite inject_Z_mult, <- pow2_inject by lia. rewrite pow2_sub.
  generalize (pow2_pos (F64.exponent a)). generalize (F64.pow2 (F64.exponent a)).
  intros p Hp. rewrite E. field. lra.
Qed.

Lemma nearest_Z (n : Z) :
  (0 <= n <= 2 ^ 53)%Z -> F64.nearest (inject_Z n) == inject_Z n.
Proof.
  intros Hn. destruct (Z.eq_dec n (2 ^ 53)) as [-> | Hne].
  - apply (nearest_exact _ (2 ^ 52) 1); [lia | unfold F64.emin; lia|].
    vm_compute. reflexivity.
  - apply (nearest_exact _ n 0); [lia | unfold F64.emin; lia|].
    change (F64.pow2 0) with 1. ring.
Qed.

(** *** The rounding of a rational *)

Lemma round_cases (q : Q) :
  let r := F64.nearest (Qabs q) in
  (F64.pow2 F64.emax <= r /\ F64.round q = F64.Inf (F64.negative q)) \/
  (r < F64.pow2 F64.emax /\
   ((0 <= q /\ F64.round q = F64.Fin (Qred r)) \/
    (q < 0 /\ F64.round q = F64.Fin (Qred (- r))))).
Proof.
  intros r. unfold F64.round. fold r.
  destruct (Qle_bool (F64.pow2 F64.emax) r) eqn:E.
  - left. split; [apply Qle_bool_iff; exact E | reflexivity].
  - right. split; [apply Qle_bool_false; exact E|].
    destruct (Qle_bool 0 q) eqn:S.
    + left. split; [apply Qle_bool_iff; exact S | reflexivity].
    + right. split; [apply Qle_bool_false; exact S | reflexivity].
Qed.

Lemma negative_nonneg (q : Q) : 0 <= q -> F64.negative q = false.
Proof.
  intros H. unfold F64.negative. apply Qle_bool_iff in H. rewrite H. reflexivity.
Qed.

Lemma negative_neg (q : Q) : q < 0 -> F64.negative q = true.
Proof.
  intros H. unfold F64.negative.
  destruct (Qle_bool 0 q) eqn:E; [|reflexivity].
  apply Qle_bool_iff in E. lra.
Qed.

Lemma round_comp (x y : Q) : x == y -> F64.round x = F64.round y.
Proof.
  intros E. unfold F64.round.
  assert (En : F64.nearest (Qabs x) == F64.nearest (Qabs y)).
  { apply nearest_comp; [apply Qabs_nonneg | rewrite E; reflexivity]. }
  rewrite (Qleb_comp _ _ (Qeq_refl (F64.pow2 F64.emax)) _ _ En).
  rewrite (Qleb_comp 0 0 (Qeq_refl 0) x y E).
  destruct (Qle_bool (F64.pow2 F64.emax) (F64.nearest (Qabs y))); [reflexivity|].
  f_equal. apply Qred_complete.
  destruct (Qle_bool 0 y); rewrite En; reflexivity.
Qed.

Lemma Qabs_of_nonneg (q : Q) : 0 <= q -> Qabs q == q.
Proof. apply Qabs_pos. Qed.

Lemma Qabs_of_neg (q : Q) : q < 0 -> Qabs q == - q.
Proof. intros H. apply Qabs_neg. lra. Qed.

Lemma round_not_NaN (q : Q) : F64.round q <> F64.NaN.
Proof.
  destruct (round_cases q) as [[_ ->] | [_ [[_ ->] | [_ ->]]]]; discriminate.
Qed.

(** Rounding preserves the order. *)
Lemma round_mono (x y : Q) : x <= y -> F64.le (F64.round x) (F64.round y).
Proof.
  intros Hxy. unfold F64.le.
  pose proof (nearest_nonneg (Qabs x) (Qabs_nonneg x)) as Nx.
  pose proof (nearest_nonneg (Qabs y) (Qabs_nonneg y)) as Ny.
  destruct (Qlt_le_dec x 0) as [Hx | Hx]; destruct (Qlt_le_dec y 0) as [Hy | Hy];
    try lra.
  - (* both F64.negative *)
    assert (Hn : F64.nearest (Qabs y) <= F64.nearest (Qabs x)).
    { apply nearest_mono; [apply Qabs_nonneg|].
      rewrite (Qabs_of_neg x Hx), (Qabs_of_neg y Hy). lra. }
    destruct (round_cases x) as [[_ ->] | [Bx [[? _] | [_ ->]]]]; try lra.
    + rewrite (negative_neg x Hx).
      destruct (F64.round y) eqn:Ey; try reflexivity.
      exfalso. exact (round_not_NaN y Ey).
    + destruct (round_cases y) as [[By _] | [By [[? _] | [_ ->]]]]; try lra.
      cbn [F64.leb]. apply Qle_bool_iff. rewrite !Qred_correct. lra.
  - (* x F64.negative, y not *)
    destruct (round_cases x) as [[_ ->] | [Bx [[? _] | [_ ->]]]]; try lra.
    + rewrite (negative_neg x Hx).
      destruct (round_cases y) as [[_ ->] | [_ [[_ ->] | [? _]]]]; try lra;
        reflexivity.
    + destruct (round_cases y) as [[_ ->] | [_ [[_ ->] | [? _]]]]; try lra.
      * rewrite (negative_nonneg y Hy). reflexivity.
      * cbn [F64.leb]. apply Qle_bool_iff. rewrite !Qred_correct. lra.
  - (* both non-F64.negative *)
    assert (Hn : F64.nearest (Qabs x) <= F64.nearest (Qabs y)).
    { apply nearest_mono; [apply Qabs_nonneg|].
      rewrite (Qabs_of_nonneg x Hx), (Qabs_of_nonneg y Hy). lra. }
    destruct (round_cases y) as [[_ ->] | [By [[_ ->] | [? _]]]]; try lra.
    + rewrite (negative_nonneg y Hy).
      destruct (round_cases x) as [[_ ->] | [_ [[_ ->] | [? _]]]]; try lra.
      * rewrite (negative_nonneg x Hx). reflexivity.
      * reflexivity.
    + destruct (round_cases x) as [[Bx _] | [_ [[_ ->] | [? _]]]]; try lra.
      cbn [F64.leb]. apply Qle_bool_iff. rewrite !Qred_correct. lra.
Qed.

(** A value on the grid and within the range is its own rounding. *)
Lemma round_exact (q : Q) (m e : Z) :
  (Z.abs m < 2 ^ 53)%Z -> (F64.emin <= e)%Z -> (e <= 971)%Z ->
  q == inject_Z m * F64.pow2 e -> F64.round q = F64.Fin (Qred q).
Proof.
  intros Hm He He' E.
  assert (Habs : Qabs q == inject_Z (Z.abs m) * F64.pow2 e).
  { rewrite E, Qabs_Qmult, (Qabs_of_nonneg (F64.pow2 e))
      by (apply Qlt_le_weak, pow2_pos).
    reflexivity. }
  assert (Hn : F64.nearest (Qabs q) == Qabs q).
  { apply (nearest_exact _ (Z.abs m) e); [lia | exact He | exact Habs]. }
  assert (Hsmall : Qabs q < F64.pow2 F64.emax).
  { rewrite Habs.
    apply Qlt_le_trans with (F64.pow2 53 * F64.pow2 e).
    - apply Qmult_lt_compat_r; [apply pow2_pos|].
      rewrite pow2_inject by lia. rewrite <- Zlt_Qlt. lia.
    - rewrite <- pow2_add. apply pow2_le. unfold F64.emax. lia. }
  destruct (round_cases q) as [[B _] | [_ [[Hq ->] | [Hq ->]]]].
  - lra.
  - f_equal. apply Qred_complete. rewrite Hn. apply Qabs_of_nonneg. exact Hq.
  - f_equal. apply Qred_complete. rewrite Hn, (Qabs_of_neg q Hq). ring.
Qed.

Lemma Qred_inject_Z (z : Z) : Qred (inject_Z z) = inject_Z z.
Proof.
  unfold inject_Z, Qred. cbn [Qnum Qden].
  pose proof (Z.ggcd_gcd z 1) as Hg. pose proof (Z.ggcd_correct_divisors z 1) as Hd.
  destruct (Z.ggcd z 1) as [g [aa bb]]. cbn [fst snd] in *.
  rewrite Z.gcd_1_r in Hg. subst g. destruct Hd as [Ha Hb].
  rewrite !Z.mul_1_l in *. subst. reflexivity.
Qed.

(** Integers up to [2^53] in magnitude are binary64 values. *)
Lemma round_Z (z : Z) :
  (Z.abs z <= 2 ^ 53)%Z -> F64.round (inject_Z z) = F64.Fin (inject_Z z).
Proof.
  intros Hz. rewrite <- (Qred_inject_Z z) at 2.
  destruct (Z.eq_dec (Z.abs z) (2 ^ 53)) as [E | N].
  - assert (Hz' : z = (2 ^ 53)%Z \/ z = (- 2 ^ 53)%Z) by lia.
    destruct Hz' as [-> | ->]; vm_compute; reflexivity.
  - apply (round_exact _ z 0); [lia | unfold F64.emin; lia | lia|].
    change (F64.pow2 0) with 1. ring.
Qed.

Lemma round_0 : F64.round 0 = F64.Fin 0.
Proof. reflexivity. Qed.

(** The sign of a rounding is the sign of what is rounded. *)
Lemma round_nonneg (q : Q) :
  0 <= q -> F64.round q = F64.Inf false \/ exists r : Q, F64.round q = F64.Fin r /\ 0 <= r.
Proof.
  intros Hq. pose proof (round_mono 0 q Hq) as H. unfold F64.le in H.
  rewrite round_0 in H.
  destruct (F64.round q) as [|s|r]; cbn [F64.leb] in H; try discriminate H.
  - destruct s; [discriminate H | left; reflexivity].
  - right. exists r. split; [reflexivity | apply Qle_bool_iff; exact H].
Qed.

(** The accuracy of a rounding in the normal range: a relative error of at
    most [2^-53]. *)
Lemma round_accuracy (q r : Q) :
  F64.pow2 (-1022) <= Qabs q -> F64.round q = F64.Fin r ->
  Qabs (r - q) <= F64.pow2 (-53) * Qabs q.
Proof.
  intros Hnorm Hr.
  assert (Ha : 0 < Qabs q).
  { apply Qlt_le_trans with (F64.pow2 (-1022)); [apply pow2_pos | exact Hnorm]. }
  assert (He : (F64.emin <= F64.ilog2 (Qabs q) - 52)%Z).
  { destruct (ilog2_spec _ Ha) as [_ Hhi].
    assert (H : F64.pow2 (-1022) < F64.pow2 (F64.ilog2 (Qabs q) + 1)).
    { apply Qle_lt_trans with (Qabs q); assumption. }
    apply pow2_lt_inv in H. unfold F64.emin. lia. }
  assert (Hn : Qabs (F64.nearest (Qabs q) - Qabs q) <= F64.pow2 (-53) * Qabs q).
  { unfold F64.nearest.
    pose proof (scaled_above _ Ha He) as Hs.
    pose proof (nearest_even_spec (Qabs q / F64.pow2 (F64.exponent (Qabs q)))) as [N1 N2].
    pose proof (pow2_pos (F64.exponent (Qabs q))) as Hp.
    set (p := F64.pow2 (F64.exponent (Qabs q))) in *.
    set (s := Qabs q / p) in *.
    set (n := inject_Z (F64.nearest_even s)) in *.
    assert (Es : Qabs q == s * p) by (subst s; field; lra).
    assert (H52 : F64.pow2 (-53) * F64.pow2 52 == 1 # 2) by (vm_compute; reflexivity).
    assert (Hhalf : (1 # 2) <= F64.pow2 (-53) * s).
    { rewrite <- H52. apply Qmult_le_l; [apply pow2_pos | exact Hs]. }
    rewrite Es.
    assert (E1 : n * p - s * p == (n - s) * p) by ring.
    rewrite E1, Qabs_Qmult, (Qabs_of_nonneg p) by lra.
    rewrite Qmult_assoc.
    apply Qmult_le_compat_r; [|lra].
    apply Qabs_Qle_condition. split; lra. }
  destruct (round_cases q) as [[_ E] | [_ [[Hq E] | [Hq E]]]];
    rewrite E in Hr; try discriminate Hr; injection Hr as <-.
  - assert (E1 : Qred (F64.nearest (Qabs q)) - q == F64.nearest (Qabs q) - Qabs q).
    { rewrite Qred_correct. generalize (F64.nearest (Qabs q)). intros n.
      rewrite (Qabs_of_nonneg q Hq). reflexivity. }
    rewrite (Qabs_wd _ _ E1). exact Hn.
  - assert (E1 : Qred (- F64.nearest (Qabs q)) - q
                 == - (F64.nearest (Qabs q) - Qabs q)).
    { rewrite Qred_correct. generalize (F64.nearest (Qabs q)). intros n.
      rewrite (Qabs_of_neg q Hq). ring. }
    rewrite (Qabs_wd _ _ E1), Qabs_opp. exact Hn.
Qed.

(* ================================================================= *)
(** ** Order and arithmetic of binary64 numbers *)

(** *** The order of binary64 numbers *)

Lemma F64_le_Fin (x y : Q) : F64.le (F64.Fin x) (F64.Fin y) <-> x <= y.
Proof. unfold F64.le. cbn [F64.leb]. apply Qle_bool_iff. Qed.

Lemma F64_le_lowest (a : F64.t) : a <> F64.NaN -> F64.le (F64.Inf true) a.
Proof. intros H. destruct a as [|[]|]; try reflexivity. contradiction. Qed.

Lemma F64_le_highest (a : F64.t) : a <> F64.NaN -> F64.le a (F64.Inf false).
Proof. intros H. destruct a as [|[]|]; try reflexivity. contradiction. Qed.

Lemma F64_le_not_NaN (a b : F64.t) :
  F64.le a b -> a <> F64.NaN /\ b <> F64.NaN.
Proof.
  unfold F64.le. destruct a as [|[]|], b as [|[]|]; cbn [F64.leb];
    intros H; try discriminate H; split; discriminate.
Qed.

Lemma F64_le_refl (a : F64.t) : a <> F64.NaN -> F64.le a a.
Proof.
  intros H. destruct a as [|[]|q]; try reflexivity; [contradiction|].
  apply F64_le_Fin. apply Qle_refl.
Qed.

Lemma F64_le_trans (a b c : F64.t) : F64.le a b -> F64.le b c -> F64.le a c.
Proof.
  unfold F64.le.
  destruct a as [|[]|x], b as [|[]|y], c as [|[]|z]; cbn [F64.leb];
    intros H1 H2; try discriminate; try reflexivity.
  apply Qle_bool_iff. apply Qle_bool_iff in H1, H2. lra.
Qed.

(** A number between two finite numbers is finite. *)
Lemma F64_between (a : F64.t) (lo hi : Q) :
  F64.le (F64.Fin lo) a -> F64.le a (F64.Fin hi) ->
  exists x : Q, a = F64.Fin x /\ lo <= x /\ x <= hi.
Proof.
  unfold F64.le. destruct a as [|[]|x]; cbn [F64.leb]; intros H1 H2;
    try discriminate.
  exists x. split; [reflexivity|]. split; apply Qle_bool_iff; assumption.
Qed.

Lemma F64_leb_false (a b : F64.t) :
  a <> F64.NaN -> b <> F64.NaN -> F64.leb a b = false -> F64.ltb b a = true.
Proof.
  intros Ha Hb H. destruct a as [|[]|x], b as [|[]|y]; try contradiction;
    cbn [F64.ltb]; rewrite H; reflexivity.
Qed.

(** *** Operations with a finite operand

    An operation whose other operand is a finite constant maps infinities
    to infinities and a finite [x] to the rounding of a rational function of
    [x]; it preserves the order when that function does. *)

Lemma through_mono (g : Q -> Q) :
  (forall x y : Q, x <= y -> g x <= g y) ->
  forall a b : F64.t, F64.le a b -> F64.le (through g a) (through g b).
Proof.
  intros Hg a b Hab.
  destruct a as [|[]|x], b as [|[]|y]; try discriminate Hab;
    cbn [through]; try reflexivity.
  - apply F64_le_lowest, round_not_NaN.
  - apply F64_le_highest, round_not_NaN.
  - apply round_mono, Hg. apply F64_le_Fin. exact Hab.
Qed.

Lemma through_not_NaN (g : Q -> Q) (a : F64.t) :
  a <> F64.NaN -> through g a <> F64.NaN.
Proof.
  destruct a as [|s|x]; cbn [through]; intros H;
    [contradiction | discriminate | apply round_not_NaN].
Qed.

Lemma F64_add_through (a : F64.t) (c : Q) :
  F64.add a (F64.Fin c) = through (fun x => x + c) a.
Proof. destruct a; reflexivity. Qed.

Lemma F64_add_through_l (a : F64.t) (c : Q) :
  F64.add (F64.Fin c) a = through (fun x => c + x) a.
Proof. destruct a; reflexivity. Qed.

Lemma F64_sub_through (a : F64.t) (c : Q) :
  F64.sub a (F64.Fin c) = through (fun x => x - c) a.
Proof. destruct a; reflexivity. Qed.

Lemma negative_pos (c : Q) : 0 < c -> F64.negative c = false.
Proof. intros H. apply negative_nonneg. lra. Qed.

Lemma Qeq_bool_pos (c : Q) : 0 < c -> Qeq_bool c 0 = false.
Proof.
  intros H. destruct (Qeq_bool c 0) eqn:E; [|reflexivity].
  apply Qeq_bool_eq in E. lra.
Qed.

Lemma F64_mul_through (a : F64.t) (c : Q) :
  0 < c -> F64.mul a (F64.Fin c) = through (fun x => x * c) a.
Proof.
  intros Hc. destruct a as [|s|x]; try reflexivity.
  cbn [F64.mul through]. rewrite (Qeq_bool_pos c Hc), (negative_pos c Hc).
  destruct s; reflexivity.
Qed.

Lemma F64_div_through (a : F64.t) (c : Q) :
  0 < c -> F64.div a (F64.Fin c) = through (fun x => x / c) a.
Proof.
  intros Hc. destruct a as [|s|x]; try reflexivity.
  - cbn [F64.div through]. rewrite (negative_pos c Hc). destruct s; reflexivity.
  - cbn [F64.div through]. rewrite (Qeq_bool_pos c Hc). reflexivity.
Qed.

Lemma Math_round_mono (a b : F64.t) :
  F64.le a b -> F64.le (F64.Math_round a) (F64.Math_round b).
Proof.
  intros Hab.
  destruct a as [|[]|x], b as [|[]|y]; try discriminate Hab;
    cbn [F64.Math_round]; try reflexivity.
  apply F64_le_Fin. rewrite <- Zle_Qle. apply Qfloor_resp_le.
  apply F64_le_Fin in Hab. lra.
Qed.

(** [Math.round] of a finite number: the integer [r] with
    [r - 1/2 <= x < r + 1/2]. *)
Lemma Math_round_spec (x : Q) :
  exists r : Z,
    F64.Math_round (F64.Fin x) = F64.Fin (inject_Z r) /\
    inject_Z r - (1 # 2) <= x /\ x < inject_Z r + (1 # 2).
Proof.
  exists (round_half_up x). split; [reflexivity | apply round_half_up_spec].
Qed.

(* ================================================================= *)
(** ** src/utils.ts on a host: percentages and effective hours *)

(** *** The literals of the sources *)

Lemma literal_0 : F64.round 0 = F64.Fin 0.
Proof. reflexivity. Qed.

Lemma literal_1 : F64.round 1 = F64.Fin 1.
Proof. vm_compute. reflexivity. Qed.

Lemma literal_4 : F64.round 4 = F64.Fin 4.
Proof. vm_compute. reflexivity. Qed.

Lemma literal_8 : F64.round 8 = F64.Fin 8.
Proof. vm_compute. reflexivity. Qed.

Lemma literal_16 : F64.round 16 = F64.Fin 16.
Proof. vm_compute. reflexivity. Qed.

Lemma literal_50 : F64.round 50 = F64.Fin 50.
Proof. vm_compute. reflexivity. Qed.

Lemma literal_100 : F64.round 100 = F64.Fin 100.
Proof. vm_compute. reflexivity. Qed.

Lemma literal_0_75 : F64.round 0.75 = F64.Fin (3 # 4).
Proof. vm_compute. reflexivity. Qed.

Lemma literal_7_25 : F64.round 7.25 = F64.Fin (29 # 4).
Proof. vm_compute. reflexivity. Qed.

(** 0.967 is not a binary64 value: the literal denotes [rate], slightly
    below it. *)
Lemma literal_0_967 : F64.round 0.967 = F64.Fin rate.
Proof. vm_compute. reflexivity. Qed.

Lemma rate_bounds : 0.9669999999999999 < rate /\ rate < 0.967.
Proof. split; vm_compute; reflexivity. Qed.

(** *** Performance percentage *)

Lemma scaled_quotient (p e : Q) :
  0 < e ->
  F64.mul (F64.div (F64.Fin p) (F64.Fin e)) (F64.round 100)
  = through (fun q => q * 100) (F64.round (p / e)).
Proof.
  intros He. rewrite literal_100.
  rewrite F64_mul_through by reflexivity.
  cbn [F64.div]. rewrite (Qeq_bool_pos e He). reflexivity.
Qed.

Lemma pow2_m53 : F64.pow2 (-53) == 1 # 9007199254740992.
Proof. reflexivity. Qed.

Lemma pow2_m51 : F64.pow2 (-51) == 1 # 2251799813685248.
Proof. reflexivity. Qed.

(** Two roundings in the normal range: the quotient times 100 is within
    one part in [2^51] of the exact value. *)
Lemma scaled_quotient_accuracy (x0 q x : Q) :
  F64.pow2 (-1022) <= Qabs x0 ->
  F64.round x0 = F64.Fin q -> F64.round (q * 100) = F64.Fin x ->
  Qabs (x - x0 * 100) <= F64.pow2 (-51) * Qabs (x0 * 100).
Proof.
  intros Hnorm Hq Hx.
  pose proof (round_accuracy x0 q Hnorm Hq) as H1.
  pose proof (pow2_pos (-1022)) as Hp.
  assert (Hq1 : Qabs q <= Qabs x0 + Qabs (q - x0)).
  { assert (E : q == x0 + (q - x0)) by ring.
    rewrite E at 1. apply Qabs_triangle. }
  assert (Hq2 : Qabs x0 - Qabs (q - x0) <= Qabs q).
  { assert (E : x0 == q + (x0 - q)) by ring.
    assert (T := Qabs_triangle q (x0 - q)). rewrite <- E in T.
    assert (S : Qabs (x0 - q) == Qabs (q - x0)).
    { rewrite <- Qabs_opp. apply Qabs_wd. ring. }
    rewrite S in T. lra. }
  assert (A100 : forall y : Q, Qabs (y * 100) == Qabs y * 100).
  { intros y. rewrite Qabs_Qmult. reflexivity. }
  rewrite pow2_m53 in H1.
  assert (Hnorm2 : F64.pow2 (-1022) <= Qabs (q * 100)).
  { rewrite A100.
    generalize dependent (F64.pow2 (-1022)). intros P HP Hnorm.
    generalize dependent (Qabs (q - x0)). intros D. intros.
    generalize dependent (Qabs q). generalize dependent (Qabs x0). intros.
    lra. }
  pose proof (round_accuracy (q * 100) x Hnorm2 Hx) as H2.
  rewrite pow2_m53, A100 in H2.
  assert (T : Qabs (x - x0 * 100)
              <= Qabs (x - q * 100) + Qabs (q - x0) * 100).
  { assert (E : x - x0 * 100 == (x - q * 100) + (q - x0) * 100) by ring.
    rewrite (Qabs_wd _ _ E), <- A100. apply Qabs_triangle. }
  rewrite pow2_m51, A100.
  pose proof (Qabs_nonneg x0).
  generalize dependent (Qabs (x - x0 * 100)).
  generalize dependent (Qabs (x - q * 100)).
  generalize dependent (Qabs (q - x0)).
  generalize dependent (Qabs q). generalize dependent (Qabs x0).
  intros. lra.
Qed.

(** C4.  [computePerformancePercentage] returns 0 when the effective hours
    are [<= 0] and otherwise [Math.round((performance / eff) * 100)]: the
    integer nearest to the binary64 value of the quotient times 100, halves
    rounded up.  That value is within one part in [2^51] of the exact
    quotient times 100 when the quotient is in the normal range.  The
    degenerate case is the returned value 0, never a raise. *)
Theorem computePerformancePercentage_spec (entry : Hosted.DateData) :
  let eff :=
    Hosted.effectiveHours (Hosted.hours entry) (Hosted.overtime entry)
                          (Hosted.freeDay entry) in
  let scaled :=
    F64.mul (F64.div (Hosted.performance entry) eff) (F64.round 100) in
  (F64.leb eff (F64.Fin 0) = true ->
   Hosted.computePerformancePercentage entry = F64.Fin 0) /\
  (F64.leb eff (F64.Fin 0) = false ->
   Hosted.computePerformancePercentage entry = F64.Math_round scaled) /\
  (forall x : Q,
      scaled = F64.Fin x ->
      exists r : Z,
        F64.Math_round scaled = F64.Fin (inject_Z r) /\
        inject_Z r - (1 # 2) <= x /\ x < inject_Z r + (1 # 2)) /\
  (forall p e x : Q,
      Hosted.performance entry = F64.Fin p -> eff = F64.Fin e -> 0 < e ->
      scaled = F64.Fin x -> F64.pow2 (-1022) <= Qabs (p / e) ->
      Qabs (x - p / e * 100) <= F64.pow2 (-51) * Qabs (p / e * 100)).
Proof.
  intros eff scaled.
  unfold Hosted.computePerformancePercentage. fold eff. fold scaled.
  rewrite literal_0.
  split; [intros ->; reflexivity|].
  split; [intros ->; reflexivity|].
  split.
  - intros x ->. apply Math_round_spec.
  - intros p e x Hp He Hpos Hx Hnorm.
    subst scaled. rewrite Hp, He, (scaled_quotient p e Hpos) in Hx.
    destruct (F64.round (p / e)) as [|s|q] eqn:Hq; try discriminate Hx.
    cbn [through] in Hx.
    exact (scaled_quotient_accuracy (p / e) q x Hnorm Hq Hx).
Qed.

Lemma computePerformancePercentage_spec_witness :
  Hosted.computePerformancePercentage
    (Hosted.mkDateData (F64.Fin 5) (F64.Fin 0) false false) = F64.Fin 0 /\
  Hosted.computePerformancePercentage
    (Hosted.mkDateData (F64.Fin 6.28125) (F64.Fin 7) false false)
  = F64.Math_round
      (F64.mul (F64.div (F64.Fin 6.28125)
                        (Hosted.effectiveHours (F64.Fin 7) false false))
               (F64.round 100)).
Proof.
  split.
  - apply (computePerformancePercentage_spec
             (Hosted.mkDateData (F64.Fin 5) (F64.Fin 0) false false)).
    reflexivity.
  - apply (computePerformancePercentage_spec
             (Hosted.mkDateData (F64.Fin 6.28125) (F64.Fin 7) false false)).
    vm_compute. reflexivity.
Defined.

(** Quotients that binary64 leaves just below a half. *)
Example percentage_below_a_half :
  Hosted.computePerformancePercentage
    (Hosted.mkDateData (F64.Fin 6.28125) (F64.Fin 7) false false)
  = F64.Fin 100 /\
  Hosted.computePerformancePercentage
    (Hosted.mkDateData (F64.Fin 5.125) (F64.Fin 5.75) false false)
  = F64.Fin 102.
Proof. split; vm_compute; reflexivity. Qed.

(** *** The effective hours of finite hours *)

Lemma F64_min_Fin (x y : Q) :
  exists z : Q, F64.min (F64.Fin x) (F64.Fin y) = F64.Fin z /\ z == Qmin x y.
Proof.
  cbn [F64.min F64.leb].
  destruct (Qle_bool x y) eqn:E.
  - apply Qle_bool_iff in E. exists x. split; [reflexivity|].
    symmetry. apply Q.min_l. exact E.
  - apply Qle_bool_false in E. exists y. split; [reflexivity|].
    symmetry. apply Q.min_r. lra.
Qed.

Lemma F64_max_Fin (x y : Q) :
  exists z : Q, F64.max (F64.Fin x) (F64.Fin y) = F64.Fin z /\ z == Qmax x y.
Proof.
  cbn [F64.max F64.leb].
  destruct (Qle_bool x y) eqn:E.
  - apply Qle_bool_iff in E. exists y. split; [reflexivity|].
    symmetry. apply Q.max_r. exact E.
  - apply Qle_bool_false in E. exists x. split; [reflexivity|].
    symmetry. apply Q.max_l. lra.
Qed.

(** The part of the effective hours above the first eight. *)
Lemma beyond_eight_not_NaN (x : Q) :
  F64.add (F64.round 7.25)
          (F64.mul (F64.sub (F64.Fin x) (F64.round 8)) (F64.round 0.967))
  <> F64.NaN.
Proof.
  rewrite literal_0_967, literal_7_25, literal_8.
  rewrite F64_sub_through, F64_mul_through by reflexivity.
  rewrite F64_add_through_l.
  apply through_not_NaN, through_not_NaN. cbn [through]. apply round_not_NaN.
Qed.

Lemma effectiveHours_not_NaN (h : Q) (o f : bool) :
  Hosted.effectiveHours (F64.Fin h) o f <> F64.NaN.
Proof.
  unfold Hosted.effectiveHours.
  destruct f.
  - rewrite literal_0_967.
    rewrite F64_mul_through by reflexivity. cbn [through]. apply round_not_NaN.
  - destruct o.
    + rewrite literal_16 at 1. rewrite literal_8 at 1.
      destruct (F64_min_Fin h 16) as (z & -> & _).
      destruct (F64_max_Fin 8 z) as (w & -> & _).
      apply beyond_eight_not_NaN.
    + destruct (F64.ltb (F64.Fin h) (F64.round 4)); [discriminate|].
      destruct (F64.leb (F64.Fin h) (F64.round 8)).
      * rewrite literal_0_75, F64_sub_through. cbn [through].
        apply round_not_NaN.
      * apply beyond_eight_not_NaN.
Qed.

(** C7 does not hold as stated: nothing constrains the sign of
    [performance], and a negative performance over positive effective
    hours gives a negative percentage. *)
Lemma computePerformancePercentage_negative :
  let entry := Hosted.mkDateData (F64.Fin (-7.25)) (F64.Fin 8) false false in
  Hosted.computePerformancePercentage entry = F64.Fin (inject_Z (-100)) /\
  ~ (exists z : Z,
        (0 <= z)%Z /\
        Hosted.computePerformancePercentage entry = F64.Fin (inject_Z z)).
Proof.
  assert (H : Hosted.computePerformancePercentage
                (Hosted.mkDateData (F64.Fin (-7.25)) (F64.Fin 8) false false)
              = F64.Fin (inject_Z (-100))) by (vm_compute; reflexivity).
  split; [exact H|].
  intros (z & Hz & E). cbv zeta in E. rewrite H in E.
  injection E as E. lia.
Qed.

Lemma Math_round_nonneg (x : Q) :
  0 <= x ->
  exists z : Z, (0 <= z)%Z /\ F64.Math_round (F64.Fin x) = F64.Fin (inject_Z z).
Proof.
  intros Hx. exists (round_half_up x).
  split; [apply round_half_up_nonneg; exact Hx | reflexivity].
Qed.

(** C7, amended.  For every entry whose [performance] is a finite number
    [>= 0] and whose [hours] is a finite number,
    [computePerformancePercentage] returns a non-negative integer or
    [+Infinity], never a negative number and never [NaN]; [+Infinity] is
    returned when the quotient times 100 exceeds the binary64 range, as for
    the performance [1e307] over one hour. *)
Theorem computePerformancePercentage_nonneg (entry : Hosted.DateData)
    (p h : Q) :
  Hosted.performance entry = F64.Fin p -> Hosted.hours entry = F64.Fin h ->
  0 <= p ->
  ((exists z : Z,
       (0 <= z)%Z /\
       Hosted.computePerformancePercentage entry = F64.Fin (inject_Z z)) \/
   Hosted.computePerformancePercentage entry = F64.Inf false) /\
  Hosted.computePerformancePercentage
    (Hosted.mkDateData (F64.round (inject_Z (10 ^ 307))) (F64.Fin 1)
                       false false)
  = F64.Inf false.
Proof.
  intros Hp Hh Hpos.
  split; [|vm_compute; reflexivity].
  unfold Hosted.computePerformancePercentage. rewrite Hp, Hh, literal_0.
  pose proof (effectiveHours_not_NaN h (Hosted.overtime entry)
                (Hosted.freeDay entry)) as Hnan.
  destruct (Hosted.effectiveHours (F64.Fin h) (Hosted.overtime entry)
              (Hosted.freeDay entry)) as [|s|e] eqn:He;
    [contradiction | |].
  - destruct s; cbn [F64.leb].
    + left. exists 0%Z. split; [lia | reflexivity].
    + left. exists 0%Z. split; [lia | vm_compute; reflexivity].
  - cbn [F64.leb].
    destruct (Qle_bool e 0) eqn:Ee.
    + left. exists 0%Z. split; [lia | reflexivity].
    + apply Qle_bool_false in Ee.
      rewrite (scaled_quotient p e Ee).
      assert (Hq : 0 <= p / e).
      { apply Qle_shift_div_l; [exact Ee | lra]. }
      destruct (round_nonneg (p / e) Hq) as [-> | (q & -> & Hq')].
      * right. reflexivity.
      * cbn [through].
        assert (Hq100 : 0 <= q * 100) by lra.
        destruct (round_nonneg (q * 100) Hq100) as [-> | (x & -> & Hx)].
        -- right. reflexivity.
        -- left. apply Math_round_nonneg. exact Hx.
Qed.

Lemma computePerformancePercentage_nonneg_witness :
  (exists z : Z,
      (0 <= z)%Z /\
      Hosted.computePerformancePercentage
        (Hosted.mkDateData (F64.Fin 7.25) (F64.Fin 8) false false)
      = F64.Fin (inject_Z z)) \/
  Hosted.computePerformancePercentage
    (Hosted.mkDateData (F64.Fin 7.25) (F64.Fin 8) false false)
  = F64.Inf false.
Proof.
  apply (computePerformancePercentage_nonneg
           (Hosted.mkDateData (F64.Fin 7.25) (F64.Fin 8) false false) 7.25 8).
  - reflexivity.
  - reflexivity.
  - lra.
Defined.

(** *** The range of the effective hours *)

(** The effective hours beyond the first eight grow with the hours. *)
Lemma beyond_eight_mono (a b : F64.t) :
  F64.le a b ->
  F64.le
    (F64.add (F64.round 7.25)
             (F64.mul (F64.sub a (F64.round 8)) (F64.round 0.967)))
    (F64.add (F64.round 7.25)
             (F64.mul (F64.sub b (F64.round 8)) (F64.round 0.967))).
Proof.
  intros Hab. rewrite literal_0_967, literal_7_25, literal_8.
  rewrite !F64_sub_through, !F64_mul_through by reflexivity.
  rewrite !F64_add_through_l.
  apply through_mono; [intros; lra|].
  apply through_mono; [intros x y Hxy; apply Qmult_le_compat_r;
                       [exact Hxy | discriminate]|].
  apply through_mono; [intros; lra|]. exact Hab.
Qed.

(** Between two numbers that lie in a range. *)
Lemma F64_squeeze (lo hi l u x : F64.t) :
  F64.le l x -> F64.le x u -> F64.le lo l -> F64.le u hi ->
  F64.le lo x /\ F64.le x hi.
Proof.
  intros H1 H2 H3 H4. split.
  - apply F64_le_trans with (1 := H3). exact H1.
  - apply F64_le_trans with (2 := H4). exact H2.
Qed.

Lemma beyond_eight_range (z : Q) :
  8 <= z -> z <= 16 ->
  let body :=
    F64.add (F64.round 7.25)
            (F64.mul (F64.sub (F64.Fin z) (F64.round 8)) (F64.round 0.967)) in
  F64.le (F64.round 0.967) body /\ F64.le body (F64.round 15.472).
Proof.
  intros Hz8 Hz16 body.
  apply (F64_squeeze _ _ _ _ _
           (beyond_eight_mono (F64.Fin 8) (F64.Fin z)
              (proj2 (F64_le_Fin 8 z) Hz8))
           (beyond_eight_mono (F64.Fin z) (F64.Fin 16)
              (proj2 (F64_le_Fin z 16) Hz16)));
    vm_compute; reflexivity.
Qed.

Lemma effectiveHours_range (h : Q) (o f : bool) :
  1 <= h -> h <= 16 ->
  F64.le (F64.round 0.967) (Hosted.effectiveHours (F64.Fin h) o f) /\
  F64.le (Hosted.effectiveHours (F64.Fin h) o f) (F64.round 15.472).
Proof.
  intros Hlo Hhi.
  unfold Hosted.effectiveHours.
  destruct f.
  - (* free day *)
    assert (E : F64.mul (F64.Fin h) (F64.round 0.967) = F64.round (h * rate)).
    { rewrite literal_0_967. reflexivity. }
    rewrite E.
    apply (F64_squeeze _ _ (F64.round (1 * rate)) (F64.round (16 * rate))).
    + apply round_mono. apply Qmult_le_compat_r; [exact Hlo | discriminate].
    + apply round_mono. apply Qmult_le_compat_r; [exact Hhi | discriminate].
    + vm_compute. reflexivity.
    + vm_compute. reflexivity.
  - destruct o.
    + (* overtime *)
      assert (E : exists w : Q,
        F64.max (F64.round 8) (F64.min (F64.Fin h) (F64.round 16)) = F64.Fin w
        /\ 8 <= w /\ w <= 16).
      { rewrite literal_16, literal_8.
        destruct (F64_min_Fin h 16) as (z & -> & Ez).
        destruct (F64_max_Fin 8 z) as (w & -> & Ew).
        exists w. split; [reflexivity|]. split.
        - rewrite Ew. apply Q.le_max_l.
        - rewrite Ew. apply Q.max_lub; [lra|]. rewrite Ez. apply Q.le_min_r. }
      destruct E as (w & -> & Hw8 & Hw16).
      apply beyond_eight_range; assumption.
    + (* normal day *)
      assert (E4 : F64.ltb (F64.Fin h) (F64.round 4) = negb (Qle_bool 4 h)).
      { rewrite literal_4. reflexivity. }
      assert (E8 : F64.leb (F64.Fin h) (F64.round 8) = Qle_bool h 8).
      { rewrite literal_8. reflexivity. }
      rewrite E4, E8.
      destruct (Qle_bool 4 h) eqn:H4; cbn [negb].
      * apply Qle_bool_true in H4.
        destruct (Qle_bool h 8) eqn:H8.
        -- apply Qle_bool_true in H8.
           assert (E : F64.sub (F64.Fin h) (F64.round 0.75)
                       = F64.round (h - (3 # 4))).
           { rewrite literal_0_75. reflexivity. }
           rewrite E.
           apply (F64_squeeze _ _ (F64.round (4 - (3 # 4)))
                    (F64.round (8 - (3 # 4)))).
           ++ apply round_mono. lra.
           ++ apply round_mono. lra.
           ++ vm_compute. reflexivity.
           ++ vm_compute. reflexivity.
        -- apply Qle_bool_false in H8. apply beyond_eight_range; lra.
      * apply Qle_bool_false in H4.
        apply (F64_squeeze _ _ (F64.Fin 1) (F64.Fin 4)).
        -- apply F64_le_Fin. exact Hlo.
        -- apply F64_le_Fin. lra.
        -- vm_compute. reflexivity.
        -- vm_compute. reflexivity.
Qed.

(** X3.  For hours between 1 and 16, the range both submit handlers
    accept, the effective hours are finite and lie between the literals
    0.967 and 15.472 under every combination of flags; they are positive,
    so the percentage is the rounded quotient and never the value returned
    for effective hours [<= 0]. *)
Theorem effectiveHours_accepted_range (entry : Hosted.DateData) (h : Q) :
  Hosted.hours entry = F64.Fin h -> 1 <= h -> h <= 16 ->
  exists e : Q,
    Hosted.effectiveHours (F64.Fin h) (Hosted.overtime entry)
                          (Hosted.freeDay entry) = F64.Fin e /\
    F64.le (F64.round 0.967) (F64.Fin e) /\
    F64.le (F64.Fin e) (F64.round 15.472) /\
    0 < e /\
    Hosted.computePerformancePercentage entry
    = F64.Math_round
        (F64.mul (F64.div (Hosted.performance entry) (F64.Fin e))
                 (F64.round 100)).
Proof.
  intros Hh Hlo Hhi.
  destruct (effectiveHours_range h (Hosted.overtime entry)
              (Hosted.freeDay entry) Hlo Hhi) as (L & U).
  destruct (F64_between
              (Hosted.effectiveHours (F64.Fin h) (Hosted.overtime entry)
                                     (Hosted.freeDay entry))
              rate (15472 # 1000)) as (e & He & _ & _).
  { rewrite <- literal_0_967. exact L. }
  { apply F64_le_trans with (1 := U). vm_compute. reflexivity. }
  rewrite He in L, U.
  assert (Hpos : 0 < e).
  { rewrite literal_0_967 in L. apply F64_le_Fin in L.
    pose proof rate_bounds. lra. }
  exists e. repeat split; try assumption.
  unfold Hosted.computePerformancePercentage. rewrite Hh, He, literal_0.
  cbn [F64.leb]. rewrite (Qle_bool_of_lt e 0 Hpos). reflexivity.
Qed.

Lemma effectiveHours_accepted_range_witness :
  exists e : Q,
    Hosted.effectiveHours (F64.Fin 1) false true = F64.Fin e /\
    F64.le (F64.round 0.967) (F64.Fin e) /\
    F64.le (F64.Fin e) (F64.round 15.472) /\
    0 < e /\
    Hosted.computePerformancePercentage
      (Hosted.mkDateData (F64.Fin 2) (F64.Fin 1) false true)
    = F64.Math_round
        (F64.mul (F64.div (F64.Fin 2) (F64.Fin e)) (F64.round 100)).
Proof.
  apply (effectiveHours_accepted_range
           (Hosted.mkDateData (F64.Fin 2) (F64.Fin 1) false true) 1).
  - reflexivity.
  - lra.
  - lra.
Defined.

(** *** The rescaled percentage *)

Lemma calculatePercentage_mono (a b : F64.t) :
  F64.le a b ->
  F64.le (Hosted.calculatePercentage a) (Hosted.calculatePercentage b).
Proof.
  intros Hab.
  unfold Hosted.calculatePercentage.
  assert (Hw : exists width : Q,
    F64.sub (F64.round 10.88) (F64.round 7.25) = F64.Fin width /\ 0 < width).
  { eexists. split; vm_compute; reflexivity. }
  destruct Hw as (width & -> & Hw).
  rewrite literal_7_25, literal_50, literal_100.
  rewrite !F64_sub_through, !(F64_div_through _ width Hw).
  rewrite !F64_mul_through by reflexivity.
  rewrite !F64_add_through.
  apply Math_round_mono.
  apply through_mono; [intros; lra|].
  apply through_mono; [intros; lra|].
  apply through_mono.
  { intros x y Hxy. apply Qmult_le_compat_r; [exact Hxy|].
    apply Qlt_le_weak, Qinv_lt_0_compat. exact Hw. }
  apply through_mono; [intros; lra|]. exact Hab.
Qed.



(** The width of the band is not a binary64 value, so a step of 3.63 does
    not always move the percentage by 50. *)
Example calculatePercentage_steps :
  Hosted.calculatePercentage (F64.round 9.9725) = F64.Fin 138 /\
  Hosted.calculatePercentage (F64.add (F64.round 9.9725) (F64.round 3.63))
  = F64.Fin 187 /\
  Hosted.calculatePercentage (F64.round 29.9375) = F64.Fin 412.
Proof. repeat split; vm_compute; reflexivity. Qed.

(* ================================================================= *)
(** ** src/PerformanceModal.tsx on a host: hours between clock times *)

(** *** Dates on a host *)

Lemma F64_sub_NaN_r (a : F64.t) : F64.sub a F64.NaN = F64.NaN.
Proof. destruct a; reflexivity. Qed.

Lemma Host_UTC_NaN (zone : Host.TimeZone) : Host.UTC zone NaN = NaN.
Proof. reflexivity. Qed.

(** A date built from an hour or a minute that is not finite is
    invalid. *)
Lemma Host_Date_of_fields_invalid (zone : Host.TimeZone)
    (y mo d h m : Host.value) :
  Host.finite (Host.ToNumber h) = NaN \/ Host.finite (Host.ToNumber m) = NaN ->
  Host.timeValue (Host.Date_of_fields zone y mo d h m) = F64.NaN.
Proof.
  intros H. unfold Host.timeValue, Host.Date_of_fields, getTime, MakeDate.
  rewrite (MakeTime_invalid _ _ _ _ H).
  rewrite add_NaN_r. reflexivity.
Qed.




(** Texts that [Number] converts although they are not plain decimals. *)
Example numbers_of_other_literals :
  Host.StringToNumber "1e1" = F64.Fin 10 /\
  Host.StringToNumber "0x10" = F64.Fin 16 /\
  Host.StringToNumber "-Infinity" = F64.Inf true /\
  Host.StringToNumber "12px" = F64.NaN /\
  Hosted.computeHoursFromTimes (fixed_zone 0) "1e1:30" "12:00"
  = Returned (F64.Fin (3 # 2)) /\
  Hosted.computeHoursFromTimes (fixed_zone 0) "Infinity:30" "12:00"
  = Returned F64.NaN.
Proof. repeat split; vm_compute; reflexivity. Qed.

(** *** Clock times on a host *)

Lemma Host_two_digits_number (n : Z) :
  (0 <= n < 100)%Z ->
  Host.StringToNumber (two_digits n) = F64.Fin (inject_Z n).
Proof.
  revert n. apply (below_100_cases 0). intros i Hi.
  do 100 (destruct i as [|i]; [vm_compute; reflexivity|]). lia.
Qed.

Lemma Host_clock_components (h m : Z) :
  (0 <= h < 100)%Z -> (0 <= m < 100)%Z ->
  parsed_components (clock h m) = [F64.Fin (inject_Z h); F64.Fin (inject_Z m)].
Proof.
  intros Hh Hm. unfold parsed_components.
  rewrite clock_parts by assumption.
  cbn [map]. unfold Host.Number, Host.ToNumber.
  rewrite !Host_two_digits_number by assumption. reflexivity.
Qed.

Lemma F64_ltb_Z (a b : Z) :
  F64.ltb (F64.Fin (inject_Z a)) (F64.Fin (inject_Z b)) = (a <? b)%Z.
Proof.
  cbn [F64.ltb F64.leb].
  destruct (Z.ltb_spec a b) as [H | H].
  - rewrite Qle_bool_of_lt; [reflexivity | rewrite <- Zlt_Qlt; exact H].
  - rewrite Qle_bool_of_le; [reflexivity | rewrite <- Zle_Qle; exact H].
Qed.

(** [new Date(0, 0, d, h, m)] in a zone: day [d] of January 1900 at [h:m]
    local time, moved to UTC by the offset the zone has at that local
    time. *)
Lemma Host_Date_of_fields_1900 (zone : Host.TimeZone) (d h m : Z) :
  (Z.abs d <= 366)%Z -> (Z.abs h <= 8784)%Z -> (Z.abs m <= 527040)%Z ->
  let l := local (d - 25568) h m in
  (Z.abs (Host.LocalTZA zone l false) <= msPerDay)%Z ->
  Host.Date_of_fields zone (Host.VNumber (F64.Fin 0)) (Host.VNumber (F64.Fin 0))
    (Host.VNumber (F64.Fin (inject_Z d))) (Host.VNumber (F64.Fin (inject_Z h)))
    (Host.VNumber (F64.Fin (inject_Z m)))
  = mkDate (of_Z (l - Host.LocalTZA zone l false)).
Proof.
  intros Hd Hh Hm l Ho.
  unfold Host.Date_of_fields, Host.ToNumber, Host.finite.
  change (trunc 0) with 0%Z. cbv iota beta zeta.
  change ((0 <=? 0)%Z && (0 <=? 99)%Z) with true. cbv iota.
  unfold MakeDay, MakeTime, of_Z.
  rewrite !trunc_inject_Z.
  change (trunc 0) with 0%Z.
  change (1900 + 0 + 0 / 12)%Z with 1900%Z.
  change (0 mod 12)%Z with 0%Z.
  change (DayFromYear 1900 + DaysBeforeMonth (InLeapYear 1900) 0)%Z
    with (-25567)%Z.
  unfold MakeDate, of_Z, add, mul, lift2.
  set (q := inject_Z (-25567 + d - 1) * inject_Z msPerDay
            + inject_Z (h * msPerHour + m * msPerMinute + 0 * msPerSecond + 0)).
  assert (Eq : q == inject_Z l).
  { subst q l. unfold local.
    rewrite <- !Z.add_opp_r.
    repeat (rewrite ?inject_Z_plus, ?inject_Z_mult, ?inject_Z_opp).
    unfold msPerDay, msPerHour, msPerMinute, msPerSecond.
    change (inject_Z (-25567)) with (-25567).
    change (inject_Z 25568) with 25568.
    change (inject_Z 1) with 1.
    change (inject_Z 0) with 0.
    change (inject_Z 86400000) with 86400000.
    change (inject_Z 3600000) with 3600000.
    change (inject_Z 60000) with 60000.
    change (inject_Z 1000) with 1000.
    ring. }
  unfold Host.UTC.
  assert (Ef : Qfloor q = l).
  { rewrite (Qfloor_comp _ _ Eq). apply Qfloor_Z. }
  rewrite Ef. f_equal. unfold sub, lift2, of_Z.
  apply TimeClip_integral.
  - rewrite Eq. rewrite <- Z.add_opp_r, inject_Z_plus, inject_Z_opp. reflexivity.
  - subst l. unfold local, msPerDay, msPerHour, msPerMinute in *. lia.
Qed.

Lemma hosted_hour_divisor :
  F64.mul (F64.mul (F64.round 1000) (F64.round 60)) (F64.round 60)
  = F64.Fin (inject_Z msPerHour).
Proof. vm_compute. reflexivity. Qed.

(** The difference of two time values of January 1900 is exact. *)
Lemma timeValue_difference (a b : Z) :
  (Z.abs a <= 2 ^ 52)%Z -> (Z.abs b <= 2 ^ 52)%Z ->
  F64.sub (Host.timeValue (mkDate (of_Z a))) (Host.timeValue (mkDate (of_Z b)))
  = F64.Fin (inject_Z (a - b)).
Proof.
  intros Ha Hb. unfold Host.timeValue, getTime, of_Z, Host.of_number.
  cbn [F64.sub].
  rewrite (round_comp _ (inject_Z (a - b))).
  - apply round_Z. lia.
  - rewrite <- Z.add_opp_r, inject_Z_plus, inject_Z_opp. reflexivity.
Qed.

(** A rounding that is zero is the zero [0 # 1]. *)
Lemma round_zero (x r : Q) : F64.round x = F64.Fin r -> r == 0 -> r = 0.
Proof.
  intros Hr E.
  assert (Hred : exists t : Q, r = Qred t).
  { destruct (round_cases x) as [[_ Hc] | [_ [[_ Hc] | [_ Hc]]]];
      rewrite Hr in Hc; try discriminate Hc;
      [exists (F64.nearest (Qabs x)) | exists (- F64.nearest (Qabs x))];
      congruence. }
  destruct Hred as (t & ->).
  change 0 with (Qred 0). apply Qred_complete.
  rewrite <- (Qred_correct t). exact E.
Qed.

(** What [computeHoursFromTimes] returns for two well-formed clock times in
    a zone: the local difference in hours less the change of the zone's
    offset between the two, rounded to binary64, and 0 when that is
    negative. *)
Lemma Host_computeHoursFromTimes_clock (zone : Host.TimeZone)
    (sh sm eh em : Z) :
  (0 <= sh < 24)%Z -> (0 <= sm < 60)%Z ->
  (0 <= eh < 24)%Z -> (0 <= em < 60)%Z ->
  let day := if (eh <? sh)%Z then 1%Z else 0%Z in
  let ls := local (-25568) sh sm in
  let le := local (day - 25568) eh em in
  let os := Host.LocalTZA zone ls false in
  let oe := Host.LocalTZA zone le false in
  (Z.abs os <= msPerDay)%Z -> (Z.abs oe <= msPerDay)%Z ->
  Hosted.computeHoursFromTimes zone (clock sh sm) (clock eh em)
  = Returned
      (F64.round
         (Qmax 0 (inject_Z ((le - oe) - (ls - os)) / inject_Z msPerHour))).
Proof.
  intros Hsh Hsm Heh Hem day ls le os oe Hos Hoe.
  unfold Hosted.computeHoursFromTimes.
  rewrite !clock_truthy. cbn [negb orb].
  fold (parsed_components (clock sh sm)) (parsed_components (clock eh em)).
  rewrite !Host_clock_components by lia.
  cbn [Host.index nth_error].
  unfold Host.lt_value. cbn [Host.ToNumber]. rewrite F64_ltb_Z. fold day.
  rewrite literal_0, literal_1, hosted_hour_divisor.
  assert (Hend :
    (if (eh <? sh)%Z
     then Host.Date_of_fields zone (Host.VNumber (F64.Fin 0))
            (Host.VNumber (F64.Fin 0)) (Host.VNumber (F64.Fin 1))
            (Host.VNumber (F64.Fin (inject_Z eh)))
            (Host.VNumber (F64.Fin (inject_Z em)))
     else Host.Date_of_fields zone (Host.VNumber (F64.Fin 0))
            (Host.VNumber (F64.Fin 0)) (Host.VNumber (F64.Fin 0))
            (Host.VNumber (F64.Fin (inject_Z eh)))
            (Host.VNumber (F64.Fin (inject_Z em))))
    = mkDate (of_Z (le - oe))).
  { subst le oe day. destruct (eh <? sh)%Z.
    - apply (Host_Date_of_fields_1900 zone 1 eh em); try lia; try exact Hoe.
    - apply (Host_Date_of_fields_1900 zone 0 eh em); try lia; try exact Hoe. }
  rewrite Hend.
  pose proof (Host_Date_of_fields_1900 zone 0 sh sm
                ltac:(lia) ltac:(lia) ltac:(lia) Hos) as Hstart.
  change (inject_Z 0) with 0 in Hstart. rewrite Hstart.
  change (local (0 - 25568) sh sm) with ls. fold os.
  assert (Bs : (Z.abs (ls - os) <= 2 ^ 52)%Z).
  { subst ls. unfold local, msPerDay, msPerHour, msPerMinute in *. lia. }
  assert (Be : (Z.abs (le - oe) <= 2 ^ 52)%Z).
  { subst le day. unfold local, msPerDay, msPerHour, msPerMinute in *.
    destruct (eh <? sh)%Z; lia. }
  rewrite (timeValue_difference _ _ Be Bs).
  set (delta := ((le - oe) - (ls - os))%Z).
  assert (Hdiv : F64.div (F64.Fin (inject_Z delta)) (F64.Fin (inject_Z msPerHour))
                 = F64.round (inject_Z delta / inject_Z msPerHour)).
  { reflexivity. }
  rewrite Hdiv.
  set (x := inject_Z delta / inject_Z msPerHour).
  f_equal.
  destruct (Q.max_spec 0 x) as [[Hlt Emax] | [Hle Emax]].
  - (* the difference is positive *)
    rewrite (round_comp _ _ Emax).
    pose proof (round_mono 0 x ltac:(lra)) as Hm. rewrite round_0 in Hm.
    destruct (F64.round x) as [|s|r] eqn:Er.
    + discriminate Hm.
    + destruct s; [discriminate Hm | reflexivity].
    + cbn [F64.ltb F64.leb]. unfold F64.le in Hm. cbn [F64.leb] in Hm.
      rewrite Hm. reflexivity.
  - (* the difference is negative or zero *)
    rewrite (round_comp _ _ Emax). rewrite round_0.
    pose proof (round_mono x 0 Hle) as Hm. rewrite round_0 in Hm.
    destruct (F64.round x) as [|s|r] eqn:Er.
    + discriminate Hm.
    + destruct s; [reflexivity | discriminate Hm].
    + cbn [F64.ltb F64.leb]. unfold F64.le in Hm. cbn [F64.leb] in Hm.
      apply Qle_bool_true in Hm.
      destruct (Qle_bool 0 r) eqn:E0; cbn [negb]; [|reflexivity].
      apply Qle_bool_true in E0.
      assert (Er0 : r == 0) by lra.
      f_equal. apply (round_zero x r Er Er0).
Qed.




(** *** Adding hours to a clock time in a zone *)

Lemma Host_parseInt_two_digits (n : Z) :
  (0 <= n < 100)%Z ->
  Host.parseInt (Some (two_digits n)) = F64.Fin (inject_Z n).
Proof.
  revert n. apply (below_100_cases 0). intros i Hi.
  do 100 (destruct i as [|i]; [vm_compute; reflexivity|]). lia.
Qed.

Lemma Host_padded_two_digits (n : Z) :
  (0 <= n < 100)%Z ->
  padStart0 2 (Host.toString (F64.Fin (inject_Z n))) = two_digits n.
Proof. intros Hn. apply (padded_two_digits n Hn). Qed.

Lemma Host_getHours_of_Z (zone : Host.TimeZone) (T : Z) :
  Host.getHours zone (mkDate (of_Z T))
  = F64.Fin (inject_Z (((T + Host.LocalTZA zone T true) / msPerHour) mod 24)).
Proof.
  unfold Host.getHours, Host.LocalTime, getTime, of_Z. rewrite Qfloor_Z.
  reflexivity.
Qed.

Lemma Host_getMinutes_of_Z (zone : Host.TimeZone) (T : Z) :
  Host.getMinutes zone (mkDate (of_Z T))
  = F64.Fin (inject_Z (((T + Host.LocalTZA zone T true) / msPerMinute) mod 60)).
Proof.
  unfold Host.getMinutes, Host.LocalTime, getTime, of_Z. rewrite Qfloor_Z.
  reflexivity.
Qed.

(** The sum of two small integers is exact. *)
Lemma F64_add_Z (a b : Z) :
  (Z.abs a <= 2 ^ 52)%Z -> (Z.abs b <= 2 ^ 52)%Z ->
  F64.add (F64.Fin (inject_Z a)) (F64.Fin (inject_Z b))
  = F64.Fin (inject_Z (a + b)).
Proof.
  intros Ha Hb. cbn [F64.add].
  rewrite (round_comp _ (inject_Z (a + b)))
    by (rewrite inject_Z_plus; reflexivity).
  apply round_Z. lia.
Qed.

(** [setHours] on a date that shows the local time [H:M] of day [D]: the
    local time becomes [(H + K) mod 24 : M], whole days going to the day,
    and is moved to UTC by the offset the zone has there. *)
Lemma Host_setHours_local (zone : Host.TimeZone) (D H M K : Z) :
  (0 <= H < 24)%Z -> (0 <= M < 60)%Z ->
  (Z.abs D <= 30000)%Z -> (Z.abs K <= 1000000)%Z ->
  let l := local D H M in
  let l' := local (D + (H + K) / 24) ((H + K) mod 24) M in
  occurs zone l ->
  (Z.abs (Host.LocalTZA zone l' false) <= msPerDay)%Z ->
  Host.setHours zone (mkDate (of_Z (l - Host.LocalTZA zone l false)))
                (F64.Fin (inject_Z (H + K)))
  = mkDate (of_Z (l' - Host.LocalTZA zone l' false)).
Proof.
  intros HH HM HD HK l l' Hocc Ho'.
  unfold Host.setHours, Host.LocalTime, getTime, of_Z. rewrite Qfloor_Z.
  unfold occurs in Hocc. fold l in Hocc. rewrite Hocc.
  replace (l - Host.LocalTZA zone l false + Host.LocalTZA zone l false)%Z
    with l by lia.
  subst l.
  destruct (local_fields 0 D H M HH HM) as (-> & _ & -> & -> & ->).
  f_equal. unfold MakeTime, Host.finite, of_Z.
  rewrite !trunc_inject_Z.
  unfold MakeDate, of_Z, add, mul, lift2.
  set (q := inject_Z D * inject_Z msPerDay
            + inject_Z ((H + K) * msPerHour + M * msPerMinute
                        + 0 * msPerSecond + 0)).
  assert (Eq : q == inject_Z l').
  { subst q l'. unfold local.
    rewrite <- ?Z.add_opp_r.
    repeat (rewrite ?inject_Z_plus, ?inject_Z_mult, ?inject_Z_opp).
    assert (E : inject_Z (H + K)
                == inject_Z ((H + K) / 24) * 24 + inject_Z ((H + K) mod 24)).
    { change 24 with (inject_Z 24).
      rewrite <- inject_Z_mult, <- inject_Z_plus.
      rewrite (Z.div_mod (H + K) 24) at 1 by lia.
      rewrite (Z.mul_comm 24). reflexivity. }
    rewrite inject_Z_plus in E.
    unfold msPerDay, msPerHour, msPerMinute, msPerSecond.
    change (inject_Z 0) with 0.
    change (inject_Z 86400000) with 86400000.
    change (inject_Z 3600000) with 3600000.
    change (inject_Z 60000) with 60000.
    change (inject_Z 1000) with 1000.
    generalize dependent (inject_Z ((H + K) / 24)).
    generalize dependent (inject_Z ((H + K) mod 24)).
    intros. lra. }
  unfold Host.UTC.
  assert (Ef : Qfloor q = l').
  { rewrite (Qfloor_comp _ _ Eq). apply Qfloor_Z. }
  rewrite Ef. unfold sub, lift2, of_Z.
  apply TimeClip_integral.
  - rewrite Eq. rewrite <- Z.add_opp_r, inject_Z_plus, inject_Z_opp. reflexivity.
  - subst l'. unfold local, msPerDay, msPerHour, msPerMinute in *.
    Z.div_mod_to_equations. lia.
Qed.

Lemma Host_addHours_clock (zone : Host.TimeZone) (h m k : Z) :
  (0 <= h < 24)%Z -> (0 <= m < 60)%Z -> (Z.abs k <= 1000000)%Z ->
  let l := local (-25568) h m in
  let l' := local (-25568 + (h + k) / 24) ((h + k) mod 24) m in
  (Z.abs (Host.LocalTZA zone l false) <= msPerDay)%Z ->
  (Z.abs (Host.LocalTZA zone l' false) <= msPerDay)%Z ->
  occurs zone l -> occurs zone l' ->
  Hosted.addHours zone (clock h m) (F64.Fin (inject_Z k))
  = clock ((h + k) mod 24) m.
Proof.
  intros Hh Hm Hk l l' Ho Ho' Hocc Hocc'. unfold Hosted.addHours.
  rewrite clock_parts by lia. cbn [nth_error].
  rewrite !Host_parseInt_two_digits by lia. rewrite literal_0.
  pose proof (Host_Date_of_fields_1900 zone 0 h m
                ltac:(lia) ltac:(lia) ltac:(lia) Ho) as Hstart.
  change (inject_Z 0) with 0 in Hstart. rewrite Hstart.
  change (local (0 - 25568) h m) with l.
  rewrite Host_getHours_of_Z.
  pose proof Hocc as Hocc0. unfold occurs in Hocc0. rewrite Hocc0.
  replace (l - Host.LocalTZA zone l false + Host.LocalTZA zone l false)%Z
    with l by lia.
  destruct (local_fields 0 (-25568) h m Hh Hm) as (_ & Hl & _).
  fold l in Hl. rewrite Hl.
  rewrite F64_add_Z by lia.
  pose proof (Host_setHours_local zone (-25568) h m k
                Hh Hm ltac:(lia) Hk Hocc Ho') as Hset.
  cbv zeta in Hset. fold l l' in Hset. rewrite Hset.
  rewrite Host_getHours_of_Z, Host_getMinutes_of_Z.
  pose proof Hocc' as Hocc1. unfold occurs in Hocc1. rewrite Hocc1.
  replace (l' - Host.LocalTZA zone l' false + Host.LocalTZA zone l' false)%Z
    with l' by lia.
  set (D := (-25568 + (h + k) / 24)%Z) in *.
  set (H := ((h + k) mod 24)%Z) in *.
  assert (HH : (0 <= H < 24)%Z) by (subst H; apply Z.mod_pos_bound; lia).
  destruct (local_fields 0 D H m HH Hm) as (_ & Hl1 & Hl2 & _).
  fold l' in Hl1, Hl2. rewrite Hl1, Hl2.
  rewrite !Host_padded_two_digits by lia. reflexivity.
Qed.

Lemma fixed_zone_occurs (tza l : Z) : occurs (fixed_zone tza) l.
Proof. reflexivity. Qed.

(** X10.  For a well-formed clock time [h:m] and a whole number [k] of
    hours, negative or not, [addHours] returns the well-formed time
    [(h + k) mod 24 : m], the minutes kept and whole days dropped, provided
    the local time it starts from on 31 December 1899 and the local time it
    arrives at occur in the time zone.  In a zone all of whose local times
    occur, adding 24 hours more changes nothing, and adding [k] and then
    [-k] gives the time back. *)
Theorem addHours_wraps_at_24 (zone : Host.TimeZone) (h m k : Z) :
  (0 <= h < 24)%Z -> (0 <= m < 60)%Z -> (Z.abs k <= 100000)%Z ->
  within_a_day zone ->
  (occurs zone (local (-25568) h m) ->
   occurs zone (local (-25568 + (h + k) / 24) ((h + k) mod 24) m) ->
   Hosted.addHours zone (clock h m) (F64.Fin (inject_Z k))
   = clock ((h + k) mod 24) m) /\
  ((forall l : Z, occurs zone l) ->
   Hosted.addHours zone (clock h m) (F64.Fin (inject_Z (k + 24)))
   = Hosted.addHours zone (clock h m) (F64.Fin (inject_Z k)) /\
   Hosted.addHours zone
     (Hosted.addHours zone (clock h m) (F64.Fin (inject_Z k)))
     (F64.Fin (inject_Z (- k)))
   = clock h m).
Proof.
  intros Hh Hm Hk Hday.
  assert (HH : (0 <= (h + k) mod 24 < 24)%Z) by (apply Z.mod_pos_bound; lia).
  split.
  - intros Hocc Hocc'.
    apply Host_addHours_clock; try assumption; try lia; apply Hday.
  - intros Hall.
    rewrite !(Host_addHours_clock zone h m)
      by (try assumption; try lia; try apply Hday; apply Hall).
    rewrite (Host_addHours_clock zone ((h + k) mod 24) m)
      by (try assumption; try lia; try apply Hday; apply Hall).
    split; f_equal.
    + Z.div_mod_to_equations. lia.
    + Z.div_mod_to_equations. lia.
Qed.

Lemma addHours_wraps_at_24_witness :
  Hosted.addHours (fixed_zone 7200000) "21:45" (F64.Fin 8) = "05:45"%string.
Proof.
  assert (Hday : within_a_day (fixed_zone 7200000)).
  { intros t b. cbn. unfold msPerDay. lia. }
  apply (addHours_wraps_at_24 (fixed_zone 7200000) 21 45 8
           ltac:(lia) ltac:(lia) ltac:(lia) Hday);
    apply fixed_zone_occurs.
Defined.

(** X11.  The sign-out time that [addHours] proposes [k] hours after a
    well-formed sign-in time, for [0 <= k <= 23], is measured by
    [computeHoursFromTimes] as exactly [k] hours, across midnight too,
    provided both local times occur in the time zone and the zone has the
    same offset at both. *)
Theorem computeHoursFromTimes_after_addHours (zone : Host.TimeZone)
    (h m k : Z) :
  (0 <= h < 24)%Z -> (0 <= m < 60)%Z -> (0 <= k < 24)%Z ->
  within_a_day zone ->
  let l := local (-25568) h m in
  let l' := local (-25568 + (h + k) / 24) ((h + k) mod 24) m in
  occurs zone l -> occurs zone l' ->
  Host.LocalTZA zone l false = Host.LocalTZA zone l' false ->
  Hosted.computeHoursFromTimes zone (clock h m)
    (Hosted.addHours zone (clock h m) (F64.Fin (inject_Z k)))
  = Returned (F64.Fin (inject_Z k)).
Proof.
  intros Hh Hm Hk Hday l l' Hocc Hocc' Hsame.
  assert (HH : (0 <= (h + k) mod 24 < 24)%Z) by (apply Z.mod_pos_bound; lia).
  rewrite (Host_addHours_clock zone h m k)
    by (try assumption; try lia; apply Hday).
  rewrite (Host_computeHoursFromTimes_clock zone h m ((h + k) mod 24) m)
    by (try assumption; apply Hday).
  cbv zeta. fold l.
  assert (Hend :
    local ((if ((h + k) mod 24 <? h)%Z then 1 else 0) - 25568)
          ((h + k) mod 24) m = l').
  { subst l'. f_equal.
    destruct (Z.ltb_spec ((h + k) mod 24) h); Z.div_mod_to_equations; lia. }
  rewrite Hend, <- Hsame.
  f_equal.
  assert (Hdelta :
    (l' - Host.LocalTZA zone l false - (l - Host.LocalTZA zone l false))%Z
    = (k * msPerHour)%Z).
  { subst l l'. unfold local, msPerDay, msPerHour, msPerMinute.
    Z.div_mod_to_equations. lia. }
  rewrite Hdelta.
  assert (Hk0 : 0 <= inject_Z k)
    by (change 0 with (inject_Z 0); rewrite <- Zle_Qle; lia).
  rewrite (round_comp _ (inject_Z k)).
  - apply round_Z. lia.
  - rewrite Q.max_r.
    + rewrite inject_Z_mult. field. discriminate.
    + rewrite inject_Z_mult. unfold Qdiv. rewrite <- Qmult_assoc.
      assert (E : inject_Z msPerHour * / inject_Z msPerHour == 1)
        by (vm_compute; reflexivity).
      rewrite E. lra.
Qed.

Lemma computeHoursFromTimes_after_addHours_witness :
  Hosted.computeHoursFromTimes (fixed_zone 7200000) "21:45"
    (Hosted.addHours (fixed_zone 7200000) "21:45" (F64.Fin 8))
  = Returned (F64.Fin 8).
Proof.
  assert (Hday : within_a_day (fixed_zone 7200000)).
  { intros t b. cbn. unfold msPerDay. lia. }
  apply (computeHoursFromTimes_after_addHours (fixed_zone 7200000) 21 45 8
           ltac:(lia) ltac:(lia) ltac:(lia) Hday).
  - apply fixed_zone_occurs.
  - apply fixed_zone_occurs.
  - reflexivity.
Defined.

(* ================================================================= *)
(** ** App.tsx on a host: keys, submissions and averages *)

(** *** The key of a date in a zone *)

(** The key of a valid date, written with its year, month and day. *)
Lemma Host_dateString_valid (zone : Host.TimeZone) (date : Date) (t : Q) :
  getTime date = Fin t ->
  let D := (Host.LocalTime zone t / msPerDay)%Z in
  Hosted.dateString zone date
  = (toString (of_Z (YearFromDay D)) ++ "-"
     ++ two_digits (MonthFromDay D + 1) ++ "-"
     ++ two_digits (DateFromDay D))%string.
Proof.
  intros Ht D.
  unfold Hosted.dateString, Host.getFullYear, Host.getMonth, Host.getDate.
  rewrite Ht. fold D.
  pose proof (MonthFromDay_range D). pose proof (DateFromDay_range D).
  rewrite literal_1.
  change (F64.Fin 1) with (F64.Fin (inject_Z 1)).
  rewrite F64_add_Z by lia.
  rewrite !Host_padded_two_digits by lia. reflexivity.
Qed.

(** The key of a valid date in the years 1000 to 9999, read back as
    [calculateAverage] reads it, is local midnight of the same day, moved
    to UTC by the offset the zone has there. *)
Lemma Host_dateString_read_back (zone : Host.TimeZone) (date : Date) (t : Q) :
  within_a_day zone ->
  getTime date = Fin t ->
  let D := (Host.LocalTime zone t / msPerDay)%Z in
  (1000 <= YearFromDay D <= 9999)%Z ->
  Host.Date_of_string zone (Hosted.dateString zone date ++ "T00:00:00")
  = mkDate (of_Z (D * msPerDay
                  - Host.LocalTZA zone (D * msPerDay) false)).
Proof.
  intros Hday Ht D HY.
  pose proof (MonthFromDay_range D) as HM.
  pose proof (DateFromDay_range D) as HD.
  pose proof (day_bounds D HY) as HB.
  rewrite (Host_dateString_valid zone date t Ht). fold D.
  unfold Host.Date_of_string.
  rewrite key_fields by lia.
  f_equal.
  unfold MakeDay, MakeTime, of_Z. rewrite !trunc_inject_Z.
  change (trunc 0) with 0%Z.
  replace (MonthFromDay D + 1 - 1)%Z with (MonthFromDay D) by lia.
  replace (MonthFromDay D / 12)%Z with 0%Z by (symmetry; apply Z.div_small; lia).
  replace (MonthFromDay D mod 12)%Z with (MonthFromDay D)
    by (symmetry; apply Z.mod_small; lia).
  replace (YearFromDay D + 0)%Z with (YearFromDay D) by lia.
  rewrite day_of_fields.
  unfold MakeDate, of_Z, add, mul, lift2.
  set (q := inject_Z D * inject_Z msPerDay
            + inject_Z (0 * msPerHour + 0 * msPerMinute + 0 * msPerSecond + 0)).
  assert (Eq : q == inject_Z (D * msPerDay)).
  { subst q. rewrite inject_Z_mult. change (inject_Z _) with 0 at 3. ring. }
  unfold Host.UTC.
  assert (Ef : Qfloor q = (D * msPerDay)%Z).
  { rewrite (Qfloor_comp _ _ Eq). apply Qfloor_Z. }
  rewrite Ef. unfold sub, lift2, of_Z.
  apply TimeClip_integral.
  - rewrite Eq. rewrite <- Z.add_opp_r, inject_Z_plus, inject_Z_opp. reflexivity.
  - pose proof (Hday (D * msPerDay)%Z false). unfold msPerDay in *. lia.
Qed.

(** X15.  The key built for a valid date in the years 1000 to 9999, with
    ["T00:00:00"] appended as [calculateAverage] does, is read back as
    local midnight of the same day, provided that midnight occurs in the
    time zone: year, month and day of the month are those of the date, the
    hour and minute are 0, and the key of the date read back is the same
    key.  The key of an invalid date is ["NaN-NaN-NaN"]. *)
Theorem dateString_round_trip (zone : Host.TimeZone) (date : Date) (t : Q)
    (y : Z) :
  within_a_day zone ->
  getTime date = Fin t ->
  Host.getFullYear zone date = F64.Fin (inject_Z y) -> (1000 <= y <= 9999)%Z ->
  occurs zone (Host.LocalTime zone t / msPerDay * msPerDay) ->
  let back :=
    Host.Date_of_string zone (Hosted.dateString zone date ++ "T00:00:00") in
  Host.getFullYear zone back = Host.getFullYear zone date /\
  Host.getMonth zone back = Host.getMonth zone date /\
  Host.getDate zone back = Host.getDate zone date /\
  Host.getHours zone back = F64.Fin 0 /\
  Host.getMinutes zone back = F64.Fin 0 /\
  Hosted.dateString zone back = Hosted.dateString zone date /\
  Hosted.dateString zone (mkDate NaN) = "NaN-NaN-NaN"%string.
Proof.
  intros Hday Ht Hy Hr Hocc back.
  set (D := (Host.LocalTime zone t / msPerDay)%Z) in *.
  assert (HY : (1000 <= YearFromDay D <= 9999)%Z).
  { unfold Host.getFullYear in Hy. rewrite Ht in Hy. fold D in Hy.
    injection Hy as Hy. rewrite Hy. exact Hr. }
  assert (Hback : back
    = mkDate (of_Z (D * msPerDay - Host.LocalTZA zone (D * msPerDay) false)))
    by (apply Host_dateString_read_back; assumption).
  set (o := Host.LocalTZA zone (D * msPerDay) false) in *.
  assert (Hlocal : Host.LocalTime zone (inject_Z (D * msPerDay - o))
                   = (D * msPerDay)%Z).
  { unfold Host.LocalTime. rewrite Qfloor_Z.
    unfold occurs in Hocc. fold o in Hocc. rewrite Hocc. lia. }
  assert (HD : (D * msPerDay / msPerDay = D)%Z)
    by (apply Z.div_mul; unfold msPerDay; lia).
  assert (Hfields :
    Host.getFullYear zone back = Host.getFullYear zone date /\
    Host.getMonth zone back = Host.getMonth zone date /\
    Host.getDate zone back = Host.getDate zone date).
  { rewrite Hback. unfold Host.getFullYear, Host.getMonth, Host.getDate.
    rewrite Ht. cbn [getTime of_Z]. rewrite Hlocal, HD. fold D.
    repeat split. }
  destruct Hfields as (HfY & HfM & HfD).
  repeat split; try assumption.
  - rewrite Hback. unfold Host.getHours. cbn [getTime of_Z]. rewrite Hlocal.
    unfold msPerDay, msPerHour.
    replace (D * 86400000 / 3600000)%Z with (D * 24)%Z
      by (Z.div_mod_to_equations; lia).
    rewrite Z.mod_mul by lia. reflexivity.
  - rewrite Hback. unfold Host.getMinutes. cbn [getTime of_Z]. rewrite Hlocal.
    unfold msPerDay, msPerMinute.
    replace (D * 86400000 / 60000)%Z with ((D * 24) * 60)%Z
      by (Z.div_mod_to_equations; lia).
    rewrite Z.mod_mul by lia. reflexivity.
  - unfold Hosted.dateString. rewrite HfY, HfM, HfD. reflexivity.
Qed.

Lemma dateString_round_trip_witness :
  let zone := fixed_zone 7200000 in
  let date := Host.Date_of_string zone "2024-02-29T23:30:00" in
  let back :=
    Host.Date_of_string zone (Hosted.dateString zone date ++ "T00:00:00") in
  Host.getDate zone back = Host.getDate zone date /\
  Host.getHours zone back = F64.Fin 0 /\
  Hosted.dateString zone back = Hosted.dateString zone date.
Proof.
  set (zone := fixed_zone 7200000).
  set (date := Host.Date_of_string zone "2024-02-29T23:30:00").
  assert (Hday : within_a_day zone).
  { intros t b. cbn. unfold msPerDay. lia. }
  assert (Ht : getTime date = Fin (inject_Z 1709242200000))
    by (vm_compute; reflexivity).
  assert (Hy : Host.getFullYear zone date = F64.Fin (inject_Z 2024))
    by (vm_compute; reflexivity).
  destruct (dateString_round_trip zone date _ 2024 Hday Ht Hy
              ltac:(lia) (fixed_zone_occurs _ _))
    as (_ & _ & Hd & Hh & _ & Hk & _).
  split; [exact Hd|]. split; [exact Hh | exact Hk].
Defined.

(** A day whose local midnight does not occur: with the offsets of
    Europe/Helsinki, where the clocks went from 00:00 to 00:20:11 on 1 May
    1921, the key of that day is read back as 00:20 of the same day. *)
Example midnight_that_does_not_occur :
  let back := Host.Date_of_string Helsinki "1921-05-01T00:00:00" in
  Host.getHours Helsinki back = F64.Fin 0 /\
  Host.getMinutes Helsinki back = F64.Fin 20 /\
  Hosted.dateString Helsinki back = "1921-05-01"%string.
Proof. repeat split; vm_compute; reflexivity. Qed.

(** *** Submitting on a host *)

(** The hours the two handlers accept. *)
Lemma hours_test (lo : Q) (h : F64.t) :
  F64.isNaN h || F64.ltb h (F64.Fin lo) || F64.ltb (F64.Fin 16) h = false
  <-> exists x : Q, h = F64.Fin x /\ lo <= x /\ x <= 16.
Proof.
  destruct h as [|s|x]; cbn [F64.isNaN F64.ltb F64.leb orb].
  - split; [discriminate | intros (x & Hx & _); discriminate Hx].
  - split; [destruct s; discriminate | intros (x & Hx & _); discriminate Hx].
  - split.
    + intros H. apply orb_false_iff in H. destruct H as [H1 H2].
      apply negb_false_iff in H1, H2.
      exists x. split; [reflexivity|]. split; apply Qle_bool_true; assumption.
    + intros (x' & Hx & Hlo & Hhi). injection Hx as <-.
      rewrite (Qle_bool_of_le lo x Hlo), (Qle_bool_of_le x 16 Hhi). reflexivity.
Qed.

(** With a performance that is a number and finite hours from 0 to 16,
    [handleFormSubmit] goes on to the store without an alert. *)
Lemma Host_handleFormSubmit_valid (zone : Host.TimeZone)
    (st : Hosted.AppState) (p : F64.t) (h : Q) :
  Host.parseFloat (performance_text (Hosted.formData st)) = p ->
  p <> F64.NaN ->
  Host.parseFloat (hours_text (Hosted.formData st)) = F64.Fin h ->
  0 <= h -> h <= 16 ->
  Hosted.handleFormSubmit zone st =
  (newData <- Hosted.store_entry (Hosted.data st)
                (Hosted.dateString zone (Hosted.date st))
                (trukki (Hosted.formData st))
                (Hosted.DateData_object
                   (Hosted.mkDateData p (F64.Fin h)
                      (overtime_checked (Hosted.formData st))
                      (freeDay_checked (Hosted.formData st)))) ;;
   Returned ([], Hosted.mkAppState (Hosted.date st) newData (Hosted.period st)
                   false initialFormData)).
Proof.
  intros Hp Hnan Hh Hlo Hhi.
  unfold Hosted.handleFormSubmit. cbv zeta. rewrite Hp, Hh.
  rewrite literal_0, literal_16.
  assert (Ep : F64.isNaN p = false) by (destruct p; [contradiction | | ]; reflexivity).
  rewrite Ep.
  assert (Eh : F64.isNaN (F64.Fin h) || F64.ltb (F64.Fin h) (F64.Fin 0)
               || F64.ltb (F64.Fin 16) (F64.Fin h) = false).
  { apply hours_test. exists h. repeat split; assumption. }
  rewrite Eh. reflexivity.
Qed.

(** X18.  [handleFormSubmit] leaves the state as it is and shows exactly
    one alert when the performance text holds no number, and also when it
    does but the hours text holds no number, an infinity, or a number below
    0 or above 16.  A performance of [Infinity] counts as a number. *)
Theorem handleFormSubmit_rejects (zone : Host.TimeZone)
    (st : Hosted.AppState) :
  let f := Hosted.formData st in
  (Host.parseFloat (performance_text f) = F64.NaN ->
   Hosted.handleFormSubmit zone st
   = Returned (["Lisää suorite esim. 7.25"%string], st)) /\
  (Host.parseFloat (performance_text f) <> F64.NaN ->
   Host.parseFloat (hours_text f) = F64.NaN \/
   (exists s : bool, Host.parseFloat (hours_text f) = F64.Inf s) \/
   (exists h : Q,
       Host.parseFloat (hours_text f) = F64.Fin h /\ (h < 0 \/ 16 < h)) ->
   Hosted.handleFormSubmit zone st
   = Returned (["Lisää aika väliltä 0-16"%string], st)) /\
  Host.parseFloat "Infinity" = F64.Inf false.
Proof.
  intros f. split; [|split; [|reflexivity]].
  - intros Hp. unfold Hosted.handleFormSubmit. cbv zeta. fold f.
    rewrite Hp. reflexivity.
  - intros Hp Hh. unfold Hosted.handleFormSubmit. cbv zeta. fold f.
    assert (Ep : F64.isNaN (Host.parseFloat (performance_text f)) = false).
    { destruct (Host.parseFloat (performance_text f));
        [contradiction | | ]; reflexivity. }
    rewrite Ep, literal_0, literal_16.
    assert (Eh : F64.isNaN (Host.parseFloat (hours_text f))
                 || F64.ltb (Host.parseFloat (hours_text f)) (F64.Fin 0)
                 || F64.ltb (F64.Fin 16) (Host.parseFloat (hours_text f))
                 = true).
    { destruct (F64.isNaN (Host.parseFloat (hours_text f))
                || F64.ltb (Host.parseFloat (hours_text f)) (F64.Fin 0)
                || F64.ltb (F64.Fin 16) (Host.parseFloat (hours_text f)))
        eqn:E; [reflexivity|].
      apply hours_test in E. destruct E as (x & Hx & Hlo & Hhi).
      destruct Hh as [Hh | [(s & Hh) | (h & Hh & Hbad)]];
        rewrite Hh in Hx; try discriminate Hx.
      injection Hx as ->. destruct Hbad; lra. }
    rewrite Eh. reflexivity.
Qed.

Lemma handleFormSubmit_rejects_witness :
  let st :=
    Hosted.mkAppState (Host.Date_of_string (fixed_zone 0) "2024-02-29T12:00:00")
      [] "Jakso 2" true (mkFormData "7.5" "16.5" false false "" "" false) in
  Hosted.handleFormSubmit (fixed_zone 0) st
  = Returned (["Lisää aika väliltä 0-16"%string], st).
Proof.
  set (st := Hosted.mkAppState _ _ _ _ _).
  apply (handleFormSubmit_rejects (fixed_zone 0) st).
  - discriminate.
  - right. right. exists (33 # 2). split; [vm_compute; reflexivity|].
    right. reflexivity.
Defined.

(** Texts that the handlers accept: [Infinity] as a performance, and hours
    whose nearest binary64 value is 16 or 1. *)
Example accepted_texts :
  let st :=
    Hosted.mkAppState (Host.Date_of_string (fixed_zone 0) "2024-02-29T12:00:00")
      [] "Jakso 2" true
      (mkFormData "Infinity" "16.00000000000000000001" false false "" ""
                  false) in
  Hosted.handleFormSubmit (fixed_zone 0) st
  = Returned
      ([], Hosted.mkAppState (Hosted.date st)
             [("2024-02-29"%string,
               Host.VObject
                 [("normal"%string,
                   Hosted.DateData_object
                     (Hosted.mkDateData (F64.Inf false) (F64.Fin 16)
                                        false false))])]
             "Jakso 2" false initialFormData) /\
  forwarded
    (Hosted.handleSubmit
       (mkFormData "Infinity" "0.99999999999999999999" false false "" ""
                   false)) = true.
Proof. split; vm_compute; reflexivity. Qed.

Lemma Host_handleSubmit_cases (f : FormData) :
  let egg :=
    if F64.ltb (F64.abs (F64.sub (Host.parseFloat (performance_text f))
                                 (F64.round 5.02)))
               (F64.round 0.001)
    then ["Miro on botti"%string] else [] in
  (Host.parseFloat (performance_text f) = F64.NaN /\
   Hosted.handleSubmit f
   = mkSubmission ["Lisää suorite esim. 7.25"%string] false)
  \/
  (Host.parseFloat (performance_text f) <> F64.NaN /\
   ~ (exists h : Q,
         Host.parseFloat (hours_text f) = F64.Fin h /\ 1 <= h /\ h <= 16) /\
   Hosted.handleSubmit f
   = mkSubmission (egg ++ ["Työaika voi olla enintään 16 tuntia."%string])
                  false)
  \/
  (exists h : Q,
      Host.parseFloat (performance_text f) <> F64.NaN /\
      Host.parseFloat (hours_text f) = F64.Fin h /\ 1 <= h /\ h <= 16 /\
      Hosted.handleSubmit f = mkSubmission egg true).
Proof.
  intros egg. subst egg. unfold Hosted.handleSubmit.
  rewrite literal_1, literal_16.
  destruct (Host.parseFloat (performance_text f)) as [|s|p] eqn:Hp.
  - left. split; reflexivity.
  - right. cbn [F64.isNaN].
    destruct (F64.isNaN (Host.parseFloat (hours_text f))
              || F64.ltb (Host.parseFloat (hours_text f)) (F64.Fin 1)
              || F64.ltb (F64.Fin 16) (Host.parseFloat (hours_text f))) eqn:E.
    + left. split; [discriminate|]. split; [|reflexivity].
      intros Hex. apply hours_test in Hex. congruence.
    + right. apply hours_test in E. destruct E as (h & Hh & H1 & H16).
      exists h. split; [discriminate|]. repeat split; assumption.
  - right. cbn [F64.isNaN].
    destruct (F64.isNaN (Host.parseFloat (hours_text f))
              || F64.ltb (Host.parseFloat (hours_text f)) (F64.Fin 1)
              || F64.ltb (F64.Fin 16) (Host.parseFloat (hours_text f))) eqn:E.
    + left. split; [discriminate|]. split; [|reflexivity].
      intros Hex. apply hours_test in Hex. congruence.
    + right. apply hours_test in E. destruct E as (h & Hh & H1 & H16).
      exists h. split; [discriminate|]. repeat split; assumption.
Qed.

(** X20.  The modal forwards a submission exactly when the performance
    text holds a number, which may be an infinity, and the hours text a
    finite number from 1 to 16.  What it does not forward changes no state
    and shows one validation alert; what it forwards passes the checks of
    [handleFormSubmit] as well, so the alerts of [handleFormSubmit] are
    never shown on this path and the entry goes to the store with its
    hours between 1 and 16. *)
Theorem submit_through_modal (zone : Host.TimeZone) (st : Hosted.AppState) :
  let f := Hosted.formData st in
  (forwarded (Hosted.handleSubmit f) = true
   <-> Host.parseFloat (performance_text f) <> F64.NaN /\
       exists h : Q,
         Host.parseFloat (hours_text f) = F64.Fin h /\ 1 <= h /\ h <= 16) /\
  (forwarded (Hosted.handleSubmit f) = false ->
   Hosted.submit zone st = Returned (alerts (Hosted.handleSubmit f), st) /\
   exists (egg : list string) (message : string),
     alerts (Hosted.handleSubmit f) = (egg ++ [message])%list) /\
  (forall h : Q,
      Host.parseFloat (hours_text f) = F64.Fin h ->
      forwarded (Hosted.handleSubmit f) = true ->
      1 <= h /\ h <= 16 /\
      Hosted.submit zone st =
      (newData <- Hosted.store_entry (Hosted.data st)
                    (Hosted.dateString zone (Hosted.date st)) (trukki f)
                    (Hosted.DateData_object
                       (Hosted.mkDateData
                          (Host.parseFloat (performance_text f)) (F64.Fin h)
                          (overtime_checked f) (freeDay_checked f))) ;;
       Returned (alerts (Hosted.handleSubmit f),
                 Hosted.mkAppState (Hosted.date st) newData (Hosted.period st)
                                   false initialFormData))).
Proof.
  intros f.
  pose proof (Host_handleSubmit_cases f) as Hcases. cbv zeta in Hcases.
  split; [|split].
  - destruct Hcases as [[Hp Hs] | [(Hp & Hh & Hs) | (h & Hp & Hh & H1 & H16 & Hs)]];
      rewrite Hs; cbn [forwarded].
    + split; [discriminate|]. intros (Hp' & _). contradiction.
    + split; [discriminate|]. intros (_ & Hex). contradiction.
    + split; [|reflexivity]. intros _. split; [exact Hp|].
      exists h. repeat split; assumption.
  - intros Hnot. unfold Hosted.submit. fold f. rewrite Hnot.
    split; [reflexivity|].
    destruct Hcases as [[Hp Hs] | [(Hp & Hh & Hs) | (h & Hp & Hh & H1 & H16 & Hs)]];
      rewrite Hs in Hnot |- *; cbn [alerts forwarded] in *.
    + exists [], "Lisää suorite esim. 7.25"%string. reflexivity.
    + eexists _, _. reflexivity.
    + discriminate Hnot.
  - intros h Hh Hfw.
    destruct Hcases as [[Hp' Hs] | [(Hp' & Hh' & Hs) | (h' & Hp' & Hh' & H1 & H16 & Hs)]];
      rewrite Hs in Hfw; cbn [forwarded] in Hfw; try discriminate Hfw.
    fold f in Hp', Hh'.
    rewrite Hh in Hh'. injection Hh' as <-.
    split; [exact H1|]. split; [exact H16|].
    unfold Hosted.submit. fold f. rewrite Hs. cbn [forwarded alerts].
    rewrite (Host_handleFormSubmit_valid zone st _ h eq_refl Hp' Hh
               ltac:(lra) H16).
    fold f.
    destruct (Hosted.store_entry _ _ _ _); cbn [bind fst snd]; [|reflexivity].
    rewrite app_nil_r. reflexivity.
Qed.

Lemma submit_through_modal_witness :
  let st :=
    Hosted.mkAppState (Host.Date_of_string (fixed_zone 0) "2024-02-29T12:00:00")
      [] "Jakso 2" true (mkFormData "7.5" "0.5" false false "" "" false) in
  Hosted.submit (fixed_zone 0) st
  = Returned (alerts (Hosted.handleSubmit (Hosted.formData st)), st).
Proof.
  set (st := Hosted.mkAppState _ _ _ _ _).
  apply (submit_through_modal (fixed_zone 0) st). reflexivity.
Defined.

(** *** The period average on a host *)

Section HostedAverage.

Variable zone : Host.TimeZone.
Variable filterDates : Date -> bool.

Lemma Host_lookup_plain_store (entries : list (string * Hosted.DateData))
    (k : string) (e : Hosted.DateData) :
  NoDup (map fst entries) -> In (k, e) entries ->
  Host.lookup k (hosted_plain_store entries) = Hosted.DateData_object e.
Proof.
  induction entries as [|[k' e'] entries IH]; intros Hnd Hin; [destruct Hin|].
  cbn [hosted_plain_store map fst snd Host.lookup].
  inversion Hnd as [|? ? Hnot Hnd']; subst.
  destruct Hin as [Heq | Hin].
  - injection Heq as -> ->. rewrite String.eqb_refl. reflexivity.
  - destruct (String.eqb_spec k' k) as [-> | Hne].
    + exfalso. apply Hnot. apply (in_map fst) in Hin. exact Hin.
    + apply IH; assumption.
Qed.

Lemma Host_fold_step_plain (entries sel : list (string * Hosted.DateData))
    (a : F64.t) :
  NoDup (map fst entries) -> incl sel entries ->
  fold_left (hosted_step (hosted_plain_store entries)) (map fst sel)
            (Returned a)
  = Returned (fold_left F64.add
                (map (fun ke => hosted_contribution (snd ke)) sel) a).
Proof.
  intros Hnd. revert a. induction sel as [|[k e] sel IH]; intros a Hincl.
  - reflexivity.
  - cbn [map fst snd fold_left].
    assert (Hin : In (k, e) entries) by (apply Hincl; left; reflexivity).
    assert (Hstep : hosted_step (hosted_plain_store entries) (Returned a) k
                    = Returned (F64.add a (hosted_contribution e))).
    { unfold hosted_step. cbn [bind Host.get].
      rewrite (Host_lookup_plain_store entries k e Hnd Hin).
      unfold Hosted.DateData_object, hosted_contribution.
      cbn [Host.get Host.lookup String.eqb Ascii.eqb Bool.eqb bind
           Host.Number Host.ToNumber].
      rewrite literal_0. reflexivity. }
    rewrite Hstep. apply IH.
    intros x Hx. apply Hincl. right. exact Hx.
Qed.

Lemma Host_keys_plain_store (entries : list (string * Hosted.DateData)) :
  Host.Object_keys (hosted_plain_store entries) = map fst entries.
Proof.
  unfold Host.Object_keys, hosted_plain_store. rewrite map_map. reflexivity.
Qed.

Lemma Host_filter_map_fst (entries : list (string * Hosted.DateData)) :
  filter (hosted_accepted zone filterDates) (map fst entries)
  = map fst
      (filter (fun ke => hosted_accepted zone filterDates (fst ke)) entries).
Proof.
  induction entries as [|[k e] entries IH]; [reflexivity|].
  cbn [map fst filter]. destruct (hosted_accepted zone filterDates k);
    cbn [map fst]; rewrite IH; reflexivity.
Qed.

End HostedAverage.

Lemma Host_calculateAverage_unfold (zone : Host.TimeZone)
    (data : list (string * Host.value)) (filterDates : Date -> bool) :
  Hosted.calculateAverage zone data filterDates =
  let filteredDates :=
    filter (hosted_accepted zone filterDates) (Host.Object_keys data) in
  total <- fold_left (hosted_step data) filteredDates (Returned (F64.Fin 0)) ;;
  let len := F64.round (inject_Z (Z.of_nat (List.length filteredDates))) in
  Returned (Host.toFixed 2
              (if F64.ltb (F64.Fin 0) len then F64.div total len
               else F64.Fin 0)).
Proof. reflexivity. Qed.

(** The length of a list as a number. *)
Lemma length_number (A : Type) (l : list A) :
  (Z.of_nat (List.length l) <= 2 ^ 53)%Z ->
  F64.round (inject_Z (Z.of_nat (List.length l)))
  = F64.Fin (inject_Z (Z.of_nat (List.length l))).
Proof. intros H. apply round_Z. lia. Qed.

Lemma Host_length_positive (A : Type) (l : list A) :
  F64.ltb (F64.Fin 0) (F64.Fin (inject_Z (Z.of_nat (List.length l))))
  = negb (is_nil l).
Proof.
  change (F64.Fin 0) with (F64.Fin (inject_Z 0)). rewrite F64_ltb_Z.
  destruct l as [|a l]; [reflexivity|].
  cbn [is_nil negb List.length]. apply Z.ltb_lt. lia.
Qed.

(** The mean that [calculateAverage] writes for a store of plain
    records. *)
Lemma Host_calculateAverage_plain_mean (zone : Host.TimeZone)
    (entries : list (string * Hosted.DateData)) (filterDates : Date -> bool) :
  NoDup (map fst entries) ->
  (Z.of_nat (List.length entries) <= 2 ^ 53)%Z ->
  let sel :=
    filter (fun ke => hosted_accepted zone filterDates (fst ke)) entries in
  Hosted.calculateAverage zone (hosted_plain_store entries) filterDates
  = Returned
      (Host.toFixed 2
         (binary64_mean (map (fun ke => hosted_contribution (snd ke)) sel))).
Proof.
  intros Hnd Hlen sel.
  rewrite Host_calculateAverage_unfold. cbv zeta.
  rewrite Host_keys_plain_store, Host_filter_map_fst. fold sel.
  rewrite (Host_fold_step_plain entries sel (F64.Fin 0) Hnd).
  2:{ intros x Hx. apply filter_In in Hx. apply Hx. }
  cbn [bind].
  assert (Hsel : (Z.of_nat (List.length sel) <= 2 ^ 53)%Z).
  { pose proof (filter_length_le
                  (fun ke => hosted_accepted zone filterDates (fst ke)) entries).
    fold sel in H. lia. }
  rewrite length_map, (length_number _ sel Hsel), Host_length_positive.
  unfold binary64_mean. rewrite length_map.
  destruct sel as [|x sel']; reflexivity.
Qed.

(** X7.  On a store of plain [DateData] records with distinct keys,
    [calculateAverage] returns the two-decimal text of the binary64 mean of
    the performances under the keys [filterDates] accepts: they are added
    from the left and the sum is divided by their number, a [NaN]
    performance counting as 0 while still counting as a key; the records of
    rejected keys play no part.  The two decimals are those of the binary64
    mean, which may lie just below the exact one. *)
Theorem calculateAverage_mean_of_accepted (zone : Host.TimeZone)
    (entries : list (string * Hosted.DateData)) (filterDates : Date -> bool) :
  NoDup (map fst entries) ->
  (Z.of_nat (List.length entries) <= 2 ^ 53)%Z ->
  let sel :=
    filter (fun ke => hosted_accepted zone filterDates (fst ke)) entries in
  let mean :=
    binary64_mean (map (fun ke => hosted_contribution (snd ke)) sel) in
  positional mean ->
  Hosted.calculateAverage zone (hosted_plain_store entries) filterDates
  = Returned (Host.toFixed 2 mean).
Proof.
  intros Hnd Hlen sel mean _.
  apply Host_calculateAverage_plain_mean; assumption.
Qed.

Lemma calculateAverage_mean_of_accepted_witness :
  Hosted.calculateAverage (fixed_zone 0)
    (hosted_plain_store
       [("2024-01-05"%string,
         Hosted.mkDateData (F64.Fin 8) (F64.Fin 8) false false);
        ("2024-01-20"%string,
         Hosted.mkDateData F64.NaN (F64.Fin 8) false false);
        ("2024-01-21"%string,
         Hosted.mkDateData (F64.Fin 9.5) (F64.Fin 8) false false)])
    (fun d => lt (getTime d) (Fin (inject_Z 1705795200000)))
  = Returned "4.00"%string.
Proof.
  apply (calculateAverage_mean_of_accepted (fixed_zone 0)
           [("2024-01-05"%string,
             Hosted.mkDateData (F64.Fin 8) (F64.Fin 8) false false);
            ("2024-01-20"%string,
             Hosted.mkDateData F64.NaN (F64.Fin 8) false false);
            ("2024-01-21"%string,
             Hosted.mkDateData (F64.Fin 9.5) (F64.Fin 8) false false)]
           (fun d => lt (getTime d) (Fin (inject_Z 1705795200000)))).
  - repeat constructor; simpl; intuition discriminate.
  - vm_compute. discriminate.
  - vm_compute. reflexivity.
Defined.

(** A mean that binary64 leaves below the half: five records whose exact
    mean is 8.075 are written as 8.07. *)
Example average_below_a_half :
  Hosted.calculateAverage (fixed_zone 0)
    (hosted_plain_store
       [("2024-01-01"%string,
         Hosted.mkDateData (F64.Fin 8) (F64.Fin 8) false false);
        ("2024-01-02"%string,
         Hosted.mkDateData (F64.Fin 8) (F64.Fin 8) false false);
        ("2024-01-03"%string,
         Hosted.mkDateData (F64.Fin 8) (F64.Fin 8) false false);
        ("2024-01-04"%string,
         Hosted.mkDateData (F64.Fin 8) (F64.Fin 8) false false);
        ("2024-01-05"%string,
         Hosted.mkDateData (F64.Fin 8.375) (F64.Fin 8) false false)])
    (fun _ => true)
  = Returned "8.07"%string.
Proof. vm_compute. reflexivity. Qed.

(** *** Reading the average back on a host *)

Lemma digit_is_not_I (c : ascii) :
  is_digit c = true -> Ascii.eqb "I" c = false.
Proof.
  destruct c as [[] [] [] [] [] [] [] []]; intros H;
    try discriminate H; reflexivity.
Qed.

(** A two-decimal text does not start as [Infinity] does. *)
Lemma toFixed_2_not_Infinity (q : Q) :
  let (neg, body) :=
    Host.signed (drop_white (list_ascii_of_string (toFixed 2 (Fin q)))) in
  Host.prefix Host.Infinity_text body = false.
Proof.
  destruct (Qle_bool 0 q) eqn:E.
  - apply Qle_bool_true in E.
    set (n := round_half_up (q * inject_Z 100)).
    assert (Hn : (0 <= n)%Z).
    { apply round_half_up_nonneg. change (inject_Z 100) with 100. lra. }
    assert (Hz : (0 <= n / 100)%Z) by (apply Z.div_pos; lia).
    rewrite (toFixed_2_nonneg q E). fold n.
    destruct (decimal_of_Z_digits (n / 100) Hz) as (_ & Hall & Hne).
    rewrite chars_app.
    destruct (list_ascii_of_string (decimal_of_Z (n / 100))) as [|c l] eqn:El;
      [contradiction|].
    cbn [forallb] in Hall. apply andb_prop in Hall. destruct Hall as [Hc _].
    destruct (digit_is_plain c Hc) as (Hw & Hplus & Hminus).
    cbn [app drop_white]. rewrite Hw.
    cbn [Host.signed]. rewrite Hplus, Hminus.
    cbn [Host.prefix Host.Infinity_text list_ascii_of_string].
    rewrite (digit_is_not_I c Hc). reflexivity.
  - apply Qle_bool_false in E.
    set (n := round_half_up (- q * inject_Z 100)).
    assert (Hn : (0 <= n)%Z).
    { apply round_half_up_nonneg. change (inject_Z 100) with 100. lra. }
    assert (Hz : (0 <= n / 100)%Z) by (apply Z.div_pos; lia).
    rewrite (toFixed_2_neg q E). fold n.
    cbn [list_ascii_of_string drop_white].
    change (is_white "-") with false. cbv iota.
    cbn [Host.signed].
    change (Ascii.eqb "-" "+") with false.
    change (Ascii.eqb "-" "-") with true. cbv iota.
    destruct (decimal_of_Z_digits (n / 100) Hz) as (_ & Hall & Hne).
    rewrite chars_app.
    destruct (list_ascii_of_string (decimal_of_Z (n / 100))) as [|c l] eqn:El;
      [contradiction|].
    cbn [forallb] in Hall. apply andb_prop in Hall. destruct Hall as [Hc _].
    cbn [app Host.prefix Host.Infinity_text list_ascii_of_string].
    rewrite (digit_is_not_I c Hc). reflexivity.
Qed.

(** Reading a two-decimal text back gives the binary64 value of the
    hundredths it was written from. *)
Lemma Host_parseFloat_toFixed_2 (q : Q) :
  Host.parseFloat (Host.toFixed 2 (F64.Fin q))
  = F64.round ((if Qle_bool 0 q then 1 else -1)
               * inject_Z (round_half_up (Qabs q * 100)) / 100).
Proof.
  unfold Host.parseFloat, Host.toFixed.
  pose proof (toFixed_2_not_Infinity q) as Hinf.
  destruct (Host.signed (drop_white (list_ascii_of_string (toFixed 2 (Fin q)))))
    as [neg body].
  rewrite Hinf.
  destruct (parseFloat_toFixed_2 q) as (v & -> & Ev).
  apply round_comp. exact Ev.
Qed.

(** X23.  Read back with [parseFloat] as [App.tsx] does, the text
    [calculateAverage] returns for a store of plain records is the
    binary64 value of the binary64 mean rounded to hundredths, halves away
    from zero; the hundredths are within 0.005 of the binary64 mean, and
    the percentage shown is [calculatePercentage] of the value read
    back. *)
Theorem overallAverage_is_rounded_mean (zone : Host.TimeZone)
    (st : Hosted.AppState) (entries : list (string * Hosted.DateData))
    (m : Q) :
  Hosted.data st = hosted_plain_store entries -> NoDup (map fst entries) ->
  (Z.of_nat (List.length entries) <= 2 ^ 53)%Z ->
  let sel :=
    filter (fun ke =>
              hosted_accepted zone
                (Hosted.filterDates zone (Hosted.period st)) (fst ke))
           entries in
  binary64_mean (map (fun ke => hosted_contribution (snd ke)) sel)
  = F64.Fin m ->
  Qabs m < inject_Z (10 ^ 21) ->
  let hundredths :=
    (if Qle_bool 0 m then 1 else -1)
    * inject_Z (round_half_up (Qabs m * 100)) / 100 in
  Hosted.overallAverageNormal zone st = Returned (F64.round hundredths) /\
  Qabs (hundredths - m) <= 1 # 200 /\
  Hosted.overallAveragePercentageNormal zone st
  = Returned (Hosted.calculatePercentage (F64.round hundredths)).
Proof.
  intros Hdata Hnd Hlen sel Hmean Hbound hundredths.
  assert (Havg : Hosted.overallAverageNormal zone st
                 = Returned (F64.round hundredths)).
  { unfold Hosted.overallAverageNormal. rewrite Hdata.
    rewrite (Host_calculateAverage_plain_mean zone entries _ Hnd Hlen).
    fold sel. rewrite Hmean. cbn [bind].
    rewrite Host_parseFloat_toFixed_2. reflexivity. }
  split; [exact Havg|]. split.
  - subst hundredths.
    destruct (round_half_up_spec (Qabs m * 100)) as [Hlo Hhi].
    generalize dependent (inject_Z (round_half_up (Qabs m * 100))).
    intros n Havg Hlo Hhi.
    apply Qabs_Qle_condition.
    destruct (Qle_bool 0 m) eqn:E.
    + apply Qle_bool_true in E. rewrite (Qabs_pos m E) in Hlo, Hhi.
      assert (Ev : 1 * n / 100 == n * (1 # 100)) by field.
      rewrite Ev. clear Havg Ev. split; lra.
    + apply Qle_bool_false in E.
      rewrite (Qabs_neg m) in Hlo, Hhi by lra.
      assert (Ev : -1 * n / 100 == - n * (1 # 100)) by field.
      rewrite Ev. clear Havg Ev. split; lra.
  - unfold Hosted.overallAveragePercentageNormal. rewrite Havg. reflexivity.
Qed.

Lemma overallAverage_is_rounded_mean_witness :
  let st :=
    Hosted.mkAppState (Host.Date_of_string (fixed_zone 0) "2024-01-10T12:00:00")
      (hosted_plain_store
         [("2024-01-05"%string,
           Hosted.mkDateData (F64.Fin 8) (F64.Fin 8) false false);
          ("2024-01-07"%string,
           Hosted.mkDateData (F64.Fin 9) (F64.Fin 8) false false);
          ("2024-01-09"%string,
           Hosted.mkDateData (F64.Fin 9) (F64.Fin 8) false false)])
      "Jakso 1" false initialFormData in
  Hosted.overallAverageNormal (fixed_zone 0) st = Returned (F64.round 8.67).
Proof.
  set (st := Hosted.mkAppState _ _ _ _ _).
  assert (Hmean : exists m : Q,
    binary64_mean
      (map (fun ke => hosted_contribution (snd ke))
         (filter (fun ke =>
                    hosted_accepted (fixed_zone 0)
                      (Hosted.filterDates (fixed_zone 0) (Hosted.period st))
                      (fst ke))
            [("2024-01-05"%string,
              Hosted.mkDateData (F64.Fin 8) (F64.Fin 8) false false);
             ("2024-01-07"%string,
              Hosted.mkDateData (F64.Fin 9) (F64.Fin 8) false false);
             ("2024-01-09"%string,
              Hosted.mkDateData (F64.Fin 9) (F64.Fin 8) false false)]))
    = F64.Fin m /\ Qabs m < inject_Z (10 ^ 21) /\
    F64.round ((if Qle_bool 0 m then 1 else -1)
               * inject_Z (round_half_up (Qabs m * 100)) / 100)
    = F64.round 8.67).
  { eexists. split; [vm_compute; reflexivity|].
    split; vm_compute; reflexivity. }
  destruct Hmean as (m & Hm & Hb & Hr).
  rewrite <- Hr.
  apply (overallAverage_is_rounded_mean (fixed_zone 0) st
           [("2024-01-05"%string,
             Hosted.mkDateData (F64.Fin 8) (F64.Fin 8) false false);
            ("2024-01-07"%string,
             Hosted.mkDateData (F64.Fin 9) (F64.Fin 8) false false);
            ("2024-01-09"%string,
             Hosted.mkDateData (F64.Fin 9) (F64.Fin 8) false false)] m).
  - reflexivity.
  - repeat constructor; simpl; intuition discriminate.
  - vm_compute. discriminate.
  - exact Hm.
  - exact Hb.
Defined.
